(** * WhatsApp health assistant: session store, safety gating and model gateway

    A shallow embedding of [src/app.py].  Python [str] values are byte strings
    holding the UTF-8 text of the source; the [user_sessions] dict is a [gmap]
    keyed by user id.  Everything the module obtains from outside itself (the
    clock, langdetect, the Gemini backend and the signature of its SDK, the
    media download, and the interpreter's [str.lower], [str.strip] and
    [int]) is a field of [Runtime], so the theorems hold for every behaviour
    of those collaborators.  Effects are
    threaded through a small state-and-exception monad over [World]. *)

From Stdlib Require Import QArith ZArith Lia List Bool String Ascii.
From stdpp Require Import gmap strings list fin_maps.

Open Scope string_scope.
Open Scope list_scope.

(** ** Python string operations used by the module *)

(** [word in s] on [str]: substring test. *)
Fixpoint str_in (word s : string) : bool :=
  String.prefix word s ||
  match s with
  | EmptyString => false
  | String _ s' => str_in word s'
  end.

(** [any(word in s for word in words)]. *)
Definition any_in (words : list string) (s : string) : bool :=
  existsb (fun word => str_in word s) words.

(** [s.replace(old, new)] for single characters. *)
Fixpoint str_replace (old new : ascii) (s : string) : string :=
  match s with
  | EmptyString => EmptyString
  | String c s' =>
      String (if Ascii.eqb c old then new else c) (str_replace old new s')
  end.

(** Truth value of a [str]: non-empty. *)
Definition truthy (s : string) : bool :=
  match s with
  | EmptyString => false
  | String _ _ => true
  end.

(** [d.get(key, default)] on a dict with string keys; the key may be [None]. *)
Fixpoint dict_get (d : list (string * string)) (key : option string)
    (default : string) : string :=
  match d with
  | [] => default
  | (k, v) :: d' =>
      match key with
      | Some k' => if String.eqb k k' then v else dict_get d' key default
      | None => default
      end
  end.

(** [x in l] on a list of strings. *)
Definition list_in (x : string) (l : list string) : bool :=
  existsb (String.eqb x) l.

Definition LF : string := String "010"%char EmptyString.

(** ** Constants *)

Definition SESSION_TIMEOUT : Q := 300.

Definition EXIT_WORDS : list string :=
  ["bye"; "no"; "thanks"; "thank you"; "नहीं"; "धन्यवाद"; "stop"; "exit";
   "band karo"].

Definition EMERGENCY_WORDS : list string :=
  ["unconscious"; "chest pain"; "heavy bleeding"; "heart attack";
   "saans lene me dikkat"; "सांस लेने में दिक्कत"; "दम घुट रहा";
   "साँस लेने में कठिनाई"].

Definition SUPPORTED_LANGS : list string := ["en"; "hi"; "mr"; "bn"].

Definition EMERGENCY_MESSAGE : list (string * string) :=
  [("hi", "⚠️ **तुरंत मदद!** यह एक आपातकालीन स्थिति हो सकती है। कृपया बिना देर किए एम्बुलेंस को कॉल करें: **108** या नजदीकी स्वास्थ्य केंद्र पर जाएं।");
   ("en", "⚠️ **EMERGENCY!** This may be a life-threatening situation. Please call an ambulance immediately: **108** or go to the nearest health center.");
   ("mr", "⚠️ **त्वरित मदत!** ही गंभीर समस्या असू शकते. कृपया त्वरित ॲम्बुलन्सला कॉल करा: **108** किंवा जवळच्या आरोग्य केंद्रात जा.");
   ("bn", "⚠️ **জরুরী!** এটি একটি জীবন-হুমকির পরিস্থিতি হতে পারে। অবিলম্বে অ্যাম্বুলেন্সকে কল করুন: **108** অথবা নিকটস্থ স্বাস্থ্যকেন্দ্রে যান।")].

(** [EMERGENCY_MESSAGE["en"]]; the key is present. *)
Definition EMERGENCY_MESSAGE_en : string :=
  dict_get EMERGENCY_MESSAGE (Some "en") "".

Definition EXIT_REPLY : string :=
  "Conversation ended. You can send a new message to start again.".

Definition EMPTY_NOTICE : string :=
  "Sorry, I received an empty message. Please try again or type your question.".

(** ** Data model *)

Inductive Role := user | model.

(** [types.Content(role=..., parts=[Part.from_text(...)])]. *)
Record Content := { role : Role; text : string }.

(** The session dict: keys [lang], [msg_count], [last_seen], [history]. *)
Record Session := {
  lang : option string;
  msg_count : Z;
  last_seen : Q;
  history : list Content
}.

Definition set_lang (l : option string) (s : Session) : Session :=
  {| lang := l; msg_count := msg_count s; last_seen := last_seen s;
     history := history s |}.

Definition set_msg_count (n : Z) (s : Session) : Session :=
  {| lang := lang s; msg_count := n; last_seen := last_seen s;
     history := history s |}.

Definition set_last_seen (t : Q) (s : Session) : Session :=
  {| lang := lang s; msg_count := msg_count s; last_seen := t;
     history := history s |}.

Definition history_append (c : Content) (s : Session) : Session :=
  {| lang := lang s; msg_count := msg_count s; last_seen := last_seen s;
     history := history s ++ [c] |}.

Inductive Level := INFO | ERROR | CRITICAL.

(** A record emitted through the module's [logger]: its level and format
    string (the arguments are not kept). *)
Record LogRecord := { level : Level; msg : string }.

Inductive exn :=
  | APIError
  | RequestException
  | KeyError
  | AttributeError
  | Exception (what : string)
  | TypeError
  | ValueError.

Inductive result (A : Type) :=
  | Ret (a : A)
  | Raise (e : exn).
Arguments Ret {A} a.
Arguments Raise {A} e.

(** The four locals lines 260-263 of [whatsapp_webhook] read off
    [request.form]: [NumMedia] is the field after [int(...)], and a missing
    [From] or [Body] is the empty string. *)
Record Request := {
  From : string;
  Body : string;
  MediaUrl0 : option string;
  NumMedia : Z
}.

(** The collaborators outside the module.  Oracles are indexed by the number
    of earlier calls, so successive calls may answer differently. *)
Record Runtime := {
  (** [gemini_client is not None] *)
  gemini_client : bool;
  (** the reading returned by the n-th [time.time()] *)
  time_time : nat -> Q;
  (** n-th [langdetect.detect(text)]: the code returned or the exception
      raised *)
  detect : nat -> string -> result string;
  (** n-th [gemini_client.models.generate_content] for a text turn, given
      its [contents] and system instruction: the [response.text] (possibly
      [None]) or the exception raised *)
  generate_content :
    nat -> list Content -> string -> result (option string);
  (** n-th media download followed by the multimodal transcription request:
      the [response.text] or the exception raised *)
  transcribe_content : nat -> string -> result (option string);
  (** [str.lower], [str.upper] and [str.strip] *)
  str_lower : string -> string;
  str_upper : string -> string;
  str_strip : string -> string;
  (** whether the installed SDK's [types.Part.from_text] takes its text as a
      positional argument, the way lines 165 and 185 call it; where the
      parameter is keyword-only the call raises [TypeError] *)
  part_from_text_positional : bool;
  (** [int(s)] on a [str]: the integer, or [None] when it raises
      [ValueError] *)
  py_int : string -> option Z
}.

(** The mutable state of the process and the trace of its effects:
    [gateway_calls] holds the [contents] of every text generation request
    issued so far, [backoff_waits] the waits drawn from the backoff
    generator before each retry, [log] the records emitted by [logger]. *)
Record World := {
  user_sessions : gmap string Session;
  clock_reads : nat;
  detect_calls : nat;
  gateway_calls : list (list Content);
  transcribe_calls : nat;
  backoff_waits : list Z;
  log : list LogRecord
}.

Definition set_sessions (m : gmap string Session) (w : World) : World :=
  {| user_sessions := m; clock_reads := clock_reads w;
     detect_calls := detect_calls w; gateway_calls := gateway_calls w;
     transcribe_calls := transcribe_calls w; backoff_waits := backoff_waits w;
     log := log w |}.

Definition tick_clock (w : World) : World :=
  {| user_sessions := user_sessions w; clock_reads := S (clock_reads w);
     detect_calls := detect_calls w; gateway_calls := gateway_calls w;
     transcribe_calls := transcribe_calls w; backoff_waits := backoff_waits w;
     log := log w |}.

Definition tick_detect (w : World) : World :=
  {| user_sessions := user_sessions w; clock_reads := clock_reads w;
     detect_calls := S (detect_calls w); gateway_calls := gateway_calls w;
     transcribe_calls := transcribe_calls w; backoff_waits := backoff_waits w;
     log := log w |}.

Definition record_gateway_call (contents : list Content) (w : World) : World :=
  {| user_sessions := user_sessions w; clock_reads := clock_reads w;
     detect_calls := detect_calls w;
     gateway_calls := gateway_calls w ++ [contents];
     transcribe_calls := transcribe_calls w; backoff_waits := backoff_waits w;
     log := log w |}.

Definition tick_transcribe (w : World) : World :=
  {| user_sessions := user_sessions w; clock_reads := clock_reads w;
     detect_calls := detect_calls w; gateway_calls := gateway_calls w;
     transcribe_calls := S (transcribe_calls w);
     backoff_waits := backoff_waits w; log := log w |}.

Definition record_wait (seconds : Z) (w : World) : World :=
  {| user_sessions := user_sessions w; clock_reads := clock_reads w;
     detect_calls := detect_calls w; gateway_calls := gateway_calls w;
     transcribe_calls := transcribe_calls w;
     backoff_waits := backoff_waits w ++ [seconds]; log := log w |}.

Definition record_log (r : LogRecord) (w : World) : World :=
  {| user_sessions := user_sessions w; clock_reads := clock_reads w;
     detect_calls := detect_calls w; gateway_calls := gateway_calls w;
     transcribe_calls := transcribe_calls w; backoff_waits := backoff_waits w;
     log := log w ++ [r] |}.

(** ** The state-and-exception monad *)

Definition M (A : Type) : Type := World -> result A * World.

Definition ret {A} (a : A) : M A := fun w => (Ret a, w).

Definition raise {A} (e : exn) : M A := fun w => (Raise e, w).

Definition bind {A B} (m : M A) (k : A -> M B) : M B :=
  fun w =>
    match m w with
    | (Ret a, w') => k a w'
    | (Raise e, w') => (Raise e, w')
    end.

(** [try: body  except Exception as e: handler e]; the state reached when
    the exception was raised is kept. *)
Definition try_except {A} (body : M A) (handler : exn -> M A) : M A :=
  fun w =>
    match body w with
    | (Ret a, w') => (Ret a, w')
    | (Raise e, w') => handler e w'
    end.

Declare Scope py_scope.
Delimit Scope py_scope with py.
Notation "x <- m ;; k" := (bind m (fun x => k))
  (at level 100, m at next level, right associativity) : py_scope.
Notation "m ;; k" := (bind m (fun _ => k))
  (at level 100, right associativity) : py_scope.
Open Scope py_scope.

Definition sessions_get (user_id : string) : M (option Session) :=
  fun w => (Ret (user_sessions w !! user_id), w).

(** [user_sessions[user_id]] *)
Definition sessions_item (user_id : string) : M Session :=
  fun w =>
    match user_sessions w !! user_id with
    | Some s => (Ret s, w)
    | None => (Raise KeyError, w)
    end.

(** [user_sessions[user_id] = state], and every in-place update of the dict
    object stored under [user_id]. *)
Definition sessions_set (user_id : string) (s : Session) : M unit :=
  fun w => (Ret tt, set_sessions (<[user_id := s]> (user_sessions w)) w).

(** [user_sessions.pop(user_id, None)] *)
Definition sessions_pop (user_id : string) : M unit :=
  fun w => (Ret tt, set_sessions (delete user_id (user_sessions w)) w).

Definition logger (lvl : Level) (fmt : string) : M unit :=
  fun w => (Ret tt, record_log {| level := lvl; msg := fmt |} w).

Definition time_sleep (seconds : Z) : M unit :=
  fun w => (Ret tt, record_wait seconds w).

Section App.
Variable rt : Runtime.

Definition time_time_call : M Q :=
  fun w => (Ret (time_time rt (clock_reads w)), tick_clock w).

Definition detect_call (text : string) : M string :=
  fun w => (detect rt (detect_calls w) text, tick_detect w).

Definition generate_content_call (contents : list Content)
    (system_instruction : string) : M (option string) :=
  fun w =>
    (generate_content rt (length (gateway_calls w)) contents
       system_instruction,
     record_gateway_call contents w).

Definition transcribe_content_call (media_url : string) : M (option string) :=
  fun w =>
    (transcribe_content rt (transcribe_calls w) media_url, tick_transcribe w).

(** [types.Part.from_text(text)], called with a positional argument. *)
Definition part_from_text (text0 : string) : M unit :=
  if part_from_text_positional rt then ret tt else raise TypeError.

(** ** Core utilities *)

Definition detect_language (text : string) : M string :=
  try_except
    (lang <- detect_call text ;;
     ret (if list_in lang SUPPORTED_LANGS then lang else "en"))
    (fun _ => ret "en").

Definition generate_maps_link (lang : option string) : string :=
  let localized_query :=
    dict_get
      [("hi", "नजदीकी स्वास्थ्य केंद्र");
       ("mr", "जवळचे आरोग्य केंद्र");
       ("bn", "নিকটস্থ স্বাস্থ্যকেন্দ্র");
       ("en", "health center near me")]
      lang "health center near me" in
  "https://www.google.com/maps/search/?api=1&query="
    +:+ str_replace " " "+" localized_query.

Definition fallback_message (lang : option string) : string :=
  dict_get
    [("hi", "माफ़ कीजिए, मैं अभी जवाब नहीं दे पा रहा हूँ। कृपया बाद में प्रयास करें।");
     ("mr", "माफ करा, मी सध्या उत्तर देऊ शकत नाही. कृपया नंतर प्रयत्न करा.");
     ("bn", "দুঃখিত, আমি এখন উত্তর দিতে পারছি না। পরে আবার চেষ্টা করুন।");
     ("en", "Sorry, I couldn't process that right now. Please try again later.")]
    lang "Sorry, please try again later.".

Definition fresh_session (t : Q) : Session :=
  {| lang := None; msg_count := 0; last_seen := t; history := [] |}.

Definition get_user_state (user_id : string) : M Session :=
  state <- sessions_get user_id ;;
  match state with
  | Some st =>
      now <- time_time_call ;;
      if Qle_bool (now - last_seen st) SESSION_TIMEOUT then
        t <- time_time_call ;;
        let st := set_last_seen t st in
        sessions_set user_id st ;;
        ret st
      else
        t <- time_time_call ;;
        ret (fresh_session t)
  | None =>
      t <- time_time_call ;;
      ret (fresh_session t)
  end.

(** ** Voice and model gateway *)

(** [download_media_as_bytes] and the multimodal request are one oracle call;
    a missing Twilio client or a failed download is an exception of it. *)
Definition transcribe_audio_gemini (media_url from_number : string)
    : M string :=
  if negb (gemini_client rt) then
    raise (Exception "Gemini client not configured.")
  else
    response_text <- transcribe_content_call media_url ;;
    match response_text with
    | Some t => ret (str_strip rt t)
    | None => raise AttributeError
    end.

(** The f-string [base], given the upper-cased language code. *)
Definition system_instruction_base (upper_lang : string) : string :=
  "You are a highly compassionate, non-diagnostic AI Health Assistant operating in a rural context. Answer only in the user's language ("
    +:+ upper_lang +:+ ")." +:+ LF
    +:+ "- **Your Role:** Provide empathetic, safe, and actionable triage advice (first aid, home care, prevention)." +:+ LF
    +:+ "- **Diagnosis:** **NEVER** provide a definitive diagnosis (e.g., 'You have Dengue'). Use non-committal language (e.g., 'Your symptoms may be consistent with a common viral fever...')." +:+ LF
    +:+ "- **Conciseness:** Keep your response brief—**maximum of three concise paragraphs**." +:+ LF
    +:+ "- **Safety:** If any symptom is severe, persistent, or a clear emergency, your **MAIN** response must be to **seek professional medical help immediately**." +:+ LF
    +:+ "- **Medication:** **NEVER** recommend prescription medication. Only suggest common, over-the-counter remedies like rest, fluids, and safe pain relievers (e.g., paracetamol)." +:+ LF
    +:+ "- **Non-Health Queries:** If the user asks a non-health question (e.g., politics, jokes), **politely decline to answer** and redirect them back to health topics. Keep this refusal very brief." +:+ LF
    +:+ "- **Tone:** Use simple, non-medical, and culturally appropriate language, like talking to a family member in a village setting." +:+ LF.

(** Only [lang.upper()] can fail here: [None] has no such method. *)
Definition build_gemini_system_instruction (lang : option string)
    : M string :=
  match lang with
  | None => raise AttributeError
  | Some l => ret (system_instruction_base (str_upper rt l))
  end.

(** [backoff.expo] with base 2: the n-th wait is [factor * 2 ** n] (the
    sleep itself is a random fraction of it). *)
Definition expo (factor : Z) (n : nat) : Z := factor * 2 ^ Z.of_nat n.

(** The exception classes listed in the decorator. *)
Definition retryable (e : exn) : bool :=
  match e with
  | APIError | RequestException => true
  | _ => false
  end.

(** The retry loop of [backoff.on_exception]: [tries] calls have been made
    when the handler runs and [remaining] more are allowed; a listed
    exception on the last allowed call is re-raised. *)
Fixpoint retry {A} (remaining tries : nat) (factor : Z) (target : M A)
    : M A :=
  try_except target
    (fun e =>
       if retryable e then
         match remaining with
         | O => raise e
         | S remaining' =>
             time_sleep (expo factor (tries - 1)) ;;
             retry remaining' (S tries) factor target
         end
       else raise e).

Definition on_exception {A} (max_tries : nat) (factor : Z) (target : M A)
    : M A :=
  retry (max_tries - 1) 1 factor target.

(** The undecorated body of [ask_llm].  The argument of [append] at line 165
    is evaluated, and may raise, before the history is touched. *)
Definition ask_llm_body (user_id question : string) (lang : option string)
    : M string :=
  if negb (gemini_client rt) then ret (fallback_message lang)
  else
    state <- sessions_item user_id ;;
    part_from_text question ;;
    let state := history_append {| role := user; text := question |} state in
    sessions_set user_id state ;;
    system_instruction <- build_gemini_system_instruction lang ;;
    try_except
      (response_text <-
         generate_content_call (history state) system_instruction ;;
       reply <- match response_text with
                | Some t => ret (str_strip rt t)
                | None => raise AttributeError
                end ;;
       if negb (truthy reply) then raise (Exception "LLM returned empty.")
       else
         part_from_text reply ;;
         let state :=
           history_append {| role := model; text := reply |} state in
         sessions_set user_id state ;;
         ret reply)
      (fun e =>
         match e with
         | APIError => logger ERROR "Gemini API Error: %s" ;; raise e
         | _ =>
             logger ERROR "Non-API exception in ask_llm: %s" ;;
             ret (fallback_message lang)
         end).

Definition ask_llm (user_id question : string) (lang : option string)
    : M string :=
  on_exception 3 1 (ask_llm_body user_id question lang).

(** ** Conversation flow manager *)

Definition welcome_text (lang : option string) : string :=
  dict_get
    [("hi", "नमस्ते! मैं आपका AI स्वास्थ्य सहायक हूँ। कृपया अपने स्वास्थ्य संबंधी सवाल पूछें।");
     ("en", "Hello! I'm your AI Health Assistant. Please ask your health-related question.");
     ("mr", "नमस्कार! मी तुमचा आरोग्य सहाय्यक आहे. कृपया तुमचा आरोग्य संबंधित प्रश्न विचारा.");
     ("bn", "হ্যালো! আমি আপনার এআই স্বাস্থ্য সহকারী। আপনার স্বাস্থ্য সংক্রান্ত প্রশ্ন জিজ্ঞাসা করুন।")]
    lang
    "Hello! I'm your AI Health Assistant. Please ask your health-related question.".

(** The welcome chunk added to [final_response] on a first text message. *)
Definition welcome_banner (lang : option string) : string :=
  "*" +:+ welcome_text lang +:+ "*" +:+ LF +:+ LF +:+ "---" +:+ LF.

(** The referral chunk added after the model reply. *)
Definition referral_block (lang : option string) : string :=
  LF +:+ LF +:+ "---" +:+ LF
    +:+ "🗺️ **नजदीकी स्वास्थ्य केंद्र / Nearby Health Center:** [नक्शा / Map Link]("
    +:+ generate_maps_link lang +:+ ")".

Definition build_conversation_response (user_id incoming_msg_raw : string)
    (is_audio : bool) : M string :=
  state <- get_user_state user_id ;;
  let is_first_message := (msg_count state =? 0)%Z in
  let state := set_msg_count (msg_count state + 1) state in
  state <- match lang state with
           | None =>
               l <- detect_language incoming_msg_raw ;;
               ret (set_lang (Some l) state)
           | Some _ => ret state
           end ;;
  sessions_set user_id state ;;
  let incoming_msg_normalized := str_strip rt (str_lower rt incoming_msg_raw) in
  let lang := lang state in
  let final_response := "" in
  if any_in EXIT_WORDS incoming_msg_normalized then
    sessions_pop user_id ;;
    ret EXIT_REPLY
  else if any_in EMERGENCY_WORDS incoming_msg_normalized then
    logger CRITICAL "Emergency keyword detected from %s" ;;
    sessions_pop user_id ;;
    ret (dict_get EMERGENCY_MESSAGE lang EMERGENCY_MESSAGE_en)
  else
    let final_response :=
      if is_first_message && negb is_audio
      then final_response +:+ welcome_banner lang
      else final_response in
    try_except
      (llm_reply <- ask_llm user_id incoming_msg_raw lang ;;
       let final_response := final_response +:+ llm_reply in
       ret (final_response +:+ referral_block lang))
      (fun _ => ret (fallback_message lang)).

(** ** The webhook *)

(** What the voice branch hands on: an early reply, or the text to process. *)
Inductive Voice :=
  | Reply (reply_text : string)
  | Proceed (incoming_msg_body : string) (is_audio : bool).

(** [int(s)] on a form field. *)
Definition int (field : string) : M Z :=
  match py_int rt field with
  | Some n => ret n
  | None => raise ValueError
  end.

(** Lines 260-263: the fields are read off [request.form], a dict of
    strings.  [int(...)] is outside every [try]: on a [NumMedia] that is not
    a number it raises [ValueError] before anything is logged. *)
Definition read_form (form : gmap string string) : M Request :=
  let from_number := default "" (form !! "From") in
  let incoming_msg_body := default "" (form !! "Body") in
  let media_url := form !! "MediaUrl0" in
  num_media <- match form !! "NumMedia" with
               | Some field => int field
               | None => ret 0%Z
               end ;;
  ret {| From := from_number; Body := incoming_msg_body;
         MediaUrl0 := media_url; NumMedia := num_media |}.

(** Lines 264-299, on the fields read. *)
Definition whatsapp_webhook (form : Request) : M string :=
  let from_number := From form in
  let incoming_msg_body := Body form in
  let media_url := MediaUrl0 form in
  let num_media := NumMedia form in
  logger INFO "Incoming message from %s: Body='%s', Media='%s'" ;;
  voice <-
    match media_url with
    | Some url =>
        if (0 <? num_media)%Z && truthy url then
          user_state <- get_user_state from_number ;;
          let user_lang := lang user_state in
          try_except
            (incoming_msg_body <- transcribe_audio_gemini url from_number ;;
             logger INFO "Transcribed Text: %s" ;;
             match lang user_state with
             | None =>
                 l <- detect_language incoming_msg_body ;;
                 sessions_set from_number (set_lang (Some l) user_state) ;;
                 ret (Proceed incoming_msg_body true)
             | Some _ => ret (Proceed incoming_msg_body true)
             end)
            (fun e =>
               logger ERROR "Failed to process media/transcribe audio for %s: %s" ;;
               ret (Reply (fallback_message user_lang)))
        else ret (Proceed incoming_msg_body false)
    | None => ret (Proceed incoming_msg_body false)
    end ;;
  match voice with
  | Reply reply_text => ret reply_text
  | Proceed incoming_msg_body is_audio =>
      if negb (truthy (str_strip rt incoming_msg_body)) then ret EMPTY_NOTICE
      else build_conversation_response from_number incoming_msg_body is_audio
  end.

(** The whole of [whatsapp_webhook], lines 260-299, on the posted form. *)
Definition whatsapp_webhook_post (form : gmap string string) : M string :=
  request <- read_form form ;;
  whatsapp_webhook request.

End App.

(** ** A concrete runtime for closed examples

    [str.lower], [str.upper] and [str.strip] restricted to ASCII letters and
    ASCII whitespace (other bytes are left alone), a clock that advances one
    second per reading, a detector that always answers English, and a backend
    that raises [APIError] on its first [failures] requests and answers
    [answer] afterwards, an SDK that takes the text of a part positionally,
    and [int] on plain decimal numerals. *)

Definition ascii_lower (c : ascii) : ascii :=
  let n := nat_of_ascii c in
  if (65 <=? n)%nat && (n <=? 90)%nat then ascii_of_nat (n + 32) else c.

Definition ascii_upper (c : ascii) : ascii :=
  let n := nat_of_ascii c in
  if (97 <=? n)%nat && (n <=? 122)%nat then ascii_of_nat (n - 32) else c.

Fixpoint str_map (f : ascii -> ascii) (s : string) : string :=
  match s with
  | EmptyString => EmptyString
  | String c s' => String (f c) (str_map f s')
  end.

Definition ascii_space (c : ascii) : bool :=
  let n := nat_of_ascii c in
  (n =? 32)%nat || ((9 <=? n)%nat && (n <=? 13)%nat).

Fixpoint lstrip (s : string) : string :=
  match s with
  | EmptyString => EmptyString
  | String c s' => if ascii_space c then lstrip s' else s
  end.

Fixpoint rstrip (s : string) : string :=
  match s with
  | EmptyString => EmptyString
  | String c s' =>
      match rstrip s' with
      | EmptyString => if ascii_space c then EmptyString else String c EmptyString
      | r => String c r
      end
  end.

(** [int(s)] on an optional sign followed by ASCII digits. *)
Fixpoint digits (acc : Z) (s : string) : option Z :=
  match s with
  | EmptyString => Some acc
  | String c s' =>
      let n := nat_of_ascii c in
      if (48 <=? n)%nat && (n <=? 57)%nat
      then digits (10 * acc + Z.of_nat (n - 48)) s'
      else None
  end.

Definition decimal (s : string) : option Z :=
  match s with
  | EmptyString => None
  | String "-" (String c s') => option_map Z.opp (digits 0 (String c s'))
  | String "+" (String c s') => digits 0 (String c s')
  | String "-" EmptyString | String "+" EmptyString => None
  | _ => digits 0 s
  end.

Definition demo_runtime (failures : nat) (answer : option string) : Runtime :=
  {| gemini_client := true;
     time_time := fun n => inject_Z (Z.of_nat n);
     detect := fun _ _ => Ret "en";
     generate_content := fun n _ _ =>
       if (n <? failures)%nat then Raise APIError else Ret answer;
     transcribe_content := fun _ _ => Ret (Some "I have a mild headache");
     str_lower := str_map ascii_lower;
     str_upper := str_map ascii_upper;
     str_strip := fun s => rstrip (lstrip s);
     part_from_text_positional := true;
     py_int := decimal |}.

Definition empty_world : World :=
  {| user_sessions := ∅; clock_reads := 0; detect_calls := 0;
     gateway_calls := []; transcribe_calls := 0; backoff_waits := [];
     log := [] |}.

(** * Properties *)

(** ** Substring tests *)

(** [word] occurs in [s]. *)
Definition substring (word s : string) : Prop :=
  exists pre post, s = pre +:+ word +:+ post.

Lemma prefix_true_iff (p s : string) :
  String.prefix p s = true <-> exists post, s = p +:+ post.
Proof.
  revert s. induction p as [|c p IH]; intros s.
  - split; [intros _; exists s; reflexivity | destruct s; reflexivity].
  - destruct s as [|d s]; simpl.
    + split; [discriminate | intros [post H]; discriminate].
    + destruct (ascii_dec c d) as [->|Hne].
      * rewrite IH. split; intros [post H]; exists post.
        -- now rewrite H.
        -- simpl in H. now inversion H.
      * split; [discriminate |].
        intros [post H]. simpl in H. inversion H. congruence.
Qed.

Lemma str_in_true_iff (word s : string) :
  str_in word s = true <-> substring word s.
Proof.
  induction s as [|c s IH]; cbn [str_in].
  - rewrite orb_false_r, prefix_true_iff. split.
    + intros [post H]. exists "", post. exact H.
    + intros [pre [post H]]. destruct pre; [exists post; exact H | discriminate].
  - rewrite orb_true_iff, prefix_true_iff, IH. split.
    + intros [[post H] | [pre [post H]]].
      * exists "", post. exact H.
      * exists (String c pre), post. simpl. now rewrite H.
    + intros [pre [post H]]. destruct pre as [|d pre].
      * left. exists post. exact H.
      * right. exists pre, post. simpl in H. now inversion H.
Qed.

Lemma any_in_true_iff (words : list string) (s : string) :
  any_in words s = true <-> exists word, In word words /\ substring word s.
Proof.
  unfold any_in. rewrite existsb_exists.
  split; intros [word [Hin H]]; exists word; split; auto;
    now apply str_in_true_iff.
Qed.

(** ** The session store *)

(** Unfold the primitive actions of the monad and compute. *)
Ltac run :=
  unfold bind, ret, raise, try_except, sessions_get, sessions_item,
    sessions_set, sessions_pop, logger, time_sleep, time_time_call,
    detect_call, generate_content_call, transcribe_content_call; cbn.

Section SessionStore.
Variable rt : Runtime.

(** The session stored for [user_id] is unexpired at the next clock reading. *)
Definition live (w : World) (user_id : string) (s : Session) : Prop :=
  user_sessions w !! user_id = Some s /\
  (time_time rt (clock_reads w) - last_seen s <= SESSION_TIMEOUT)%Q.

(** No session is stored for [user_id], or the stored one has expired. *)
Definition no_live_session (w : World) (user_id : string) : Prop :=
  user_sessions w !! user_id = None \/
  exists s, user_sessions w !! user_id = Some s /\
    (SESSION_TIMEOUT < time_time rt (clock_reads w) - last_seen s)%Q.

(** The refreshed copy of a live session. *)
Definition refreshed (w : World) (s : Session) : Session :=
  set_last_seen (time_time rt (S (clock_reads w))) s.

Lemma get_user_state_live (w : World) (user_id : string) (s : Session) :
  live w user_id s ->
  get_user_state rt user_id w =
    (Ret (refreshed w s),
     set_sessions (<[user_id := refreshed w s]> (user_sessions w))
       (tick_clock (tick_clock w))).
Proof.
  intros [Hs Hle]. unfold get_user_state. run. rewrite Hs.
  apply Qle_bool_iff in Hle. rewrite Hle. reflexivity.
Qed.

Lemma get_user_state_absent (w : World) (user_id : string) :
  user_sessions w !! user_id = None ->
  get_user_state rt user_id w =
    (Ret (fresh_session (time_time rt (clock_reads w))), tick_clock w).
Proof. intros Hs. unfold get_user_state. run. now rewrite Hs. Qed.

Lemma get_user_state_expired (w : World) (user_id : string) (s : Session) :
  user_sessions w !! user_id = Some s ->
  (SESSION_TIMEOUT < time_time rt (clock_reads w) - last_seen s)%Q ->
  get_user_state rt user_id w =
    (Ret (fresh_session (time_time rt (S (clock_reads w)))),
     tick_clock (tick_clock w)).
Proof.
  intros Hs Hlt. unfold get_user_state. run. rewrite Hs.
  destruct (Qle_bool _ _) eqn:Hle; [|reflexivity].
  apply Qle_bool_iff in Hle. exfalso. exact (Qlt_not_le _ _ Hlt Hle).
Qed.

(** Either case of [no_live_session]: a fresh session stamped with the latest
    clock reading, and a world that differs only in the number of readings. *)
Lemma get_user_state_fresh (w : World) (user_id : string) :
  no_live_session w user_id ->
  exists w',
    get_user_state rt user_id w =
      (Ret (fresh_session (time_time rt (pred (clock_reads w')))), w') /\
    (w' = tick_clock w \/ w' = tick_clock (tick_clock w)).
Proof.
  intros [Hnone | [s [Hs Hlt]]].
  - exists (tick_clock w). split; [|now left].
    now rewrite get_user_state_absent.
  - exists (tick_clock (tick_clock w)). split; [|now right].
    now rewrite (get_user_state_expired w user_id s).
Qed.

Lemma live_or_not (w : World) (user_id : string) :
  (exists s, live w user_id s) \/ no_live_session w user_id.
Proof.
  unfold live, no_live_session.
  destruct (user_sessions w !! user_id) as [s|] eqn:Hs; [|right; now left].
  destruct (Qlt_le_dec SESSION_TIMEOUT
              (time_time rt (clock_reads w) - last_seen s)) as [Hlt|Hle].
  - right. right. exists s. now split.
  - left. exists s. now split.
Qed.

End SessionStore.

(** C4. [get_user_state] returns the stored session with its [last_seen]
    refreshed (writing the refresh through to the store) exactly when a
    session is stored for the user and the clock reading minus its
    [last_seen] is at most [SESSION_TIMEOUT] = 300; when no session is stored
    or the stored one is older, it returns a new session with no language,
    message count 0 and empty history, and leaves the store as it was, an
    expired entry included. *)
Theorem get_user_state_valid_or_fresh (rt : Runtime) (w : World)
    (user_id : string) :
  SESSION_TIMEOUT = 300%Q /\
  (forall s, live rt w user_id s ->
     exists w',
       get_user_state rt user_id w = (Ret (refreshed rt w s), w') /\
       lang (refreshed rt w s) = lang s /\
       msg_count (refreshed rt w s) = msg_count s /\
       history (refreshed rt w s) = history s /\
       last_seen (refreshed rt w s) = time_time rt (S (clock_reads w)) /\
       user_sessions w' = <[user_id := refreshed rt w s]> (user_sessions w)) /\
  (no_live_session rt w user_id ->
     exists t w',
       get_user_state rt user_id w = (Ret (fresh_session t), w') /\
       lang (fresh_session t) = None /\
       msg_count (fresh_session t) = 0%Z /\
       history (fresh_session t) = [] /\
       t = time_time rt (pred (clock_reads w')) /\
       user_sessions w' = user_sessions w) /\
  ((exists s, live rt w user_id s) <-> ~ no_live_session rt w user_id).
Proof.
  split; [reflexivity|]. split; [|split].
  - intros s Hlive. eexists. split.
    + now apply get_user_state_live.
    + repeat split; reflexivity.
  - intros Hno. destruct (get_user_state_fresh rt w user_id Hno)
      as [w' [Heq Hw']].
    exists (time_time rt (pred (clock_reads w'))), w'.
    repeat split; try assumption; try reflexivity.
    destruct Hw' as [-> | ->]; reflexivity.
  - split.
    + intros [s [Hs Hle]] [Hnone | [s' [Hs' Hlt]]].
      * congruence.
      * rewrite Hs in Hs'. inversion Hs'; subst s'.
        exact (Qlt_not_le _ _ Hlt Hle).
    + intros Hno. destruct (live_or_not rt w user_id) as [H|H];
        [exact H | contradiction].
Qed.

(** ** Language detection and the map link *)

Lemma detect_language_total (rt : Runtime) (text0 : string) (w : World) :
  exists code,
    detect_language rt text0 w = (Ret code, tick_detect w) /\
    In code SUPPORTED_LANGS.
Proof.
  unfold detect_language, try_except, bind, detect_call, ret.
  destruct (detect rt (detect_calls w) text0) as [code|e].
  - destruct (list_in code SUPPORTED_LANGS) eqn:Hin.
    + exists code. split; [reflexivity|].
      unfold list_in in Hin. apply existsb_exists in Hin.
      destruct Hin as [x [Hx Heq]]. apply String.eqb_eq in Heq. now subst.
    + exists "en". split; [reflexivity | now left].
  - exists "en". split; [reflexivity | now left].
Qed.

(** A string holds no space. *)
Definition no_space (s : string) : Prop := ~ substring " " s.

Lemma list_in_true_iff (x : string) (l : list string) :
  list_in x l = true <-> In x l.
Proof.
  unfold list_in. rewrite existsb_exists. split.
  - intros [y [Hy Heq]]. apply String.eqb_eq in Heq. now subst.
  - intros Hin. exists x. split; [exact Hin | apply String.eqb_refl].
Qed.

(** C9. [generate_maps_link] composed with [detect_language].  On a text the
    detector reports as one of the four supported codes, [detect_language]
    returns that very code, and [generate_maps_link] on it is the fixed
    search URL followed by that code's query with [+] for every space (no
    space is left).  On a text the detector reports as any other code, or on
    which it raises, [detect_language] returns ["en"] and the link carries
    the English query.  A key outside the table (an unrecognized code, or no
    language at all) gets the English query too. *)
Theorem maps_link_of_detected_language (rt : Runtime) (text0 : string)
    (w : World) :
  (forall code,
     detect rt (detect_calls w) text0 = Ret code ->
     In code SUPPORTED_LANGS ->
     detect_language rt text0 w = (Ret code, tick_detect w) /\
     ((code = "en" /\
       generate_maps_link (Some code) =
         "https://www.google.com/maps/search/?api=1&query=health+center+near+me")
      \/
      (code = "hi" /\
       generate_maps_link (Some code) =
         "https://www.google.com/maps/search/?api=1&query=नजदीकी+स्वास्थ्य+केंद्र")
      \/
      (code = "mr" /\
       generate_maps_link (Some code) =
         "https://www.google.com/maps/search/?api=1&query=जवळचे+आरोग्य+केंद्र")
      \/
      (code = "bn" /\
       generate_maps_link (Some code) =
         "https://www.google.com/maps/search/?api=1&query=নিকটস্থ+স্বাস্থ্যকেন্দ্র")) /\
     no_space (generate_maps_link (Some code)))
  /\
  (forall code,
     detect rt (detect_calls w) text0 = Ret code ->
     ~ In code SUPPORTED_LANGS ->
     detect_language rt text0 w = (Ret "en", tick_detect w) /\
     generate_maps_link (Some code) = generate_maps_link (Some "en"))
  /\
  (forall e,
     detect rt (detect_calls w) text0 = Raise e ->
     detect_language rt text0 w = (Ret "en", tick_detect w))
  /\
  generate_maps_link (Some "en") =
    "https://www.google.com/maps/search/?api=1&query=health+center+near+me"
  /\
  (forall lang0 : option string,
     ~ In lang0 [Some "hi"; Some "mr"; Some "bn"; Some "en"] ->
     generate_maps_link lang0 =
       "https://www.google.com/maps/search/?api=1&query=health+center+near+me").
Proof.
  assert (forall lang0 : option string,
            ~ In lang0 [Some "hi"; Some "mr"; Some "bn"; Some "en"] ->
            generate_maps_link lang0 =
              "https://www.google.com/maps/search/?api=1&query=health+center+near+me")
    as Hother.
  { intros lang0 Hnot. destruct lang0 as [l|]; [|reflexivity].
    unfold generate_maps_link. cbn [dict_get].
    destruct (String.eqb_spec "hi" l) as [<-|_]; [exfalso; apply Hnot; simpl; tauto|].
    destruct (String.eqb_spec "mr" l) as [<-|_]; [exfalso; apply Hnot; simpl; tauto|].
    destruct (String.eqb_spec "bn" l) as [<-|_]; [exfalso; apply Hnot; simpl; tauto|].
    destruct (String.eqb_spec "en" l) as [<-|_]; [exfalso; apply Hnot; simpl; tauto|].
    reflexivity. }
  split; [|split; [|split; [|split; [reflexivity | exact Hother]]]].
  - intros code Hdet Hin. split; [|split].
    + unfold detect_language, try_except, bind, detect_call, ret.
      rewrite Hdet. apply list_in_true_iff in Hin. now rewrite Hin.
    + simpl in Hin.
      destruct Hin as [<- | [<- | [<- | [<- | []]]]]; vm_compute; tauto.
    + unfold no_space. rewrite <- str_in_true_iff. simpl in Hin.
      destruct Hin as [<- | [<- | [<- | [<- | []]]]]; vm_compute; discriminate.
  - intros code Hdet Hnot. split.
    + unfold detect_language, try_except, bind, detect_call, ret.
      rewrite Hdet.
      destruct (list_in code SUPPORTED_LANGS) eqn:Hin; [|reflexivity].
      apply list_in_true_iff in Hin. contradiction.
    + rewrite Hother; [reflexivity|].
      intros Hin. apply Hnot. simpl in Hin. simpl.
      destruct Hin as [H | [H | [H | [H | []]]]]; inversion H; tauto.
  - intros e Hdet.
    unfold detect_language, try_except, bind, detect_call, ret.
    now rewrite Hdet.
Qed.

(** ** The retry loop *)

Arguments system_instruction_base : simpl never.
Arguments fallback_message : simpl never.
Arguments generate_maps_link : simpl never.
Arguments welcome_banner : simpl never.
Arguments referral_block : simpl never.

Section RetryLoop.
Context {A : Type}.
Variables (factor : Z) (target : M A).

Lemma retry_return (remaining tries : nat) (w w' : World) (a : A) :
  target w = (Ret a, w') ->
  retry remaining tries factor target w = (Ret a, w').
Proof.
  intros H. destruct remaining; cbn [retry]; unfold try_except;
    now rewrite H.
Qed.

Lemma retry_give_up (tries : nat) (w w' : World) (e : exn) :
  target w = (Raise e, w') ->
  retry 0 tries factor target w = (Raise e, w').
Proof.
  intros H. cbn [retry]. unfold try_except. rewrite H.
  now destruct (retryable e).
Qed.

Lemma retry_not_listed (remaining tries : nat) (w w' : World) (e : exn) :
  target w = (Raise e, w') -> retryable e = false ->
  retry remaining tries factor target w = (Raise e, w').
Proof.
  intros H He. destruct remaining; cbn [retry]; unfold try_except;
    now rewrite H, He.
Qed.

Lemma retry_again (remaining tries : nat) (w w' : World) (e : exn) :
  target w = (Raise e, w') -> retryable e = true ->
  retry (S remaining) tries factor target w =
    retry remaining (S tries) factor target
      (record_wait (expo factor (tries - 1)) w').
Proof.
  intros H He. cbn [retry]. unfold try_except at 1. rewrite H, He.
  reflexivity.
Qed.

End RetryLoop.

(** ** One generation attempt *)

Definition user_turn (question : string) : Content :=
  {| role := user; text := question |}.

Definition model_turn (reply : string) : Content :=
  {| role := model; text := reply |}.

(** A session with turns added at the end of its history. *)
Definition add_history (turns : list Content) (s : Session) : Session :=
  {| lang := lang s; msg_count := msg_count s; last_seen := last_seen s;
     history := history s ++ turns |}.

Lemma add_history_nil (s : Session) : add_history [] s = s.
Proof. destruct s. unfold add_history. cbn. now rewrite app_nil_r. Qed.

Lemma add_history_append (c : Content) (turns : list Content) (s : Session) :
  add_history turns (history_append c s) = add_history (c :: turns) s.
Proof. unfold add_history, history_append. cbn. now rewrite <- app_assoc. Qed.

Lemma history_append_add (c : Content) (turns : list Content) (s : Session) :
  history_append c (add_history turns s) = add_history (turns ++ [c]) s.
Proof. unfold add_history, history_append. cbn. now rewrite <- app_assoc. Qed.

Definition api_error_record : LogRecord :=
  {| level := ERROR; msg := "Gemini API Error: %s" |}.

Definition non_api_record : LogRecord :=
  {| level := ERROR; msg := "Non-API exception in ask_llm: %s" |}.

Section Attempt.
Variable rt : Runtime.
Hypothesis configured : gemini_client rt = true.
Hypothesis constructs : part_from_text_positional rt = true.
Variables (user_id question l : string).

(** The world once the user turn is stored and the request is issued. *)
Definition requested (s : Session) (w : World) : World :=
  record_gateway_call (history s ++ [user_turn question])
    (set_sessions
       (<[user_id := history_append (user_turn question) s]> (user_sessions w))
       w).

(** What the backend answers to the request issued from [w]. *)
Definition answer_in (s : Session) (w : World) : result (option string) :=
  generate_content rt (length (gateway_calls w))
    (history s ++ [user_turn question])
    (system_instruction_base (str_upper rt l)).

Lemma ask_llm_body_eq (s : Session) (w : World) :
  user_sessions w !! user_id = Some s ->
  ask_llm_body rt user_id question (Some l) w =
    match answer_in s w with
    | Ret (Some t) =>
        if truthy (str_strip rt t) then
          (Ret (str_strip rt t),
           set_sessions
             (<[user_id := add_history
                             [user_turn question; model_turn (str_strip rt t)]
                             s]> (user_sessions w))
             (requested s w))
        else (Ret (fallback_message (Some l)),
              record_log non_api_record (requested s w))
    | Ret None =>
        (Ret (fallback_message (Some l)),
         record_log non_api_record (requested s w))
    | Raise APIError => (Raise APIError, record_log api_error_record (requested s w))
    | Raise _ =>
        (Ret (fallback_message (Some l)),
         record_log non_api_record (requested s w))
    end.
Proof.
  intros Hs. unfold ask_llm_body, answer_in, part_from_text.
  rewrite configured, constructs. run. rewrite Hs. cbn.
  destruct (generate_content rt _ _ _) as [[t|]|e]; cbn.
  - destruct (truthy (str_strip rt t)); cbn; [|reflexivity].
    rewrite insert_insert_eq.
    replace (history_append {| role := model; text := str_strip rt t |}
               (history_append {| role := user; text := question |} s))
      with (add_history [user_turn question; model_turn (str_strip rt t)] s);
      [reflexivity|].
    unfold add_history, history_append. cbn. now rewrite <- app_assoc.
  - reflexivity.
  - destruct e; reflexivity.
Qed.

(** The n-th text request raises [APIError], whatever it carries. *)
Definition fails_transiently (n : nat) : Prop :=
  forall contents sys, generate_content rt n contents sys = Raise APIError.

(** The n-th text request returns [t], whatever it carries. *)
Definition answers (n : nat) (t : string) : Prop :=
  forall contents sys, generate_content rt n contents sys = Ret (Some t).

(** The n-th text request fails for good: an exception other than
    [APIError], a response without text, or a text that strips to nothing. *)
Definition fails_for_good (n : nat) : Prop :=
  forall contents sys,
    match generate_content rt n contents sys with
    | Ret (Some t) => truthy (str_strip rt t) = false
    | Ret None => True
    | Raise APIError => False
    | Raise _ => True
    end.

(** The [contents] of the requests issued by [attempts] attempts on [s]. *)
Definition requests_sent (s : Session) (attempts : nat)
    : list (list Content) :=
  map (fun i => history s ++ repeat (user_turn question) (S i))
    (seq 0 attempts).

Lemma requests_sent_S (s : Session) (k : nat) :
  requests_sent s (S k) =
    (history s ++ [user_turn question])
      :: requests_sent (history_append (user_turn question) s) k.
Proof.
  unfold requests_sent. cbn [seq map repeat]. f_equal.
  rewrite <- seq_shift, map_map. apply map_ext. intros i. cbn.
  now rewrite <- app_assoc.
Qed.

Arguments requests_sent : simpl never.

(** What [attempts] generation attempts leave behind from [w], apart from
    waits and log records: the session holds one user turn per attempt and
    then [extra], and one request was issued per attempt. *)
Definition after_attempts (s : Session) (w : World) (attempts : nat)
    (extra : list Content) (w' : World) : Prop :=
  user_sessions w' =
    <[user_id := add_history (repeat (user_turn question) attempts ++ extra) s]>
      (user_sessions w) /\
  gateway_calls w' = gateway_calls w ++ requests_sent s attempts /\
  clock_reads w' = clock_reads w /\
  detect_calls w' = detect_calls w /\
  transcribe_calls w' = transcribe_calls w.

Lemma after_attempts_calls (s : Session) (w : World) (attempts : nat)
    (extra : list Content) (w' : World) :
  after_attempts s w attempts extra w' ->
  length (gateway_calls w') = (length (gateway_calls w) + attempts)%nat.
Proof.
  intros [_ [Hcalls _]]. rewrite Hcalls, length_app. unfold requests_sent.
  now rewrite length_map, length_seq.
Qed.

Lemma retry_after_transient (k : nat) :
  forall (remaining t : nat) (w : World) (s : Session),
    (k <= remaining)%nat ->
    user_sessions w !! user_id = Some s ->
    (forall i, (i < k)%nat ->
       fails_transiently (length (gateway_calls w) + i)) ->
    exists w1,
      retry remaining (S t) 1 (ask_llm_body rt user_id question (Some l)) w =
        retry (remaining - k) (S t + k) 1
          (ask_llm_body rt user_id question (Some l)) w1 /\
      after_attempts s w k [] w1 /\
      backoff_waits w1 = backoff_waits w ++ map (expo 1) (seq t k) /\
      log w1 = log w ++ repeat api_error_record k.
Proof.
  induction k as [|k IH]; intros remaining t w s Hle Hs Hfail.
  - exists w. rewrite Nat.sub_0_r, Nat.add_0_r. cbn [repeat seq map].
    rewrite !app_nil_r. unfold after_attempts, requests_sent.
    cbn [repeat app seq map].
    rewrite add_history_nil, (insert_id _ _ _ Hs), app_nil_r. tauto.
  - destruct remaining as [|remaining]; [lia|].
    assert (ask_llm_body rt user_id question (Some l) w =
            (Raise APIError, record_log api_error_record (requested s w)))
      as Hbody.
    { rewrite (ask_llm_body_eq s w Hs). unfold answer_in.
      specialize (Hfail 0%nat ltac:(lia)). rewrite Nat.add_0_r in Hfail.
      now rewrite Hfail. }
    rewrite (retry_again _ _ _ _ _ _ _ Hbody eq_refl).
    replace (S t - 1)%nat with t by lia.
    set (w0 := record_wait (expo 1 t)
                 (record_log api_error_record (requested s w))).
    destruct (IH remaining (S t) w0 (history_append (user_turn question) s))
      as [w1 [Hrun [[Hstore [Hcalls [Hclock [Hdet Htr]]]] [Hwaits Hlog]]]].
    + lia.
    + subst w0. cbn. apply lookup_insert_eq.
    + intros i Hi. subst w0. cbn. rewrite length_app. cbn.
      replace (length (gateway_calls w) + 1 + i)%nat
        with (length (gateway_calls w) + S i)%nat by lia.
      apply Hfail. lia.
    + exists w1. split; [|split; [|split]].
      * rewrite Hrun. f_equal; lia.
      * unfold after_attempts. rewrite Hstore, Hcalls, Hclock, Hdet, Htr.
        subst w0. cbn. rewrite insert_insert_eq, add_history_append.
        rewrite requests_sent_S, <- app_assoc. repeat split; reflexivity.
      * rewrite Hwaits. subst w0. cbn. now rewrite <- app_assoc.
      * rewrite Hlog. subst w0. cbn. now rewrite <- app_assoc.
Qed.

(** The answer to the last of [S j] attempts started from [w]. *)
Definition last_answer (s : Session) (w : World) (j : nat)
    : result (option string) :=
  generate_content rt (length (gateway_calls w) + j)
    (history s ++ repeat (user_turn question) (S j))
    (system_instruction_base (str_upper rt l)).

(** A backend answer that [ask_llm] can return as the reply. *)
Definition usable (a : result (option string)) : Prop :=
  exists t, a = Ret (Some t) /\ truthy (str_strip rt t) = true.

(** How a run of the retry loop ends: with the model's reply stored after
    the user turns, or with no model turn at all. *)
Definition run_outcome (s : Session) (w : World) (j : nat)
    (res : result string) (w' : World) : Prop :=
  (exists t,
     last_answer s w j = Ret (Some t) /\
     truthy (str_strip rt t) = true /\
     res = Ret (str_strip rt t) /\
     after_attempts s w (S j) [model_turn (str_strip rt t)] w')
  \/
  (~ usable (last_answer s w j) /\
   (res = Raise APIError \/ res = Ret (fallback_message (Some l))) /\
   after_attempts s w (S j) [] w').

Lemma after_one_attempt (s : Session) (w : World) (r : LogRecord) :
  after_attempts s w 1 [] (record_log r (requested s w)).
Proof.
  unfold after_attempts, requested. cbn. repeat split; reflexivity.
Qed.

(** The three ways one attempt can go. *)
Lemma attempt_cases (s : Session) (w : World) :
  user_sessions w !! user_id = Some s ->
  (exists t w',
     answer_in s w = Ret (Some t) /\ truthy (str_strip rt t) = true /\
     ask_llm_body rt user_id question (Some l) w = (Ret (str_strip rt t), w') /\
     after_attempts s w 1 [model_turn (str_strip rt t)] w')
  \/
  (answer_in s w = Raise APIError /\
   ask_llm_body rt user_id question (Some l) w =
     (Raise APIError, record_log api_error_record (requested s w)))
  \/
  (~ usable (answer_in s w) /\
   ask_llm_body rt user_id question (Some l) w =
     (Ret (fallback_message (Some l)),
      record_log non_api_record (requested s w))).
Proof.
  intros Hs. rewrite (ask_llm_body_eq s w Hs).
  destruct (answer_in s w) as [[t|]|e].
  - destruct (truthy (str_strip rt t)) eqn:Ht.
    + left. exists t. eexists. repeat split; try reflexivity; exact Ht.
    + right. right. split; [|reflexivity].
      intros [x [Hx Hx']]. inversion Hx; subst. congruence.
  - right. right. split; [|reflexivity]. intros [x [Hx _]]. discriminate.
  - destruct e.
    1: right; left; split; reflexivity.
    all: right; right; split; [|reflexivity];
      intros [x [Hx _]]; discriminate.
Qed.

Lemma retry_outcome (remaining : nat) :
  forall (t : nat) (w : World) (s : Session),
    user_sessions w !! user_id = Some s ->
    exists j res w',
      (j <= remaining)%nat /\
      retry remaining (S t) 1 (ask_llm_body rt user_id question (Some l)) w =
        (res, w') /\
      run_outcome s w j res w'.
Proof.
  induction remaining as [|remaining IH]; intros t w s Hs.
  all: assert (last_answer s w 0 = answer_in s w) as Hlast
         by (unfold last_answer, answer_in; now rewrite Nat.add_0_r).
  all: destruct (attempt_cases s w Hs)
         as [[a [w' [Hans [Ha [Hbody Hafter]]]]]
            | [[Hans Hbody] | [Hno Hbody]]].
  (* the first attempt returns: a reply, or the fallback *)
  1,4: exists 0%nat, (Ret (str_strip rt a)), w'; split; [lia|]; split;
         [now apply retry_return|]; left; exists a; rewrite Hlast; tauto.
  2,4: exists 0%nat; eexists; eexists; split; [lia|]; split;
         [apply retry_return; exact Hbody|]; right; rewrite Hlast;
         split; [exact Hno|]; split; [now right | apply after_one_attempt].
  - (* last allowed attempt raises [APIError] *)
    exists 0%nat. eexists. eexists. split; [lia|]. split.
    + apply retry_give_up. exact Hbody.
    + right. rewrite Hlast, Hans. split; [intros [x [Hx _]]; discriminate|].
      split; [now left | apply after_one_attempt].
  - (* [APIError] with attempts left: wait and run the body again *)
    rewrite (retry_again _ _ _ _ _ _ _ Hbody eq_refl).
    set (w0 := record_wait _ _).
    destruct (IH (S t) w0 (history_append (user_turn question) s))
      as [j [res [w' [Hj [Hrun Hout]]]]].
    { subst w0. cbn. apply lookup_insert_eq. }
    exists (S j), res, w'. split; [lia|]. split; [exact Hrun|].
    assert (last_answer (history_append (user_turn question) s) w0 j =
            last_answer s w (S j)) as Hsame.
    { unfold last_answer. subst w0. cbn. rewrite length_app. cbn.
      rewrite <- app_assoc. cbn. f_equal. lia. }
    assert (forall extra,
              after_attempts (history_append (user_turn question) s) w0
                (S j) extra w' ->
              after_attempts s w (S (S j)) extra w') as Hshift.
    { intros extra [Hstore [Hcalls [Hclock [Hdet Htr]]]].
      unfold after_attempts. rewrite Hstore, Hcalls, Hclock, Hdet, Htr.
      subst w0. cbn. rewrite insert_insert_eq, add_history_append.
      rewrite (requests_sent_S s (S j)), <- app_assoc.
      repeat split; reflexivity. }
    unfold run_outcome in Hout. rewrite Hsame in Hout.
    destruct Hout as [[a [Ha [Htr [Hres Hafter]]]] | [Hno [Hres Hafter]]].
    + left. exists a. split; [exact Ha|]. split; [exact Htr|].
      split; [exact Hres|]. apply Hshift. exact Hafter.
    + right. split; [exact Hno|]. split; [exact Hres|].
      apply Hshift. exact Hafter.
Qed.

End Attempt.

(** Where the SDK rejects the positional call, the body stops at line 165:
    [TypeError] is not retried, and nothing has happened yet. *)
Lemma ask_llm_construction_fails (rt : Runtime) (user_id question : string)
    (lang0 : option string) (s : Session) (w : World) :
  gemini_client rt = true ->
  user_sessions w !! user_id = Some s ->
  part_from_text_positional rt = false ->
  ask_llm rt user_id question lang0 w = (Raise TypeError, w).
Proof.
  intros Hconf Hs Hpart. unfold ask_llm, on_exception.
  apply retry_not_listed; [|reflexivity].
  unfold ask_llm_body, part_from_text. rewrite Hconf, Hpart.
  unfold bind, sessions_item, raise. cbv beta iota. cbn [negb].
  now rewrite Hs.
Qed.

(** ** The retry policy of [ask_llm] *)

(** C3, as the specification words it for exhausted retries: three transient
    failures make [ask_llm] return the fallback string. *)
Definition exhausted_retries_return_fallback : Prop :=
  forall (rt : Runtime) (w : World) (user_id question l : string)
         (s : Session),
    gemini_client rt = true ->
    user_sessions w !! user_id = Some s ->
    (forall i, (i < 3)%nat ->
       fails_transiently rt (length (gateway_calls w) + i)) ->
    exists w',
      ask_llm rt user_id question (Some l) w =
        (Ret (fallback_message (Some l)), w').

(** The same claim read under one behaviour of the SDK: [accepts] tells
    whether [types.Part.from_text] takes its text positionally. *)
Definition exhausted_retries_return_fallback_on (accepts : bool) : Prop :=
  forall (rt : Runtime) (w : World) (user_id question l : string)
         (s : Session),
    part_from_text_positional rt = accepts ->
    gemini_client rt = true ->
    user_sessions w !! user_id = Some s ->
    (forall i, (i < 3)%nat ->
       fails_transiently rt (length (gateway_calls w) + i)) ->
    exists w',
      ask_llm rt user_id question (Some l) w =
        (Ret (fallback_message (Some l)), w').

(** C3 (amended). On a configured gateway with a stored session, and an SDK
    that accepts the positional [types.Part.from_text] call so that the user
    turn is built, [k] transient failures are retried after waits of 1, 2,
    ... seconds (before jitter) as long as fewer than three attempts were
    made.  If attempt
    [k+1 <= 3] answers non-empty text, that stripped text is returned after
    exactly [k+1] requests; if it fails otherwise (empty text included), the
    fallback string is returned after exactly [k+1] requests, with no further
    attempt; if the first three attempts all fail transiently, exactly three
    requests are made and [ask_llm] raises [APIError] to its caller. *)
Theorem ask_llm_retry_policy (rt : Runtime) (w : World)
    (user_id question l : string) (s : Session) (k : nat) :
  gemini_client rt = true ->
  part_from_text_positional rt = true ->
  user_sessions w !! user_id = Some s ->
  (forall i, (i < k)%nat ->
     fails_transiently rt (length (gateway_calls w) + i)) ->
  ((k < 3)%nat ->
   forall t,
     answers rt (length (gateway_calls w) + k) t ->
     truthy (str_strip rt t) = true ->
     exists w',
       ask_llm rt user_id question (Some l) w = (Ret (str_strip rt t), w') /\
       length (gateway_calls w') = (length (gateway_calls w) + (k + 1))%nat /\
       backoff_waits w' = backoff_waits w ++ map (expo 1) (seq 0 k))
  /\
  ((k < 3)%nat ->
   fails_for_good rt (length (gateway_calls w) + k) ->
   exists w',
     ask_llm rt user_id question (Some l) w =
       (Ret (fallback_message (Some l)), w') /\
     length (gateway_calls w') = (length (gateway_calls w) + (k + 1))%nat /\
     backoff_waits w' = backoff_waits w ++ map (expo 1) (seq 0 k))
  /\
  ((3 <= k)%nat ->
   exists w',
     ask_llm rt user_id question (Some l) w = (Raise APIError, w') /\
     length (gateway_calls w') = (length (gateway_calls w) + 3)%nat /\
     backoff_waits w' = backoff_waits w ++ [1%Z; 2%Z]).
Proof.
  intros Hconf Hpart Hs Hfail. unfold ask_llm, on_exception.
  change (3 - 1)%nat with 2%nat.
  split; [|split].
  - intros Hk t Hans Ht.
    destruct (retry_after_transient rt Hconf Hpart user_id question l k 2 0 w s)
      as [w1 [Hrun [Hafter [Hwaits _]]]];
      [lia | exact Hs | exact Hfail |].
    pose proof (after_attempts_calls _ _ _ _ _ _ _ Hafter) as Hcalls.
    destruct Hafter as [Hstore _].
    rewrite Hrun.
    assert (user_sessions w1 !! user_id =
            Some (add_history (repeat (user_turn question) k ++ []) s)) as Hs1
      by (rewrite Hstore; apply lookup_insert_eq).
    pose proof (ask_llm_body_eq rt Hconf Hpart user_id question l _ w1 Hs1) as Hbody.
    unfold answer_in in Hbody. rewrite Hcalls, Hans, Ht in Hbody.
    eexists. split; [apply retry_return; exact Hbody|].
    cbn. rewrite length_app, Hcalls, Hwaits. cbn. split; [lia | reflexivity].
  - intros Hk Hbad.
    destruct (retry_after_transient rt Hconf Hpart user_id question l k 2 0 w s)
      as [w1 [Hrun [Hafter [Hwaits _]]]];
      [lia | exact Hs | exact Hfail |].
    pose proof (after_attempts_calls _ _ _ _ _ _ _ Hafter) as Hcalls.
    destruct Hafter as [Hstore _].
    rewrite Hrun.
    assert (user_sessions w1 !! user_id =
            Some (add_history (repeat (user_turn question) k ++ []) s)) as Hs1
      by (rewrite Hstore; apply lookup_insert_eq).
    destruct (attempt_cases rt Hconf Hpart user_id question l _ w1 Hs1)
      as [[a [w' [Hans [Ha _]]]] | [[Hans _] | [_ Hbody]]].
    + exfalso. unfold answer_in in Hans. rewrite Hcalls in Hans.
      specialize (Hbad (history (add_history
                          (repeat (user_turn question) k ++ []) s)
                          ++ [user_turn question])
                       (system_instruction_base (str_upper rt l))).
      rewrite Hans in Hbad. congruence.
    + exfalso. unfold answer_in in Hans. rewrite Hcalls in Hans.
      specialize (Hbad (history (add_history
                          (repeat (user_turn question) k ++ []) s)
                          ++ [user_turn question])
                       (system_instruction_base (str_upper rt l))).
      now rewrite Hans in Hbad.
    + eexists. split; [apply retry_return; exact Hbody|].
      cbn. rewrite length_app, Hcalls, Hwaits. cbn.
      split; [lia | reflexivity].
  - intros Hk.
    destruct (retry_after_transient rt Hconf Hpart user_id question l 2 2 0 w s)
      as [w1 [Hrun [Hafter [Hwaits _]]]];
      [lia | exact Hs | intros i Hi; apply Hfail; lia |].
    pose proof (after_attempts_calls _ _ _ _ _ _ _ Hafter) as Hcalls.
    destruct Hafter as [Hstore _].
    rewrite Hrun.
    assert (user_sessions w1 !! user_id =
            Some (add_history (repeat (user_turn question) 2 ++ []) s)) as Hs1
      by (rewrite Hstore; apply lookup_insert_eq).
    pose proof (ask_llm_body_eq rt Hconf Hpart user_id question l _ w1 Hs1) as Hbody.
    unfold answer_in in Hbody. rewrite Hcalls in Hbody.
    rewrite (Hfail 2%nat ltac:(lia)) in Hbody.
    eexists. split; [apply retry_give_up; exact Hbody|].
    cbn. rewrite length_app, Hcalls, Hwaits. cbn. split; [lia | reflexivity].
Qed.

(** C8. On a configured gateway, once the user turn is built (the SDK
    accepts the positional [types.Part.from_text] call), every attempt of
    [ask_llm] first stores the user turn and then sends the history ending
    in it.  When the run ends without a usable answer (the last attempt
    raised, had no text, or had text that strips to nothing), [ask_llm]
    raises [APIError] or returns the fallback, and the stored history is the
    old one followed by one user turn per attempt and no model turn: nothing
    is rolled back.  Only a usable answer adds a model turn.  Where the SDK
    rejects that call, generation is never attempted: [ask_llm] raises
    [TypeError] at line 165 with the history, and everything else, as it
    was. *)
Theorem failed_generation_keeps_user_turn (rt : Runtime) (w : World)
    (user_id question l : string) (s : Session) :
  gemini_client rt = true ->
  user_sessions w !! user_id = Some s ->
  (part_from_text_positional rt = true ->
   exists (j : nat) (res : result string) (w' : World),
     (j < 3)%nat /\
     ask_llm rt user_id question (Some l) w = (res, w') /\
     length (gateway_calls w') = (length (gateway_calls w) + S j)%nat /\
     nth_error (gateway_calls w') (length (gateway_calls w)) =
       Some (history s ++ [user_turn question]) /\
     ((~ usable rt (last_answer rt question l s w j) /\
       (res = Raise APIError \/ res = Ret (fallback_message (Some l))) /\
       exists s',
         user_sessions w' !! user_id = Some s' /\
         history s' = history s ++ repeat (user_turn question) (S j))
      \/
      (exists t,
         last_answer rt question l s w j = Ret (Some t) /\
         truthy (str_strip rt t) = true /\
         res = Ret (str_strip rt t) /\
         exists s',
           user_sessions w' !! user_id = Some s' /\
           history s' =
             history s ++ repeat (user_turn question) (S j)
               ++ [model_turn (str_strip rt t)])))
  /\
  (part_from_text_positional rt = false ->
   ask_llm rt user_id question (Some l) w = (Raise TypeError, w)).
Proof.
  intros Hconf Hs. split; intros Hpart;
    [|exact (ask_llm_construction_fails rt user_id question (Some l) s w
               Hconf Hs Hpart)].
  unfold ask_llm, on_exception.
  change (3 - 1)%nat with 2%nat.
  destruct (retry_outcome rt Hconf Hpart user_id question l 2 0 w s Hs)
    as [j [res [w' [Hj [Hrun Hout]]]]].
  exists j, res, w'. split; [lia|]. split; [exact Hrun|].
  assert (forall extra,
            after_attempts user_id question s w (S j) extra w' ->
            length (gateway_calls w') = (length (gateway_calls w) + S j)%nat /\
            nth_error (gateway_calls w') (length (gateway_calls w)) =
              Some (history s ++ [user_turn question]) /\
            exists s',
              user_sessions w' !! user_id = Some s' /\
              history s' =
                history s ++ repeat (user_turn question) (S j) ++ extra)
    as Hread.
  { intros extra Hafter.
    split; [exact (after_attempts_calls _ _ _ _ _ _ _ Hafter)|].
    destruct Hafter as [Hstore [Hcalls _]]. split.
    - rewrite Hcalls, nth_error_app2, Nat.sub_diag, requests_sent_S by lia.
      reflexivity.
    - eexists. split; [rewrite Hstore; apply lookup_insert_eq|]. reflexivity. }
  destruct Hout as [[t [Hans [Ht [Hres Hafter]]]] | [Hno [Hres Hafter]]];
    destruct (Hread _ Hafter) as [Hlen [Hfirst [s' [Hs' Hhist]]]];
    split; [exact Hlen | | exact Hlen |]; (split; [exact Hfirst|]).
  - right. exists t. repeat split; try assumption. exists s'. now split.
  - left. split; [exact Hno|]. split; [exact Hres|]. exists s'.
    split; [exact Hs'|]. now rewrite Hhist, app_nil_r.
Qed.

(** What [ask_llm] can change: the history of the user's own session. *)
Lemma ask_llm_effect (rt : Runtime) (user_id question l : string)
    (s : Session) (w : World) :
  user_sessions w !! user_id = Some s ->
  exists res w' turns,
    ask_llm rt user_id question (Some l) w = (res, w') /\
    user_sessions w' = <[user_id := add_history turns s]> (user_sessions w) /\
    clock_reads w' = clock_reads w /\
    detect_calls w' = detect_calls w /\
    transcribe_calls w' = transcribe_calls w.
Proof.
  intros Hs. destruct (gemini_client rt) eqn:Hconf;
    [destruct (part_from_text_positional rt) eqn:Hpart|].
  - unfold ask_llm, on_exception. change (3 - 1)%nat with 2%nat.
    destruct (retry_outcome rt Hconf Hpart user_id question l 2 0 w s Hs)
      as [j [res [w' [_ [Hrun Hout]]]]].
    exists res, w'.
    destruct Hout as [[t [_ [_ [_ Hafter]]]] | [_ [_ Hafter]]];
      destruct Hafter as [Hstore [_ Hframe]]; eexists;
      (split; [exact Hrun|]); (split; [exact Hstore | exact Hframe]).
  - exists (Raise TypeError), w, [].
    split; [now apply (ask_llm_construction_fails rt user_id question
                         (Some l) s w)|].
    split; [now rewrite add_history_nil, insert_id | repeat split].
  - exists (Ret (fallback_message (Some l))), w, [].
    split; [|split; [|repeat split]].
    + unfold ask_llm, on_exception. apply retry_return.
      unfold ask_llm_body. now rewrite Hconf.
    + now rewrite add_history_nil, insert_id.
Qed.

(** ** The orchestrator *)

Arguments any_in : simpl never.
Arguments dict_get : simpl never.
Arguments ask_llm : simpl never.

Section Orchestrator.
Variable rt : Runtime.
Variables (user_id raw : string).

(** [incoming_msg_normalized] *)
Definition normalized : string := str_strip rt (str_lower rt raw).

(** The code [detect_language] settles on at the n-th detector call. *)
Definition detected (n : nat) : string :=
  match detect rt n raw with
  | Ret code => if list_in code SUPPORTED_LANGS then code else "en"
  | Raise _ => "en"
  end.

Lemma detect_language_eq (w : World) :
  detect_language rt raw w = (Ret (detected (detect_calls w)), tick_detect w).
Proof.
  unfold detect_language, detected, try_except, bind, detect_call, ret.
  now destruct (detect rt (detect_calls w) raw).
Qed.

(** The opening of [build_conversation_response], up to the commit of the
    session: whether this is the first message, and the session committed. *)
Definition resolve_session : M (bool * Session) :=
  state <- get_user_state rt user_id ;;
  let is_first_message := (msg_count state =? 0)%Z in
  let state := set_msg_count (msg_count state + 1) state in
  state <- match lang state with
           | None =>
               l <- detect_language rt raw ;;
               ret (set_lang (Some l) state)
           | Some _ => ret state
           end ;;
  sessions_set user_id state ;;
  ret (is_first_message, state).

Definition critical_record : LogRecord :=
  {| level := CRITICAL; msg := "Emergency keyword detected from %s" |}.

Lemma build_conversation_response_eq (is_audio : bool) (w : World) :
  build_conversation_response rt user_id raw is_audio w =
    match resolve_session w with
    | (Ret (first, st), w1) =>
        if any_in EXIT_WORDS normalized then
          (Ret EXIT_REPLY, set_sessions (delete user_id (user_sessions w1)) w1)
        else if any_in EMERGENCY_WORDS normalized then
          (Ret (dict_get EMERGENCY_MESSAGE (lang st) EMERGENCY_MESSAGE_en),
           set_sessions (delete user_id (user_sessions w1))
             (record_log critical_record w1))
        else
          match ask_llm rt user_id raw (lang st) w1 with
          | (Ret r, w2) =>
              (Ret (((if first && negb is_audio
                      then welcome_banner (lang st) else "")
                     +:+ r) +:+ referral_block (lang st)), w2)
          | (Raise _, w2) => (Ret (fallback_message (lang st)), w2)
          end
    | (Raise e, w1) => (Raise e, w1)
    end.
Proof.
  unfold build_conversation_response, resolve_session, normalized.
  unfold bind, ret, sessions_set, sessions_pop, logger, try_except.
  destruct (get_user_state rt user_id w) as [[s0|e] w0]; [|reflexivity].
  change (lang (set_msg_count (msg_count s0 + 1) s0)) with (lang s0).
  destruct (lang s0) as [l0|] eqn:Hl0.
  - cbn. rewrite ?Hl0.
    destruct (any_in EXIT_WORDS _); [reflexivity|].
    destruct (any_in EMERGENCY_WORDS _); [reflexivity|].
    destruct (ask_llm _ _ _ _ _) as [[r|e] w2]; [|reflexivity].
    destruct ((msg_count s0 =? 0)%Z && negb is_audio); reflexivity.
  - rewrite detect_language_eq. cbn.
    destruct (any_in EXIT_WORDS _); [reflexivity|].
    destruct (any_in EMERGENCY_WORDS _); [reflexivity|].
    destruct (ask_llm _ _ _ _ _) as [[r|e] w2]; [|reflexivity].
    destruct ((msg_count s0 =? 0)%Z && negb is_audio); reflexivity.
Qed.

(** The language a session ends up with once a message has been counted:
    the one it had, or the one detected from this message. *)
Definition frozen_language (s0 : Session) (n : nat) : string :=
  match lang s0 with
  | Some l => l
  | None => detected n
  end.

(** Worlds that agree on everything the gateway and the logger leave behind. *)
Definition same_traces (w w' : World) : Prop :=
  gateway_calls w' = gateway_calls w /\
  backoff_waits w' = backoff_waits w /\
  transcribe_calls w' = transcribe_calls w /\
  log w' = log w.

Lemma resolve_session_eq (w w0 : World) (s0 : Session) :
  get_user_state rt user_id w = (Ret s0, w0) ->
  exists st w1,
    resolve_session w = (Ret ((msg_count s0 =? 0)%Z, st), w1) /\
    lang st = Some (frozen_language s0 (detect_calls w0)) /\
    msg_count st = (msg_count s0 + 1)%Z /\
    history st = history s0 /\
    last_seen st = last_seen s0 /\
    user_sessions w1 = <[user_id := st]> (user_sessions w0) /\
    same_traces w0 w1 /\
    clock_reads w1 = clock_reads w0.
Proof.
  intros Hget. unfold resolve_session, frozen_language, same_traces.
  unfold bind, ret, sessions_set. rewrite Hget.
  change (lang (set_msg_count (msg_count s0 + 1) s0)) with (lang s0).
  destruct (lang s0) as [l0|] eqn:Hl0.
  - eexists. eexists. split; [reflexivity|]. cbn. now rewrite Hl0.
  - rewrite detect_language_eq. eexists. eexists.
    split; [reflexivity|]. cbn. tauto.
Qed.

(** The opening always succeeds: it commits a session with a language and
    touches nothing but the user's entry, the clock and the detector. *)
Lemma resolve_session_spec (w : World) :
  exists first st w1,
    resolve_session w = (Ret (first, st), w1) /\
    user_sessions w1 = <[user_id := st]> (user_sessions w) /\
    same_traces w w1 /\
    (clock_reads w < clock_reads w1)%nat /\
    (forall s, live rt w user_id s ->
       first = (msg_count s =? 0)%Z /\
       msg_count st = (msg_count s + 1)%Z /\
       history st = history s /\
       last_seen st = time_time rt (S (clock_reads w)) /\
       lang st = Some (frozen_language s (detect_calls w))) /\
    (no_live_session rt w user_id ->
       first = true /\
       msg_count st = 1%Z /\
       history st = [] /\
       lang st = Some (detected (detect_calls w))).
Proof.
  destruct (live_or_not rt w user_id) as [[s Hlive] | Hno].
  - pose proof (get_user_state_live rt w user_id s Hlive) as Hget.
    destruct (resolve_session_eq _ _ _ Hget)
      as [st [w1 [Hres [Hlang [Hcount [Hhist [Hseen [Hstore [Htr Hclock]]]]]]]]].
    exists (msg_count (refreshed rt w s) =? 0)%Z, st, w1.
    split; [exact Hres|]. split; [|split; [|split; [|split]]].
    + rewrite Hstore. cbn. apply insert_insert_eq.
    + exact Htr.
    + rewrite Hclock. cbn. lia.
    + intros s' [Hs' _]. destruct Hlive as [Hs Hle].
      rewrite Hs in Hs'. inversion Hs'; subst s'. tauto.
    + intros [Hnone | [s' [Hs' Hlt]]]; destruct Hlive as [Hs Hle].
      * congruence.
      * rewrite Hs in Hs'. inversion Hs'; subst s'.
        exfalso. exact (Qlt_not_le _ _ Hlt Hle).
  - destruct (get_user_state_fresh rt w user_id Hno) as [w0 [Hget Hw0]].
    destruct (resolve_session_eq _ _ _ Hget)
      as [st [w1 [Hres [Hlang [Hcount [Hhist [Hseen [Hstore [Htr Hclock]]]]]]]]].
    exists true, st, w1.
    split; [exact Hres|]. split; [|split; [|split; [|split]]].
    + rewrite Hstore. destruct Hw0 as [-> | ->]; reflexivity.
    + destruct Hw0 as [-> | ->]; exact Htr.
    + rewrite Hclock. destruct Hw0 as [-> | ->]; cbn; lia.
    + intros s [Hs Hle]. exfalso.
      destruct Hno as [Hnone | [s' [Hs' Hlt]]].
      * congruence.
      * rewrite Hs in Hs'. inversion Hs'; subst s'.
        exact (Qlt_not_le _ _ Hlt Hle).
    + repeat split; try assumption.
      rewrite Hlang. unfold frozen_language. cbn.
      destruct Hw0 as [-> | ->]; reflexivity.
Qed.

(** The detector is consulted once for a user without live session, and not
    at all for a live session whose language is set. *)
Lemma resolve_session_detector (w : World) :
  (forall s l, live rt w user_id s -> lang s = Some l ->
     detect_calls (snd (resolve_session w)) = detect_calls w) /\
  (no_live_session rt w user_id ->
     detect_calls (snd (resolve_session w)) = S (detect_calls w)).
Proof.
  split.
  - intros s l Hlive Hl. unfold resolve_session, bind.
    rewrite (get_user_state_live rt w user_id s Hlive).
    change (lang (set_msg_count (msg_count (refreshed rt w s) + 1)
                    (refreshed rt w s))) with (lang s).
    rewrite Hl. reflexivity.
  - intros Hno.
    destruct (get_user_state_fresh rt w user_id Hno) as [w0 [Hget Hw0]].
    unfold resolve_session, bind. rewrite Hget.
    cbn [lang set_msg_count fresh_session]. rewrite detect_language_eq.
    destruct Hw0 as [-> | ->]; reflexivity.
Qed.

End Orchestrator.

(** ** Safety gating *)

(** The normalized text contains some configured exit phrase. *)
Definition has_exit_phrase (s : string) : Prop :=
  exists word, In word EXIT_WORDS /\ substring word s.

(** The normalized text contains some configured emergency phrase. *)
Definition has_emergency_phrase (s : string) : Prop :=
  exists word, In word EMERGENCY_WORDS /\ substring word s.

Lemma no_exit_phrase (s : string) :
  ~ has_exit_phrase s -> any_in EXIT_WORDS s = false.
Proof.
  intros H. destruct (any_in EXIT_WORDS s) eqn:Hany; [|reflexivity].
  exfalso. apply H. now apply any_in_true_iff.
Qed.

Lemma no_emergency_phrase (s : string) :
  ~ has_emergency_phrase s -> any_in EMERGENCY_WORDS s = false.
Proof.
  intros H. destruct (any_in EMERGENCY_WORDS s) eqn:Hany; [|reflexivity].
  exfalso. apply H. now apply any_in_true_iff.
Qed.

Lemma emergency_message_default (lang0 : option string) :
  ~ In lang0 [Some "hi"; Some "en"; Some "mr"; Some "bn"] ->
  dict_get EMERGENCY_MESSAGE lang0 EMERGENCY_MESSAGE_en = EMERGENCY_MESSAGE_en.
Proof.
  intros Hnot. destruct lang0 as [l|]; [|reflexivity].
  unfold EMERGENCY_MESSAGE at 1. cbv [dict_get].
  destruct (String.eqb_spec "hi" l) as [<-|_]; [exfalso; apply Hnot; simpl; tauto|].
  destruct (String.eqb_spec "en" l) as [<-|_]; [exfalso; apply Hnot; simpl; tauto|].
  destruct (String.eqb_spec "mr" l) as [<-|_]; [exfalso; apply Hnot; simpl; tauto|].
  destruct (String.eqb_spec "bn" l) as [<-|_]; [exfalso; apply Hnot; simpl; tauto|].
  reflexivity.
Qed.

(** C1. When the lower-cased, trimmed text contains an exit phrase,
    [build_conversation_response] returns the fixed English acknowledgment,
    the user's entry is gone from the store, and neither the gateway nor the
    logger was used.  No condition on emergency phrases is needed: the exit
    check comes first. *)
Theorem exit_phrase_ends_session (rt : Runtime) (user_id raw : string)
    (is_audio : bool) (w : World) :
  has_exit_phrase (normalized rt raw) ->
  exists w',
    build_conversation_response rt user_id raw is_audio w =
      (Ret "Conversation ended. You can send a new message to start again.",
       w') /\
    user_sessions w' = delete user_id (user_sessions w) /\
    user_sessions w' !! user_id = None /\
    same_traces w w'.
Proof.
  intros Hexit. apply any_in_true_iff in Hexit.
  rewrite build_conversation_response_eq.
  destruct (resolve_session_spec rt user_id raw w)
    as [first [st [w1 [Hres [Hstore [Htr _]]]]]].
  rewrite Hres, Hexit. eexists. split; [reflexivity|]. cbn.
  rewrite Hstore, delete_insert_eq. split; [reflexivity|].
  split; [apply lookup_delete_eq | exact Htr].
Qed.

(** C2, as the specification words it: every text with an emergency phrase
    gets the emergency hand-off. *)
Definition emergency_phrase_always_hands_off : Prop :=
  forall (rt : Runtime) (user_id raw : string) (is_audio : bool) (w : World),
    has_emergency_phrase (normalized rt raw) ->
    exists l w',
      build_conversation_response rt user_id raw is_audio w =
        (Ret (dict_get EMERGENCY_MESSAGE (Some l) EMERGENCY_MESSAGE_en), w') /\
      user_sessions w' = delete user_id (user_sessions w) /\
      gateway_calls w' = gateway_calls w /\
      log w' = log w ++ [critical_record].

(** C2 (amended). When the normalized text contains an emergency phrase and
    no exit phrase, [build_conversation_response] returns the emergency
    message of the session language (the language the live session already
    had, else the one detected from this text; codes outside the table get
    the English message), removes the user's entry, issues no gateway
    request and emits exactly one log record, at CRITICAL level. *)
Theorem emergency_phrase_hands_off (rt : Runtime) (user_id raw : string)
    (is_audio : bool) (w : World) :
  has_emergency_phrase (normalized rt raw) ->
  ~ has_exit_phrase (normalized rt raw) ->
  exists l w',
    build_conversation_response rt user_id raw is_audio w =
      (Ret (dict_get EMERGENCY_MESSAGE (Some l) EMERGENCY_MESSAGE_en), w') /\
    (forall s, live rt w user_id s ->
       l = frozen_language rt raw s (detect_calls w)) /\
    (no_live_session rt w user_id -> l = detected rt raw (detect_calls w)) /\
    (forall lang0,
       ~ In lang0 [Some "hi"; Some "en"; Some "mr"; Some "bn"] ->
       dict_get EMERGENCY_MESSAGE lang0 EMERGENCY_MESSAGE_en =
         "⚠️ **EMERGENCY!** This may be a life-threatening situation. Please call an ambulance immediately: **108** or go to the nearest health center.") /\
    user_sessions w' = delete user_id (user_sessions w) /\
    user_sessions w' !! user_id = None /\
    gateway_calls w' = gateway_calls w /\
    backoff_waits w' = backoff_waits w /\
    log w' = log w ++ [critical_record] /\
    level critical_record = CRITICAL.
Proof.
  intros Hem Hexit. apply any_in_true_iff in Hem.
  apply no_exit_phrase in Hexit.
  rewrite build_conversation_response_eq.
  destruct (resolve_session_spec rt user_id raw w)
    as [first [st [w1 [Hres [Hstore [Htr [_ [Hlive Hfresh]]]]]]]].
  rewrite Hres, Hexit, Hem.
  destruct Htr as [Hcalls [Hwaits [_ Hlog]]].
  assert (exists l, lang st = Some l) as [l Hl].
  { destruct (live_or_not rt w user_id) as [[s Hs] | Hno].
    - destruct (Hlive s Hs) as [_ [_ [_ [_ H]]]]. eauto.
    - destruct (Hfresh Hno) as [_ [_ [_ H]]]. eauto. }
  exists l. eexists. rewrite Hl. split; [reflexivity|]. cbn.
  rewrite Hstore, delete_insert_eq, Hcalls, Hwaits, Hlog.
  split; [|split; [|split]].
  - intros s Hs. destruct (Hlive s Hs) as [_ [_ [_ [_ H]]]]. congruence.
  - intros Hno. destruct (Hfresh Hno) as [_ [_ [_ H]]]. congruence.
  - intros lang0 Hnot. now rewrite emergency_message_default.
  - repeat split; try reflexivity. apply lookup_delete_eq.
Qed.

(** C10. Once the session is committed and neither keyword check fires, an
    exception out of [ask_llm] makes [build_conversation_response] return
    [fallback_message(lang)] alone, for a first message as for a later one:
    no welcome banner before it and no referral block after it. *)
Theorem model_turn_exception_gives_bare_fallback (rt : Runtime)
    (user_id raw : string) (is_audio first : bool) (st : Session)
    (w w1 w2 : World) (e : exn) :
  resolve_session rt user_id raw w = (Ret (first, st), w1) ->
  ~ has_exit_phrase (normalized rt raw) ->
  ~ has_emergency_phrase (normalized rt raw) ->
  ask_llm rt user_id raw (lang st) w1 = (Raise e, w2) ->
  build_conversation_response rt user_id raw is_audio w =
    (Ret (fallback_message (lang st)), w2).
Proof.
  intros Hres Hexit Hem Hask.
  apply no_exit_phrase in Hexit. apply no_emergency_phrase in Hem.
  rewrite build_conversation_response_eq, Hres, Hexit, Hem, Hask.
  reflexivity.
Qed.

(** ** The welcome banner *)





(** The reply assembled around the outcome of the model turn. *)
Definition assembled (banner : string) (l : option string)
    (res : result string) : string :=
  match res with
  | Ret r => (banner +:+ r) +:+ referral_block l
  | Raise _ => fallback_message l
  end.


(** ** The session language *)

(** What a turn of the orchestrator does to the store: other users' entries
    are untouched, and an entry left for the user carries the language the
    live session had, or the one detected from this message. *)
Lemma build_conversation_response_sessions (rt : Runtime)
    (user_id raw : string) (is_audio : bool) (w : World) :
  exists res w',
    build_conversation_response rt user_id raw is_audio w = (res, w') /\
    (forall other, other <> user_id ->
       user_sessions w' !! other = user_sessions w !! other) /\
    (forall s', user_sessions w' !! user_id = Some s' ->
       (forall s, live rt w user_id s ->
          lang s' = Some (frozen_language rt raw s (detect_calls w))) /\
       (no_live_session rt w user_id ->
          lang s' = Some (detected rt raw (detect_calls w)))).
Proof.
  rewrite build_conversation_response_eq.
  destruct (resolve_session_spec rt user_id raw w)
    as [first [st [w1 [Hres [Hstore [_ [_ [Hlive Hfresh]]]]]]]].
  rewrite Hres.
  destruct (any_in EXIT_WORDS _);
    [|destruct (any_in EMERGENCY_WORDS _)].
  1,2: eexists; eexists; split; [reflexivity|]; cbn; rewrite Hstore;
       rewrite delete_insert_eq; split;
       [intros other Hne; now apply lookup_delete_ne
       |intros s' Hs'; rewrite lookup_delete_eq in Hs'; discriminate].
  assert (exists l, lang st = Some l) as [l Hl].
  { destruct (live_or_not rt w user_id) as [[s Hs] | Hno].
    - destruct (Hlive s Hs) as [_ [_ [_ [_ H]]]]. eauto.
    - destruct (Hfresh Hno) as [_ [_ [_ H]]]. eauto. }
  assert (user_sessions w1 !! user_id = Some st) as Hst
    by (rewrite Hstore; apply lookup_insert_eq).
  destruct (ask_llm_effect rt user_id raw l st w1 Hst)
    as [res [w' [turns [Hask [Hstore' _]]]]].
  rewrite Hl, Hask.
  assert (forall other, other <> user_id ->
            user_sessions w' !! other = user_sessions w !! other) as Hframe.
  { intros other Hne. rewrite Hstore', Hstore.
    now rewrite !lookup_insert_ne by congruence. }
  assert (forall s', user_sessions w' !! user_id = Some s' ->
            lang s' = lang st) as Hsame.
  { intros s' Hs'. rewrite Hstore', lookup_insert_eq in Hs'.
    now inversion Hs'. }
  destruct res as [r|e]; eexists; eexists; (split; [reflexivity|]);
    (split; [exact Hframe|]); intros s' Hs'; rewrite (Hsame s' Hs'); split.
  all: try (intros s Hs; now destruct (Hlive s Hs) as [_ [_ [_ [_ H]]]]).
  all: intros Hno; now destruct (Hfresh Hno) as [_ [_ [_ H]]].
Qed.

(** Detector calls of a turn, and the entry an ordinary turn leaves. *)
Lemma build_conversation_response_language (rt : Runtime)
    (user_id raw : string) (is_audio : bool) (w : World) :
  let w' := snd (build_conversation_response rt user_id raw is_audio w) in
  (forall s l, live rt w user_id s -> lang s = Some l ->
     detect_calls w' = detect_calls w) /\
  (no_live_session rt w user_id -> detect_calls w' = S (detect_calls w)) /\
  (~ has_exit_phrase (normalized rt raw) ->
   ~ has_emergency_phrase (normalized rt raw) ->
   exists s', user_sessions w' !! user_id = Some s').
Proof.
  intros w'. subst w'. rewrite build_conversation_response_eq.
  destruct (resolve_session_spec rt user_id raw w)
    as [first [st [w1 [Hres [Hstore [_ [_ [Hlive Hfresh]]]]]]]].
  destruct (resolve_session_detector rt user_id raw w) as [Hkept Hnew].
  rewrite Hres in Hkept, Hnew |- *. cbn [snd] in Hkept, Hnew.
  destruct (any_in EXIT_WORDS (normalized rt raw)) eqn:Hexit;
    [|destruct (any_in EMERGENCY_WORDS (normalized rt raw)) eqn:Hem].
  1,2: cbn [snd]; split; [exact Hkept|]; split; [exact Hnew|];
       intros Hne Hnm; exfalso.
  - apply no_exit_phrase in Hne. congruence.
  - apply no_emergency_phrase in Hnm. congruence.
  - assert (exists l, lang st = Some l) as [l Hl].
    { destruct (live_or_not rt w user_id) as [[s Hs] | Hno].
      - destruct (Hlive s Hs) as [_ [_ [_ [_ H]]]]. eauto.
      - destruct (Hfresh Hno) as [_ [_ [_ H]]]. eauto. }
    assert (user_sessions w1 !! user_id = Some st) as Hst
      by (rewrite Hstore; apply lookup_insert_eq).
    destruct (ask_llm_effect rt user_id raw l st w1 Hst)
      as [res [w2 [turns [Hask [Hstore' [_ [Hdet _]]]]]]].
    rewrite Hl, Hask.
    assert (detect_calls
              (snd (match res with
                    | Ret r =>
                        (Ret (((if first && negb is_audio
                                then welcome_banner (Some l) else "")
                               +:+ r) +:+ referral_block (Some l)), w2)
                    | Raise _ => (Ret (fallback_message (Some l)), w2)
                    end)) = detect_calls w1 /\
            user_sessions
              (snd (match res with
                    | Ret r =>
                        (Ret (((if first && negb is_audio
                                then welcome_banner (Some l) else "")
                               +:+ r) +:+ referral_block (Some l)), w2)
                    | Raise _ => (Ret (fallback_message (Some l)), w2)
                    end)) = user_sessions w2) as [Hd Hu]
      by (destruct res; cbn [snd]; now rewrite Hdet).
    rewrite Hd, Hu. split; [exact Hkept|]. split; [exact Hnew|].
    intros _ _. exists (add_history turns st).
    rewrite Hstore'. apply lookup_insert_eq.
Qed.

Section Webhook.
Variable rt : Runtime.
Variable form : Request.

(** The media URL when the voice branch is taken. *)
Definition voice_url : option string :=
  match MediaUrl0 form with
  | Some url => if (0 <? NumMedia form)%Z && truthy url then Some url else None
  | None => None
  end.

Definition incoming_record : LogRecord :=
  {| level := INFO;
     msg := "Incoming message from %s: Body='%s', Media='%s'" |}.

Definition transcribed_record : LogRecord :=
  {| level := INFO; msg := "Transcribed Text: %s" |}.

Definition media_failure_record : LogRecord :=
  {| level := ERROR;
     msg := "Failed to process media/transcribe audio for %s: %s" |}.

(** The rest of the webhook once the text to process is known. *)
Definition process_text (body : string) (is_audio : bool) : M string :=
  if negb (truthy (str_strip rt body)) then ret EMPTY_NOTICE
  else build_conversation_response rt (From form) body is_audio.

Lemma whatsapp_webhook_text (w : World) :
  voice_url = None ->
  whatsapp_webhook rt form w =
    process_text (Body form) false (record_log incoming_record w).
Proof.
  unfold voice_url, whatsapp_webhook, process_text. intros Hvoice.
  unfold bind, logger, ret.
  destruct (MediaUrl0 form) as [url|]; [|reflexivity].
  destruct ((0 <? NumMedia form)%Z && truthy url); [discriminate|reflexivity].
Qed.

Lemma whatsapp_webhook_voice (w : World) (url : string) :
  voice_url = Some url ->
  whatsapp_webhook rt form w =
    match get_user_state rt (From form) (record_log incoming_record w) with
    | (Ret user_state, wg) =>
        match transcribe_audio_gemini rt url (From form) wg with
        | (Ret body, wt) =>
            match lang user_state with
            | None =>
                process_text body true
                  (set_sessions
                     (<[From form :=
                          set_lang (Some (detected rt body (detect_calls wt)))
                            user_state]> (user_sessions wt))
                     (tick_detect (record_log transcribed_record wt)))
            | Some _ =>
                process_text body true (record_log transcribed_record wt)
            end
        | (Raise _, wt) =>
            (Ret (fallback_message (lang user_state)),
             record_log media_failure_record wt)
        end
    | (Raise e, wg) => (Raise e, wg)
    end.
Proof.
  unfold voice_url, whatsapp_webhook, process_text. intros Hvoice.
  destruct (MediaUrl0 form) as [url'|]; [|discriminate].
  destruct ((0 <? NumMedia form)%Z && truthy url'); [|discriminate].
  inversion Hvoice; subst url'. clear Hvoice.
  unfold bind at 1. unfold logger at 1. unfold bind at 1. unfold bind at 1.
  destruct (get_user_state rt (From form) _) as [[user_state|e] wg];
    [|reflexivity].
  unfold try_except, bind.
  destruct (transcribe_audio_gemini rt url (From form) wg) as [[body|e] wt].
  - unfold logger at 1. destruct (lang user_state) as [l0|].
    + reflexivity.
    + rewrite detect_language_eq. reflexivity.
  - reflexivity.
Qed.

Lemma transcribe_audio_gemini_frame (url : string) (w : World) :
  exists res w',
    transcribe_audio_gemini rt url (From form) w = (res, w') /\
    user_sessions w' = user_sessions w /\
    clock_reads w' = clock_reads w /\
    detect_calls w' = detect_calls w.
Proof.
  unfold transcribe_audio_gemini.
  destruct (gemini_client rt); cbn [negb].
  - unfold bind, transcribe_content_call.
    destruct (transcribe_content rt (transcribe_calls w) url) as [[t|]|e];
      eexists; eexists; (split; [reflexivity|]); repeat split.
  - eexists. eexists. split; [reflexivity|]. repeat split.
Qed.

Lemma transcribe_audio_gemini_text (url t : string) (w : World) :
  gemini_client rt = true ->
  transcribe_content rt (transcribe_calls w) url = Ret (Some t) ->
  transcribe_audio_gemini rt url (From form) w =
    (Ret (str_strip rt t), tick_transcribe w).
Proof.
  intros Hconf Ht. unfold transcribe_audio_gemini. rewrite Hconf.
  unfold bind, transcribe_content_call. cbn. now rewrite Ht.
Qed.

(** The store after [process_text]: other users are untouched; an entry left
    for the sender keeps the language of a live session, and on a non-empty
    text without live session it carries the language detected from it. *)
Lemma process_text_sessions (body : string) (is_audio : bool) (w : World) :
  exists res w',
    process_text body is_audio w = (res, w') /\
    (forall other, other <> From form ->
       user_sessions w' !! other = user_sessions w !! other) /\
    (forall s', user_sessions w' !! From form = Some s' ->
       (forall s l, live rt w (From form) s -> lang s = Some l ->
          lang s' = Some l) /\
       (no_live_session rt w (From form) ->
        truthy (str_strip rt body) = true ->
        lang s' = Some (detected rt body (detect_calls w)))).
Proof.
  unfold process_text.
  destruct (truthy (str_strip rt body)); cbn [negb].
  - destruct (build_conversation_response_sessions rt (From form) body
                is_audio w) as [res [w' [Heq [Hframe Hlang]]]].
    exists res, w'. split; [exact Heq|]. split; [exact Hframe|].
    intros s' Hs'. destruct (Hlang s' Hs') as [Hlive Hfresh]. split.
    + intros s l Hs Hl. rewrite (Hlive s Hs). unfold frozen_language.
      now rewrite Hl.
    + intros Hno _. now apply Hfresh.
  - exists (Ret EMPTY_NOTICE), w. split; [reflexivity|].
    split; [reflexivity|]. intros s' Hs'. split.
    + intros s l [Hs _] Hl. congruence.
    + intros _ Hne. discriminate.
Qed.


End Webhook.

(** The two pairs of successive clock readings a request can span between
    stamping a session and checking it again are at most the timeout
    apart. *)
Definition steady_clock (rt : Runtime) (w : World) : Prop :=
  forall i, (clock_reads w <= i <= S (clock_reads w))%nat ->
    (time_time rt (S i) - time_time rt i <= SESSION_TIMEOUT)%Q.



Section WebhookSessions.
Variable rt : Runtime.
Variable form : Request.

(** The voice branch up to the transcription: the sender's session is
    refreshed in place when live, and nothing else in the store changes. *)
Lemma voice_prefix (w : World) (url : string) :
  exists user_state wg res wt,
    get_user_state rt (From form) (record_log incoming_record w) =
      (Ret user_state, wg) /\
    transcribe_audio_gemini rt url (From form) wg = (res, wt) /\
    user_sessions wt = user_sessions wg /\
    clock_reads wt = clock_reads wg /\
    detect_calls wt = detect_calls w /\
    ((exists s,
        live rt w (From form) s /\
        user_state = refreshed rt w s /\
        user_sessions wg =
          <[From form := refreshed rt w s]> (user_sessions w) /\
        clock_reads wg = S (S (clock_reads w)))
     \/
     (no_live_session rt w (From form) /\
      user_state = fresh_session (time_time rt (pred (clock_reads wg))) /\
      user_sessions wg = user_sessions w /\
      (clock_reads w < clock_reads wg)%nat)).
Proof.
  destruct (live_or_not rt w (From form)) as [[s Hlive] | Hno].
  - pose proof (get_user_state_live rt (record_log incoming_record w)
                  (From form) s Hlive) as Hget.
    destruct (transcribe_audio_gemini_frame rt form url
                (set_sessions
                   (<[From form := refreshed rt w s]> (user_sessions w))
                   (tick_clock (tick_clock (record_log incoming_record w)))))
      as [res [wt [Htr [Hstore [Hclock Hdet]]]]].
    eexists. eexists. exists res, wt.
    split; [exact Hget|]. split; [exact Htr|].
    split; [exact Hstore|]. split; [exact Hclock|]. split; [exact Hdet|].
    left. exists s. repeat split; try reflexivity; apply Hlive.
  - destruct (get_user_state_fresh rt (record_log incoming_record w)
                (From form) Hno) as [wg [Hget Hwg]].
    destruct (transcribe_audio_gemini_frame rt form url wg)
      as [res [wt [Htr [Hstore [Hclock Hdet]]]]].
    eexists. exists wg, res, wt.
    split; [exact Hget|]. split; [exact Htr|].
    split; [exact Hstore|]. split; [exact Hclock|].
    split; [rewrite Hdet; destruct Hwg as [-> | ->]; reflexivity|].
    right. split; [exact Hno|]. split; [reflexivity|].
    destruct Hwg as [-> | ->]; cbn; split; (reflexivity || lia).
Qed.

(** A webhook call leaves every other user's entry alone. *)
Lemma whatsapp_webhook_frame (w : World) (other : string) :
  other <> From form ->
  user_sessions (snd (whatsapp_webhook rt form w)) !! other =
    user_sessions w !! other.
Proof.
  intros Hne. destruct (voice_url form) as [url|] eqn:Hvoice.
  - rewrite (whatsapp_webhook_voice rt form w url Hvoice).
    destruct (voice_prefix w url)
      as [st [wg [res [wt [Hget [Htr [Hstore [_ [_ Hcase]]]]]]]]].
    rewrite Hget, Htr.
    assert (user_sessions wt !! other = user_sessions w !! other) as Hwt.
    { rewrite Hstore.
      destruct Hcase as [[s [_ [_ [-> _]]]] | [_ [_ [-> _]]]];
        [now apply lookup_insert_ne | reflexivity]. }
    destruct res as [body|e]; [|exact Hwt].
    destruct (lang st).
    + destruct (process_text_sessions rt form body true
                  (record_log transcribed_record wt))
        as [r [w' [Heq [Hframe _]]]].
      rewrite Heq. cbn [snd]. rewrite (Hframe other Hne). exact Hwt.
    + match goal with
      | |- context [process_text rt form body true ?w0] =>
          destruct (process_text_sessions rt form body true w0)
            as [r [w' [Heq [Hframe _]]]]
      end.
      rewrite Heq. cbn [snd]. rewrite (Hframe other Hne). cbn.
      rewrite lookup_insert_ne by congruence. exact Hwt.
  - rewrite (whatsapp_webhook_text rt form w Hvoice).
    destruct (process_text_sessions rt form (Body form) false
                (record_log incoming_record w))
      as [r [w' [Heq [Hframe _]]]].
    rewrite Heq. cbn [snd]. now rewrite (Hframe other Hne).
Qed.

End WebhookSessions.





(** ** The webhook on an empty message *)

(** Every run of the orchestrator reads the clock. *)
Lemma build_conversation_response_reads_clock (rt : Runtime)
    (user_id raw : string) (is_audio : bool) (w : World) :
  (clock_reads w <
   clock_reads (snd (build_conversation_response rt user_id raw is_audio w)))%nat.
Proof.
  rewrite build_conversation_response_eq.
  destruct (resolve_session_spec rt user_id raw w)
    as [first [st [w1 [Hres [Hstore [_ [Hclock [Hlive Hfresh]]]]]]]].
  rewrite Hres.
  destruct (any_in EXIT_WORDS _); [exact Hclock|].
  destruct (any_in EMERGENCY_WORDS _); [exact Hclock|].
  assert (exists l, lang st = Some l) as [l Hl].
  { destruct (live_or_not rt w user_id) as [[s Hs] | Hno].
    - destruct (Hlive s Hs) as [_ [_ [_ [_ H]]]]. eauto.
    - destruct (Hfresh Hno) as [_ [_ [_ H]]]. eauto. }
  assert (user_sessions w1 !! user_id = Some st) as Hst
    by (rewrite Hstore; apply lookup_insert_eq).
  destruct (ask_llm_effect rt user_id raw l st w1 Hst)
    as [res [w' [turns [Hask [_ [Hclock' _]]]]]].
  rewrite Hl, Hask. destruct res; cbn [snd]; now rewrite Hclock'.
Qed.

(** C7. With an empty (or whitespace-only) body and zero media the webhook
    answers with the empty-message notice; its only effect is the INFO record
    of the inbound message.  The session store, the detector and the gateway
    are untouched, and so is the clock, which every run of the orchestrator
    reads: the orchestrator did not run. *)
Theorem empty_message_short_circuits (rt : Runtime) (form : Request)
    (w : World) :
  str_strip rt (Body form) = "" ->
  NumMedia form = 0%Z ->
  whatsapp_webhook rt form w =
    (Ret "Sorry, I received an empty message. Please try again or type your question.",
     record_log incoming_record w)
  /\ user_sessions (snd (whatsapp_webhook rt form w)) = user_sessions w
  /\ clock_reads (snd (whatsapp_webhook rt form w)) = clock_reads w
  /\ detect_calls (snd (whatsapp_webhook rt form w)) = detect_calls w
  /\ gateway_calls (snd (whatsapp_webhook rt form w)) = gateway_calls w
  /\ (forall user_id raw is_audio w0,
        clock_reads
          (snd (build_conversation_response rt user_id raw is_audio w0))
        <> clock_reads w0).
Proof.
  intros Hbody Hmedia.
  assert (voice_url form = None) as Hvoice.
  { unfold voice_url. rewrite Hmedia. now destruct (MediaUrl0 form). }
  rewrite (whatsapp_webhook_text rt form w Hvoice).
  unfold process_text. rewrite Hbody. cbn.
  repeat split; try reflexivity.
  intros user_id raw is_audio w0.
  pose proof (build_conversation_response_reads_clock rt user_id raw
                is_audio w0). lia.
Qed.

(** * Closed examples *)

Lemma lacks_phrases (words : list string) (s : string) :
  any_in words s = false ->
  ~ exists word, In word words /\ substring word s.
Proof.
  intros Hfalse H. apply any_in_true_iff in H. congruence.
Qed.

(** A backend that always answers, one whose first three requests fail, and
    one that fails once. *)
Definition healthy : Runtime := demo_runtime 0 (Some " Rest and drink water. ").
Definition failing : Runtime := demo_runtime 3 (Some " Rest and drink water. ").
Definition flaky : Runtime := demo_runtime 1 (Some " Rest and drink water. ").


(** A runtime whose language detector is replaced. *)
Definition with_detector (d : nat -> string -> result string) (rt : Runtime)
    : Runtime :=
  {| gemini_client := gemini_client rt;
     time_time := time_time rt;
     detect := d;
     generate_content := generate_content rt;
     transcribe_content := transcribe_content rt;
     str_lower := str_lower rt;
     str_upper := str_upper rt;
     str_strip := str_strip rt;
     part_from_text_positional := part_from_text_positional rt;
     py_int := py_int rt |}.

(** The healthy backend with a detector that reports Hindi. *)
Definition hindi_speaker : Runtime :=
  with_detector (fun _ _ => Ret "hi") healthy.

Definition returning_user : Session :=
  {| lang := Some "hi"; msg_count := 2; last_seen := 0; history := [] |}.

(** A store holding one session, for user [u1]. *)
Definition one_session (s : Session) : World :=
  set_sessions (<["u1" := s]> ∅) empty_world.

Lemma demo_steady_clock (failures : nat) (answer : option string) (w : World) :
  steady_clock (demo_runtime failures answer) w.
Proof.
  intros i _. cbn [time_time demo_runtime].
  unfold SESSION_TIMEOUT, Qle, Qminus, Qplus, Qopp, inject_Z.
  cbn [Qnum Qden]. lia.
Qed.

(** C1 at a text holding both an exit and an emergency phrase. *)
Lemma exit_phrase_ends_session_witness :
  has_exit_phrase (normalized healthy "No more chest pain, thanks") /\
  has_emergency_phrase (normalized healthy "No more chest pain, thanks") /\
  fst (build_conversation_response healthy "u1" "No more chest pain, thanks"
         false (one_session returning_user)) =
    Ret "Conversation ended. You can send a new message to start again.".
Proof.
  assert (has_exit_phrase (normalized healthy "No more chest pain, thanks"))
    as Hexit.
  { exists "thanks". split; [simpl; tauto|].
    apply str_in_true_iff. vm_compute. reflexivity. }
  split; [exact Hexit|]. split.
  - exists "chest pain". split; [simpl; tauto|].
    apply str_in_true_iff. vm_compute. reflexivity.
  - destruct (exit_phrase_ends_session healthy "u1"
                "No more chest pain, thanks" false
                (one_session returning_user) Hexit) as [w' [Heq _]].
    rewrite Heq. reflexivity.
Defined.

(** C2 as worded fails: "cannot" holds the exit phrase "no", so the exit
    branch answers and nothing is logged. *)
Lemma emergency_after_exit_phrase_counterexample :
  ~ emergency_phrase_always_hands_off.
Proof.
  intros Hclaim.
  destruct (Hclaim healthy "u1" "I cannot breathe, chest pain" false
              empty_world) as [l [w' [Heq [_ [_ Hlog]]]]].
  - exists "chest pain". split; [simpl; tauto|].
    apply str_in_true_iff. vm_compute. reflexivity.
  - assert (log (snd (build_conversation_response healthy "u1"
                        "I cannot breathe, chest pain" false empty_world))
            = []) as Hnone by (vm_compute; reflexivity).
    rewrite Heq in Hnone. cbn [snd] in Hnone. rewrite Hnone in Hlog.
    discriminate.
Qed.

Lemma emergency_phrase_hands_off_witness :
  has_emergency_phrase (normalized healthy " Chest Pain since morning") /\
  ~ has_exit_phrase (normalized healthy " Chest Pain since morning") /\
  exists w',
    build_conversation_response healthy "u1" " Chest Pain since morning" false
      (one_session returning_user) =
      (Ret (dict_get EMERGENCY_MESSAGE (Some "hi") EMERGENCY_MESSAGE_en), w') /\
    user_sessions w' !! "u1" = None /\
    log w' = [critical_record].
Proof.
  assert (has_emergency_phrase
            (normalized healthy " Chest Pain since morning")) as Hem.
  { exists "chest pain". split; [simpl; tauto|].
    apply str_in_true_iff. vm_compute. reflexivity. }
  assert (~ has_exit_phrase
            (normalized healthy " Chest Pain since morning")) as Hexit.
  { apply lacks_phrases. vm_compute. reflexivity. }
  split; [exact Hem|]. split; [exact Hexit|].
  destruct (emergency_phrase_hands_off healthy "u1"
              " Chest Pain since morning" false (one_session returning_user)
              Hem Hexit)
    as [l [w' [Heq [Hlive [_ [_ [_ [Hgone [_ [_ [Hlog _]]]]]]]]]]].
  assert (l = "hi") as ->.
  { rewrite (Hlive returning_user); [reflexivity|].
    split; [reflexivity|]. vm_compute. discriminate. }
  exists w'. split; [exact Heq|]. split; [exact Hgone | exact Hlog].
Defined.

(** The runtime [rt] with the SDK's behaviour set. *)
Definition with_sdk (accepts : bool) (rt : Runtime) : Runtime :=
  {| gemini_client := gemini_client rt;
     time_time := time_time rt;
     detect := detect rt;
     generate_content := generate_content rt;
     transcribe_content := transcribe_content rt;
     str_lower := str_lower rt;
     str_upper := str_upper rt;
     str_strip := str_strip rt;
     part_from_text_positional := accepts;
     py_int := py_int rt |}.

(** C3 as worded fails: after three [APIError]s [ask_llm] raises
    [APIError]; and it fails whichever way the SDK behaves, since where
    the positional call is rejected [ask_llm] raises [TypeError] at once. *)
Lemma exhausted_retries_counterexample :
  ~ exhausted_retries_return_fallback /\
  ~ exhausted_retries_return_fallback_on true /\
  ~ exhausted_retries_return_fallback_on false.
Proof.
  assert (forall accepts,
            fst (ask_llm (with_sdk accepts failing) "u1" "I have a fever"
                   (Some "hi") (one_session returning_user)) =
            Raise (if accepts then APIError else TypeError)) as Hraise
    by (intros [|]; vm_compute; reflexivity).
  assert (forall accepts i, (i < 3)%nat ->
            fails_transiently (with_sdk accepts failing)
              (length (gateway_calls (one_session returning_user)) + i))
    as Hfail.
  { intros accepts i Hi contents sys. cbn.
    destruct i as [|[|[|i]]]; [reflexivity | reflexivity | reflexivity | lia]. }
  split; [|split]; intros Hclaim.
  - destruct (Hclaim (with_sdk true failing) (one_session returning_user) "u1"
                "I have a fever" "hi" returning_user eq_refl eq_refl
                (Hfail true)) as [w' Heq].
    specialize (Hraise true). rewrite Heq in Hraise. discriminate.
  - destruct (Hclaim (with_sdk true failing) (one_session returning_user) "u1"
                "I have a fever" "hi" returning_user eq_refl eq_refl eq_refl
                (Hfail true)) as [w' Heq].
    specialize (Hraise true). rewrite Heq in Hraise. discriminate.
  - destruct (Hclaim (with_sdk false failing) (one_session returning_user)
                "u1" "I have a fever" "hi" returning_user eq_refl eq_refl
                eq_refl (Hfail false)) as [w' Heq].
    specialize (Hraise false). rewrite Heq in Hraise. discriminate.
Qed.

(** One transient failure, then an answer: two requests, one wait. *)
Lemma ask_llm_retry_policy_witness :
  gemini_client flaky = true /\
  part_from_text_positional flaky = true /\
  fails_transiently flaky 0 /\
  answers flaky 1 " Rest and drink water. " /\
  exists w',
    ask_llm flaky "u1" "I have a fever" (Some "hi")
      (one_session returning_user) = (Ret "Rest and drink water.", w') /\
    length (gateway_calls w') = 2%nat /\
    backoff_waits w' = [1%Z].
Proof.
  assert (fails_transiently flaky 0) as Hfail by (intros c sys; reflexivity).
  assert (answers flaky 1 " Rest and drink water. ") as Hans
    by (intros c sys; reflexivity).
  split; [reflexivity|]. split; [reflexivity|].
  split; [exact Hfail|]. split; [exact Hans|].
  destruct (ask_llm_retry_policy flaky (one_session returning_user) "u1"
              "I have a fever" "hi" returning_user 1) as [Hok _].
  - reflexivity.
  - reflexivity.
  - reflexivity.
  - intros i Hi. destruct i as [|i]; [exact Hfail | lia].
  - apply (Hok ltac:(lia) " Rest and drink water. " Hans).
    vm_compute. reflexivity.
Defined.

(** A session seen at time 0 is live at reading 5 and expired at
    reading 400. *)
Lemma get_user_state_valid_or_fresh_witness :
  let at_reading n :=
    {| user_sessions := <["u1" := returning_user]> ∅; clock_reads := n;
       detect_calls := 0; gateway_calls := []; transcribe_calls := 0;
       backoff_waits := []; log := [] |} in
  live healthy (at_reading 5%nat) "u1" returning_user /\
  no_live_session healthy (at_reading 400%nat) "u1" /\
  (exists w',
     get_user_state healthy "u1" (at_reading 5%nat) =
       (Ret (refreshed healthy (at_reading 5%nat) returning_user), w')) /\
  (exists t w',
     get_user_state healthy "u1" (at_reading 400%nat) =
       (Ret (fresh_session t), w') /\
     user_sessions w' !! "u1" = Some returning_user).
Proof.
  intros at_reading.
  assert (live healthy (at_reading 5%nat) "u1" returning_user) as Hlive.
  { split; [reflexivity|]. vm_compute. discriminate. }
  assert (no_live_session healthy (at_reading 400%nat) "u1") as Hno.
  { right. exists returning_user. split; [reflexivity|].
    vm_compute. reflexivity. }
  split; [exact Hlive|]. split; [exact Hno|]. split.
  - destruct (get_user_state_valid_or_fresh healthy (at_reading 5%nat) "u1")
      as [_ [Hvalid _]].
    destruct (Hvalid returning_user Hlive) as [w' [Heq _]].
    exists w'. exact Heq.
  - destruct (get_user_state_valid_or_fresh healthy (at_reading 400%nat) "u1")
      as [_ [_ [Hfresh _]]].
    destruct (Hfresh Hno) as [t [w' [Heq [_ [_ [_ [_ Hstore]]]]]]].
    exists t, w'. split; [exact Heq|]. rewrite Hstore. reflexivity.
Defined.




Lemma empty_message_short_circuits_witness :
  let form := {| From := "u1"; Body := "   "; MediaUrl0 := None;
                 NumMedia := 0 |} in
  str_strip healthy (Body form) = "" /\
  whatsapp_webhook healthy form (one_session returning_user) =
    (Ret EMPTY_NOTICE,
     record_log incoming_record (one_session returning_user)).
Proof.
  intros form. split; [reflexivity|].
  apply (empty_message_short_circuits healthy form
           (one_session returning_user)); reflexivity.
Defined.

(** Three failed attempts: [ask_llm] raises [APIError], three requests were
    sent, and the stored history is three user turns and no model turn. *)
Lemma failed_generation_keeps_user_turn_witness :
  gemini_client failing = true /\
  part_from_text_positional failing = true /\
  history returning_user = [] /\
  exists w' s',
    ask_llm failing "u1" "I have a fever" (Some "hi")
      (one_session returning_user) = (Raise APIError, w') /\
    length (gateway_calls w') = 3%nat /\
    user_sessions w' !! "u1" = Some s' /\
    history s' = repeat (user_turn "I have a fever") 3.
Proof.
  split; [reflexivity|]. split; [reflexivity|]. split; [reflexivity|].
  destruct (failed_generation_keeps_user_turn failing
              (one_session returning_user) "u1" "I have a fever" "hi"
              returning_user eq_refl eq_refl) as [Hbuilt _].
  destruct (Hbuilt eq_refl) as [j [res [w' [Hj [Heq [Hlen [_ Hcases]]]]]]].
  assert (fst (ask_llm failing "u1" "I have a fever" (Some "hi")
                 (one_session returning_user)) = Raise APIError) as Hres
    by (vm_compute; reflexivity).
  assert (length (gateway_calls
                    (snd (ask_llm failing "u1" "I have a fever" (Some "hi")
                            (one_session returning_user)))) = 3%nat) as Hsent
    by (vm_compute; reflexivity).
  rewrite Heq in Hres, Hsent |- *. cbn [fst snd] in Hres, Hsent. subst res.
  assert (j = 2%nat) as ->.
  { rewrite Hsent in Hlen.
    change (length (gateway_calls (one_session returning_user))) with 0%nat
      in Hlen.
    injection Hlen as Hlen. symmetry. exact Hlen. }
  destruct Hcases
    as [[_ [_ [s' [Hs' Hhist]]]] | [t [_ [_ [Hret _]]]]]; [|discriminate].
  exists w', s'. split; [reflexivity|]. split; [exact Hsent|].
  split; [exact Hs' | exact Hhist].
Defined.

Lemma maps_link_of_detected_language_witness :
  detect hindi_speaker (detect_calls empty_world) "मुझे बुखार है" = Ret "hi" /\
  In "hi" SUPPORTED_LANGS /\
  detect_language hindi_speaker "मुझे बुखार है" empty_world =
    (Ret "hi", tick_detect empty_world) /\
  generate_maps_link (Some "hi") =
    "https://www.google.com/maps/search/?api=1&query=नजदीकी+स्वास्थ्य+केंद्र".
Proof.
  assert (In "hi" SUPPORTED_LANGS) as Hin by (simpl; tauto).
  split; [reflexivity|]. split; [exact Hin|].
  destruct (maps_link_of_detected_language hindi_speaker "मुझे बुखार है"
              empty_world) as [Hsupported _].
  destruct (Hsupported "hi" eq_refl Hin) as [Hdet [Hlink _]].
  split; [exact Hdet|].
  destruct Hlink as [[Hc _] | [[_ H] | [[Hc _] | [Hc _]]]];
    [discriminate | exact H | discriminate | discriminate].
Defined.

(** A first text message against a backend that keeps raising. *)
Lemma model_turn_exception_gives_bare_fallback_witness :
  ~ has_exit_phrase (normalized failing "I have a mild headache") /\
  ~ has_emergency_phrase (normalized failing "I have a mild headache") /\
  fst (resolve_session failing "u1" "I have a mild headache" empty_world) =
    Ret (true, set_msg_count 1 (set_lang (Some "en") (fresh_session 0))) /\
  fst (build_conversation_response failing "u1" "I have a mild headache"
         false empty_world) =
    Ret "Sorry, I couldn't process that right now. Please try again later.".
Proof.
  assert (~ has_exit_phrase (normalized failing "I have a mild headache"))
    as Hexit by (apply lacks_phrases; vm_compute; reflexivity).
  assert (~ has_emergency_phrase (normalized failing "I have a mild headache"))
    as Hem by (apply lacks_phrases; vm_compute; reflexivity).
  split; [exact Hexit|]. split; [exact Hem|]. split; [reflexivity|].
  erewrite (model_turn_exception_gives_bare_fallback failing "u1"
              "I have a mild headache" false true
              (set_msg_count 1 (set_lang (Some "en") (fresh_session 0)))
              empty_world
              (snd (resolve_session failing "u1" "I have a mild headache"
                      empty_world))
              _ APIError).
  - reflexivity.
  - reflexivity.
  - exact Hexit.
  - exact Hem.
  - vm_compute. reflexivity.
Defined.

(** * Further properties of the module *)

(** ** The gateway outside its retry path *)

(** A runtime without Gemini credentials. *)
Definition without_gemini (rt : Runtime) : Runtime :=
  {| gemini_client := false;
     time_time := time_time rt;
     detect := detect rt;
     generate_content := generate_content rt;
     transcribe_content := transcribe_content rt;
     str_lower := str_lower rt;
     str_upper := str_upper rt;
     str_strip := str_strip rt;
     part_from_text_positional := part_from_text_positional rt;
     py_int := py_int rt |}.

Lemma ask_llm_unconfigured (rt : Runtime) (user_id question : string)
    (lang0 : option string) (w : World) :
  gemini_client rt = false ->
  ask_llm rt user_id question lang0 w = (Ret (fallback_message lang0), w).
Proof.
  intros Hconf. unfold ask_llm, on_exception. apply retry_return.
  unfold ask_llm_body. now rewrite Hconf.
Qed.

(** X1. On a configured gateway, asking for a user who has no stored session
    raises [KeyError] at once: the exception is not one the decorator
    retries, so no request is issued, nothing is waited for or logged, and
    the store is unchanged. *)
Theorem ask_llm_missing_session (rt : Runtime) (user_id question : string)
    (lang0 : option string) (w : World) :
  gemini_client rt = true ->
  user_sessions w !! user_id = None ->
  ask_llm rt user_id question lang0 w = (Raise KeyError, w).
Proof.
  intros Hconf Hnone. unfold ask_llm, on_exception.
  apply retry_not_listed; [|reflexivity].
  unfold ask_llm_body. rewrite Hconf. unfold bind, sessions_item.
  cbv beta iota. cbn [negb]. now rewrite Hnone.
Qed.

Lemma ask_llm_missing_session_witness :
  gemini_client healthy = true /\
  user_sessions empty_world !! "u1" = None /\
  ask_llm healthy "u1" "I have a fever" (Some "en") empty_world =
    (Raise KeyError, empty_world).
Proof.
  split; [reflexivity|]. split; [reflexivity|].
  apply (ask_llm_missing_session healthy "u1" "I have a fever" (Some "en")
           empty_world); reflexivity.
Defined.

(** X2. On a configured gateway whose SDK accepts the positional
    [types.Part.from_text] call (so that the user turn is built), [ask_llm]
    with an unset language fails while building the system instruction
    ([None] has no [upper]): it raises [AttributeError] without issuing a
    request or retrying, but the user turn was already appended to the
    stored history and stays there. *)
Theorem ask_llm_unset_language (rt : Runtime) (user_id question : string)
    (s : Session) (w : World) :
  gemini_client rt = true ->
  part_from_text_positional rt = true ->
  user_sessions w !! user_id = Some s ->
  ask_llm rt user_id question None w =
    (Raise AttributeError,
     set_sessions
       (<[user_id := history_append (user_turn question) s]> (user_sessions w))
       w)
  /\ gateway_calls (snd (ask_llm rt user_id question None w)) = gateway_calls w
  /\ backoff_waits (snd (ask_llm rt user_id question None w)) = backoff_waits w.
Proof.
  intros Hconf Hpart Hs.
  assert (ask_llm rt user_id question None w =
    (Raise AttributeError,
     set_sessions
       (<[user_id := history_append (user_turn question) s]> (user_sessions w))
       w)) as Heq.
  { unfold ask_llm, on_exception. apply retry_not_listed; [|reflexivity].
    unfold ask_llm_body, part_from_text. rewrite Hconf, Hpart.
    unfold bind, sessions_item, sessions_set, ret. cbv beta iota. cbn [negb].
    rewrite Hs. reflexivity. }
  rewrite Heq. repeat split; reflexivity.
Qed.

Lemma ask_llm_unset_language_witness :
  gemini_client healthy = true /\
  part_from_text_positional healthy = true /\
  user_sessions (one_session returning_user) !! "u1" = Some returning_user /\
  fst (ask_llm healthy "u1" "I have a fever" None
         (one_session returning_user)) = Raise AttributeError /\
  user_sessions
    (snd (ask_llm healthy "u1" "I have a fever" None
            (one_session returning_user))) !! "u1" =
    Some (history_append (user_turn "I have a fever") returning_user).
Proof.
  split; [reflexivity|]. split; [reflexivity|]. split; [reflexivity|].
  destruct (ask_llm_unset_language healthy "u1" "I have a fever"
              returning_user (one_session returning_user) eq_refl eq_refl
              eq_refl)
    as [Heq _].
  rewrite Heq. split; [reflexivity|]. cbn. apply lookup_insert_eq.
Defined.

(** ** The effort one call of [ask_llm] can cost *)

Section Effort.
Variable rt : Runtime.
Hypothesis configured : gemini_client rt = true.
Hypothesis constructs : part_from_text_positional rt = true.
Variables (user_id question l : string).

(** The log records a run may end with. *)
Definition closing_records (tail : list LogRecord) : Prop :=
  tail = [] \/ tail = [api_error_record] \/ tail = [non_api_record].

Lemma attempt_traces (s : Session) (w : World) :
  user_sessions w !! user_id = Some s ->
  exists res w1,
    ask_llm_body rt user_id question (Some l) w = (res, w1) /\
    gateway_calls w1 =
      gateway_calls w ++ [history s ++ [user_turn question]] /\
    backoff_waits w1 = backoff_waits w /\
    ((res = Raise APIError /\ log w1 = log w ++ [api_error_record]) \/
     (exists r, res = Ret r /\
        (log w1 = log w \/ log w1 = log w ++ [non_api_record]))).
Proof.
  intros Hs. rewrite (ask_llm_body_eq rt configured constructs user_id question l s w Hs).
  destruct (answer_in rt question l s w) as [[t|]|e].
  - destruct (truthy (str_strip rt t)); eexists; eexists;
      (split; [reflexivity|]); (split; [reflexivity|]);
      (split; [reflexivity|]); right; eexists; (split; [reflexivity|]);
      [left | right]; reflexivity.
  - eexists. eexists. split; [reflexivity|]. split; [reflexivity|].
    split; [reflexivity|]. right. eexists. split; [reflexivity|].
    right. reflexivity.
  - destruct e; eexists; eexists; (split; [reflexivity|]);
      (split; [reflexivity|]); (split; [reflexivity|]).
    1: left; split; reflexivity.
    all: right; eexists; (split; [reflexivity|]); right; reflexivity.
Qed.

Lemma retry_traces (remaining : nat) :
  forall (t : nat) (w : World) (s : Session),
    user_sessions w !! user_id = Some s ->
    exists j res w' tail,
      (j <= remaining)%nat /\
      retry remaining (S t) 1 (ask_llm_body rt user_id question (Some l)) w =
        (res, w') /\
      gateway_calls w' = gateway_calls w ++ requests_sent question s (S j) /\
      backoff_waits w' = backoff_waits w ++ map (expo 1) (seq t j) /\
      log w' = log w ++ repeat api_error_record j ++ tail /\
      closing_records tail.
Proof.
  induction remaining as [|remaining IH]; intros t w s Hs;
    destruct (attempt_traces s w Hs)
      as [res [w1 [Hbody [Hcalls [Hwaits Hlog]]]]].
  - exists 0%nat, res, w1.
    destruct Hlog as [[-> Hlog] | [r [-> Hlog]]].
    + exists [api_error_record]. split; [lia|].
      split; [now apply retry_give_up|]. rewrite Hcalls, Hwaits, Hlog.
      cbn. rewrite app_nil_r. unfold closing_records. repeat split.
      right. left. reflexivity.
    + destruct Hlog as [Hlog | Hlog];
        [exists [] | exists [non_api_record]]; (split; [lia|]);
        (split; [now apply retry_return|]); rewrite Hcalls, Hwaits, Hlog;
        cbn; rewrite ?app_nil_r; unfold closing_records; repeat split;
        tauto.
  - destruct Hlog as [[-> Hlog] | [r [-> Hlog]]].
    + rewrite (retry_again _ _ _ _ _ _ _ Hbody eq_refl).
      replace (S t - 1)%nat with t by lia.
      set (w0 := record_wait (expo 1 t) w1).
      assert (user_sessions w0 !! user_id =
              Some (history_append (user_turn question) s)) as Hs0.
      { subst w0. cbn.
        pose proof (ask_llm_body_eq rt configured constructs user_id question l s w Hs)
          as Heq.
        rewrite Hbody in Heq.
        destruct (answer_in rt question l s w) as [[a|]|e];
          [destruct (truthy (str_strip rt a))| |destruct e];
          inversion Heq; subst w1; cbn; apply lookup_insert_eq. }
      destruct (IH (S t) w0 _ Hs0)
        as [j [res [w' [tail [Hj [Hrun [Hc [Hw [Hl Htail]]]]]]]]].
      exists (S j), res, w', tail. split; [lia|]. split; [exact Hrun|].
      change (gateway_calls w0) with (gateway_calls w1) in Hc.
      change (backoff_waits w0) with (backoff_waits w1 ++ [expo 1 t]) in Hw.
      change (log w0) with (log w1) in Hl.
      rewrite Hc, Hw, Hl, Hcalls, Hwaits, Hlog.
      rewrite (requests_sent_S question s (S j)), <- !app_assoc.
      repeat split; try reflexivity. exact Htail.
    + destruct Hlog as [Hlog | Hlog]; exists 0%nat, (Ret r), w1;
        [exists [] | exists [non_api_record]]; (split; [lia|]);
        (split; [now apply retry_return|]);
        rewrite Hcalls, Hwaits, Hlog; cbn; rewrite ?app_nil_r;
        unfold closing_records; repeat split; tauto.
Qed.

End Effort.



(** ** Turns of the orchestrator *)

(** A turn that passes both keyword checks: the committed session, the model
    turn run on it, the assembled reply and the resulting store. *)
Lemma normal_turn (rt : Runtime) (user_id raw : string) (is_audio : bool)
    (w : World) :
  ~ has_exit_phrase (normalized rt raw) ->
  ~ has_emergency_phrase (normalized rt raw) ->
  exists first st w1 l res w' turns,
    resolve_session rt user_id raw w = (Ret (first, st), w1) /\
    lang st = Some l /\
    ask_llm rt user_id raw (Some l) w1 = (res, w') /\
    build_conversation_response rt user_id raw is_audio w =
      (Ret (assembled
              (if first && negb is_audio then welcome_banner (Some l) else "")
              (Some l) res), w') /\
    user_sessions w' = <[user_id := add_history turns st]> (user_sessions w) /\
    same_traces w w1 /\
    (forall s, live rt w user_id s ->
       first = (msg_count s =? 0)%Z /\
       msg_count st = (msg_count s + 1)%Z /\
       history st = history s /\
       last_seen st = time_time rt (S (clock_reads w)) /\
       l = frozen_language rt raw s (detect_calls w)) /\
    (no_live_session rt w user_id ->
       first = true /\ msg_count st = 1%Z /\ history st = [] /\
       l = detected rt raw (detect_calls w)).
Proof.
  intros Hexit Hem. apply no_exit_phrase in Hexit.
  apply no_emergency_phrase in Hem.
  destruct (resolve_session_spec rt user_id raw w)
    as [first [st [w1 [Hres [Hstore [Htr [_ [Hlive Hfresh]]]]]]]].
  assert (exists l, lang st = Some l) as [l Hl].
  { destruct (live_or_not rt w user_id) as [[s Hs] | Hno].
    - destruct (Hlive s Hs) as [_ [_ [_ [_ H]]]]. eauto.
    - destruct (Hfresh Hno) as [_ [_ [_ H]]]. eauto. }
  assert (user_sessions w1 !! user_id = Some st) as Hst
    by (rewrite Hstore; apply lookup_insert_eq).
  destruct (ask_llm_effect rt user_id raw l st w1 Hst)
    as [res [w' [turns [Hask [Hstore' _]]]]].
  exists first, st, w1, l, res, w', turns.
  split; [exact Hres|]. split; [exact Hl|]. split; [exact Hask|].
  split; [|split; [|split; [exact Htr|split]]].
  - rewrite build_conversation_response_eq, Hres, Hexit, Hem, Hl, Hask.
    now destruct res.
  - rewrite Hstore', Hstore. apply insert_insert_eq.
  - intros s Hs. destruct (Hlive s Hs) as [H1 [H2 [H3 [H4 H5]]]].
    repeat split; try assumption. congruence.
  - intros Hno. destruct (Hfresh Hno) as [H1 [H2 [H3 H4]]].
    repeat split; try assumption. congruence.
Qed.

Lemma build_conversation_response_never_raises_aux (rt : Runtime)
    (user_id raw : string) (is_audio : bool) (w : World) :
  exists reply w',
    build_conversation_response rt user_id raw is_audio w = (Ret reply, w').
Proof.
  rewrite build_conversation_response_eq.
  destruct (resolve_session_spec rt user_id raw w)
    as [first [st [w1 [Hres _]]]].
  rewrite Hres.
  destruct (any_in EXIT_WORDS _); [eauto|].
  destruct (any_in EMERGENCY_WORDS _); [eauto|].
  destruct (ask_llm rt user_id raw (lang st) w1) as [[r|e] w2]; eauto.
Qed.

(** X4. [build_conversation_response] never lets an exception through: for
    every store, text and behaviour of the clock, the detector and the
    backend it returns a reply, which is the exit acknowledgment, an
    emergency message, the fallback message, or a text ending in the
    referral block of the session language. *)
Theorem build_conversation_response_never_raises (rt : Runtime)
    (user_id raw : string) (is_audio : bool) (w : World) :
  exists reply w',
    build_conversation_response rt user_id raw is_audio w = (Ret reply, w') /\
    (reply = EXIT_REPLY \/
     (exists l, reply = dict_get EMERGENCY_MESSAGE l EMERGENCY_MESSAGE_en) \/
     (exists l, reply = fallback_message l) \/
     (exists l body, reply = body +:+ referral_block l)).
Proof.
  rewrite build_conversation_response_eq.
  destruct (resolve_session_spec rt user_id raw w)
    as [first [st [w1 [Hres _]]]].
  rewrite Hres.
  destruct (any_in EXIT_WORDS _);
    [eexists; eexists; split; [reflexivity | now left]|].
  destruct (any_in EMERGENCY_WORDS _);
    [eexists; eexists; split; [reflexivity | right; left; eauto]|].
  destruct (ask_llm rt user_id raw (lang st) w1) as [[r|e] w2];
    eexists; eexists; (split; [reflexivity|]); right; right; [right | left];
    eauto.
Qed.

(** X5. Without Gemini credentials a message that passes both keyword
    checks is still answered in full shape: the fallback message stands in
    for the model reply, after the welcome banner on a first text message and
    before the referral block.  The turn is counted and the session
    committed, but no turn is added to its history and no request is
    issued. *)
Theorem unconfigured_gateway_reply (rt : Runtime) (user_id raw : string)
    (is_audio : bool) (w : World) :
  gemini_client rt = false ->
  ~ has_exit_phrase (normalized rt raw) ->
  ~ has_emergency_phrase (normalized rt raw) ->
  exists first st w1,
    resolve_session rt user_id raw w = (Ret (first, st), w1) /\
    build_conversation_response rt user_id raw is_audio w =
      (Ret (((if first && negb is_audio then welcome_banner (lang st) else "")
             +:+ fallback_message (lang st)) +:+ referral_block (lang st)),
       w1) /\
    user_sessions w1 = <[user_id := st]> (user_sessions w) /\
    gateway_calls w1 = gateway_calls w /\
    (forall s, live rt w user_id s -> history st = history s) /\
    (no_live_session rt w user_id -> history st = []).
Proof.
  intros Hconf Hexit Hem.
  destruct (normal_turn rt user_id raw is_audio w Hexit Hem)
    as [first [st [w1 [l [res [w' [turns
         [Hres [Hl [Hask [Hreply [_ [Htr [Hlive Hfresh]]]]]]]]]]]]]].
  rewrite (ask_llm_unconfigured rt user_id raw (Some l) w1 Hconf) in Hask.
  inversion Hask; subst res w'. clear Hask.
  exists first, st, w1. rewrite Hl. split; [exact Hres|].
  split; [exact Hreply|].
  destruct (resolve_session_spec rt user_id raw w)
    as [first' [st' [w1' [Hres' [Hstore _]]]]].
  rewrite Hres in Hres'. inversion Hres'; subst first' st' w1'.
  split; [exact Hstore|]. split; [apply Htr|]. split.
  - intros s Hs. now destruct (Hlive s Hs) as [_ [_ [H _]]].
  - intros Hno. now destruct (Hfresh Hno) as [_ [_ [H _]]].
Qed.

Lemma unconfigured_gateway_reply_witness :
  gemini_client (without_gemini healthy) = false /\
  ~ has_exit_phrase (normalized (without_gemini healthy)
                       "I have a mild headache") /\
  ~ has_emergency_phrase (normalized (without_gemini healthy)
                            "I have a mild headache") /\
  fst (build_conversation_response (without_gemini healthy) "u1"
         "I have a mild headache" false empty_world) =
    Ret ((welcome_banner (Some "en") +:+ fallback_message (Some "en"))
         +:+ referral_block (Some "en")).
Proof.
  assert (~ has_exit_phrase (normalized (without_gemini healthy)
                               "I have a mild headache")) as Hexit
    by (apply lacks_phrases; vm_compute; reflexivity).
  assert (~ has_emergency_phrase (normalized (without_gemini healthy)
                                    "I have a mild headache")) as Hem
    by (apply lacks_phrases; vm_compute; reflexivity).
  split; [reflexivity|]. split; [exact Hexit|]. split; [exact Hem|].
  destruct (unconfigured_gateway_reply (without_gemini healthy) "u1"
              "I have a mild headache" false empty_world eq_refl Hexit Hem)
    as [first [st [w1 [Hres [Hreply _]]]]].
  rewrite Hreply. cbn [fst].
  assert (fst (resolve_session (without_gemini healthy) "u1"
                 "I have a mild headache" empty_world) =
          Ret (true, set_msg_count 1 (set_lang (Some "en") (fresh_session 0))))
    as Hrun by reflexivity.
  rewrite Hres in Hrun. cbn [fst] in Hrun. inversion Hrun; subst first st.
  reflexivity.
Defined.

(** A runtime whose SDK takes the text of a part by keyword only. *)
Definition keyword_only_sdk (rt : Runtime) : Runtime := with_sdk false rt.

(** X21. With credentials but an SDK whose [types.Part.from_text] takes its
    text by keyword only, no message reaches the model.  On a message that
    passes both keyword checks [ask_llm] raises [TypeError] at line 165,
    before the user turn is appended and before any request, and the
    orchestrator answers with the bare fallback message: no banner, no
    referral block.  The turn is counted and the session committed, with
    its history as it was. *)
Theorem keyword_only_sdk_reply (rt : Runtime) (user_id raw : string)
    (is_audio : bool) (w : World) :
  gemini_client rt = true ->
  part_from_text_positional rt = false ->
  ~ has_exit_phrase (normalized rt raw) ->
  ~ has_emergency_phrase (normalized rt raw) ->
  exists first st w1,
    resolve_session rt user_id raw w = (Ret (first, st), w1) /\
    ask_llm rt user_id raw (lang st) w1 = (Raise TypeError, w1) /\
    build_conversation_response rt user_id raw is_audio w =
      (Ret (fallback_message (lang st)), w1) /\
    user_sessions w1 = <[user_id := st]> (user_sessions w) /\
    gateway_calls w1 = gateway_calls w /\
    (forall s, live rt w user_id s -> history st = history s) /\
    (no_live_session rt w user_id -> history st = []).
Proof.
  intros Hconf Hpart Hexit Hem.
  destruct (normal_turn rt user_id raw is_audio w Hexit Hem)
    as [first [st [w1 [l [res [w' [turns
         [Hres [Hl [Hask [Hreply [_ [Htr [Hlive Hfresh]]]]]]]]]]]]]].
  destruct (resolve_session_spec rt user_id raw w)
    as [first' [st' [w1' [Hres' [Hstore _]]]]].
  rewrite Hres in Hres'. inversion Hres'; subst first' st' w1'.
  assert (user_sessions w1 !! user_id = Some st) as Hst
    by (rewrite Hstore; apply lookup_insert_eq).
  rewrite (ask_llm_construction_fails rt user_id raw (Some l) st w1
             Hconf Hst Hpart) in Hask.
  inversion Hask; subst res w'.
  exists first, st, w1. rewrite Hl. split; [exact Hres|].
  split; [now apply (ask_llm_construction_fails rt user_id raw (Some l) st)|].
  split; [exact Hreply|]. split; [exact Hstore|]. split; [apply Htr|]. split.
  - intros s Hs. now destruct (Hlive s Hs) as [_ [_ [H _]]].
  - intros Hno. now destruct (Hfresh Hno) as [_ [_ [H _]]].
Qed.

Lemma keyword_only_sdk_reply_witness :
  gemini_client (keyword_only_sdk healthy) = true /\
  part_from_text_positional (keyword_only_sdk healthy) = false /\
  ~ has_exit_phrase (normalized (keyword_only_sdk healthy)
                       "I have a mild headache") /\
  ~ has_emergency_phrase (normalized (keyword_only_sdk healthy)
                            "I have a mild headache") /\
  exists w',
    build_conversation_response (keyword_only_sdk healthy) "u1"
      "I have a mild headache" false empty_world =
      (Ret "Sorry, I couldn't process that right now. Please try again later.",
       w') /\
    gateway_calls w' = [] /\
    exists s', user_sessions w' !! "u1" = Some s' /\ history s' = [].
Proof.
  assert (~ has_exit_phrase (normalized (keyword_only_sdk healthy)
                               "I have a mild headache")) as Hexit
    by (apply lacks_phrases; vm_compute; reflexivity).
  assert (~ has_emergency_phrase (normalized (keyword_only_sdk healthy)
                                    "I have a mild headache")) as Hem
    by (apply lacks_phrases; vm_compute; reflexivity).
  assert (no_live_session (keyword_only_sdk healthy) empty_world "u1") as Hno
    by now left.
  split; [reflexivity|]. split; [reflexivity|].
  split; [exact Hexit|]. split; [exact Hem|].
  destruct (keyword_only_sdk_reply (keyword_only_sdk healthy) "u1"
              "I have a mild headache" false empty_world eq_refl eq_refl
              Hexit Hem)
    as [first [st [w1 [Hres [_ [Hreply [Hstore [Hcalls [_ Hfresh]]]]]]]]].
  assert (lang st = Some "en") as Hl.
  { assert (fst (resolve_session (keyword_only_sdk healthy) "u1"
                   "I have a mild headache" empty_world) =
            Ret (true, set_msg_count 1
                         (set_lang (Some "en") (fresh_session 0))))
      as Hrun by reflexivity.
    rewrite Hres in Hrun. cbn [fst] in Hrun. now inversion Hrun. }
  exists w1. rewrite Hreply, Hl. split; [reflexivity|].
  split; [exact Hcalls|]. exists st.
  split; [rewrite Hstore; apply lookup_insert_eq | exact (Hfresh Hno)].
Defined.

(** The two shapes of an assembled reply. *)
Lemma assembled_cases (banner : string) (l : option string)
    (res : result string) :
  (forall r, res = Ret r ->
     assembled banner l res = (banner +:+ r) +:+ referral_block l) /\
  (forall e, res = Raise e -> assembled banner l res = fallback_message l).
Proof. split; intros x ->; reflexivity. Qed.

(** A turn for a user without live session starts from an empty session. *)
Lemma fresh_turn (rt : Runtime) (user_id raw : string) (is_audio : bool)
    (w : World) :
  no_live_session rt w user_id ->
  ~ has_exit_phrase (normalized rt raw) ->
  ~ has_emergency_phrase (normalized rt raw) ->
  let l := Some (detected rt raw (detect_calls w)) in
  exists st w1 res w' turns,
    resolve_session rt user_id raw w = (Ret (true, st), w1) /\
    history st = [] /\ msg_count st = 1%Z /\ lang st = l /\
    ask_llm rt user_id raw l w1 = (res, w') /\
    build_conversation_response rt user_id raw is_audio w =
      (Ret (assembled (if negb is_audio then welcome_banner l else "") l res),
       w') /\
    user_sessions w' !! user_id = Some (add_history turns st) /\
    (gemini_client rt = true ->
     part_from_text_positional rt = true ->
     nth_error (gateway_calls w') (length (gateway_calls w)) =
       Some [user_turn raw]).
Proof.
  intros Hno Hexit Hem l.
  destruct (normal_turn rt user_id raw is_audio w Hexit Hem)
    as [first [st [w1 [l0 [res [w' [turns
         [Hres [Hl [Hask [Hreply [Hstore [Htr [_ Hfresh]]]]]]]]]]]]]].
  destruct (Hfresh Hno) as [-> [Hcount [Hhist ->]]].
  exists st, w1, res, w', turns. fold l in Hl, Hask, Hreply.
  repeat (split; [assumption|]). split.
  - rewrite Hstore. apply lookup_insert_eq.
  - intros Hconf Hpart.
    assert (user_sessions w1 !! user_id = Some st) as Hst.
    { destruct (resolve_session_spec rt user_id raw w)
        as [f' [st' [w1' [Hres' [Hstore' _]]]]].
      rewrite Hres in Hres'. inversion Hres'; subst f' st' w1'.
      rewrite Hstore'. apply lookup_insert_eq. }
    destruct (retry_traces rt Hconf Hpart user_id raw
                (detected rt raw (detect_calls w)) 2 0 w1 st Hst)
      as [j [res' [w'' [tail [_ [Hrun [Hcalls _]]]]]]].
    unfold ask_llm, on_exception in Hask. change (3 - 1)%nat with 2%nat in Hask.
    unfold l in Hask. rewrite Hask in Hrun. inversion Hrun; subst res' w''.
    destruct Htr as [Hsame _].
    rewrite Hcalls, Hsame, nth_error_app2, Nat.sub_diag, requests_sent_S by lia.
    cbn [nth_error]. now rewrite Hhist.
Qed.

(** X6. A text message arriving more than [SESSION_TIMEOUT] after the stored
    session's last activity starts over: the session committed for the turn
    has an empty history, message count 1 and the language detected from
    this message (whatever the old language was).  When the model turn
    returns, the reply is the welcome banner, the model's reply and the
    referral block; when the model turn raises, the reply is the bare
    fallback message, without banner.  On a configured gateway whose SDK
    builds the user turn, the first request carries this message alone, none
    of the old history. *)
Theorem expired_session_starts_over (rt : Runtime) (user_id raw : string)
    (s : Session) (w : World) :
  user_sessions w !! user_id = Some s ->
  (SESSION_TIMEOUT < time_time rt (clock_reads w) - last_seen s)%Q ->
  ~ has_exit_phrase (normalized rt raw) ->
  ~ has_emergency_phrase (normalized rt raw) ->
  let l := Some (detected rt raw (detect_calls w)) in
  exists st w1 res w' reply turns,
    resolve_session rt user_id raw w = (Ret (true, st), w1) /\
    history st = [] /\ msg_count st = 1%Z /\ lang st = l /\
    ask_llm rt user_id raw l w1 = (res, w') /\
    build_conversation_response rt user_id raw false w = (Ret reply, w') /\
    (forall r, res = Ret r ->
       reply = (welcome_banner l +:+ r) +:+ referral_block l) /\
    (forall e, res = Raise e -> reply = fallback_message l) /\
    user_sessions w' !! user_id = Some (add_history turns st) /\
    (gemini_client rt = true ->
     part_from_text_positional rt = true ->
     nth_error (gateway_calls w') (length (gateway_calls w)) =
       Some [user_turn raw]).
Proof.
  intros Hs Hlt Hexit Hem l.
  destruct (fresh_turn rt user_id raw false w)
    as [st [w1 [res [w' [turns [H1 [H2 [H3 [H4 [H5 [H6 [H7 H8]]]]]]]]]]]];
    try assumption.
  { right. exists s. now split. }
  exists st, w1, res, w', (assembled (welcome_banner l) l res), turns.
  destruct (assembled_cases (welcome_banner l) l res) as [Hret Hraise].
  repeat (split; [assumption|]). exact H8.
Qed.

Lemma expired_session_starts_over_witness :
  let w := {| user_sessions :=
                <["u1" := history_append (user_turn "old question")
                            returning_user]> ∅;
              clock_reads := 400; detect_calls := 0; gateway_calls := [];
              transcribe_calls := 0; backoff_waits := []; log := [] |} in
  (SESSION_TIMEOUT < time_time healthy (clock_reads w) - 0)%Q /\
  ~ has_exit_phrase (normalized healthy "I have a mild headache") /\
  ~ has_emergency_phrase (normalized healthy "I have a mild headache") /\
  exists w',
    build_conversation_response healthy "u1" "I have a mild headache" false w =
      (Ret ((welcome_banner (Some "en") +:+ "Rest and drink water.")
            +:+ referral_block (Some "en")), w') /\
    nth_error (gateway_calls w') 0 =
      Some [user_turn "I have a mild headache"].
Proof.
  intros w.
  assert (SESSION_TIMEOUT < time_time healthy (clock_reads w) - 0)%Q as Hlt
    by (vm_compute; reflexivity).
  assert (~ has_exit_phrase (normalized healthy "I have a mild headache"))
    as Hexit by (apply lacks_phrases; vm_compute; reflexivity).
  assert (~ has_emergency_phrase (normalized healthy "I have a mild headache"))
    as Hem by (apply lacks_phrases; vm_compute; reflexivity).
  split; [exact Hlt|]. split; [exact Hexit|]. split; [exact Hem|].
  destruct (expired_session_starts_over healthy "u1" "I have a mild headache"
              (history_append (user_turn "old question") returning_user) w
              eq_refl Hlt Hexit Hem)
    as [st [w1 [res [w' [reply [turns
         [Hres [_ [_ [_ [Hask [Hreply [Hret [_ [_ Hfirst]]]]]]]]]]]]]]].
  assert (res = Ret "Rest and drink water.") as Hmodel.
  { assert (w1 = snd (resolve_session healthy "u1" "I have a mild headache" w))
      as -> by now rewrite Hres.
    assert (fst (ask_llm healthy "u1" "I have a mild headache"
                   (Some (detected healthy "I have a mild headache"
                            (detect_calls w)))
                   (snd (resolve_session healthy "u1"
                           "I have a mild headache" w)))
            = Ret "Rest and drink water.") as Hrun
      by (vm_compute; reflexivity).
    now rewrite Hask in Hrun. }
  exists w'. rewrite Hreply, (Hret _ Hmodel).
  split; [reflexivity | exact (Hfirst eq_refl eq_refl)].
Defined.

Lemma keyword_turn_removes (rt : Runtime) (user_id raw : string)
    (is_audio : bool) (w : World) :
  has_exit_phrase (normalized rt raw) \/
  has_emergency_phrase (normalized rt raw) ->
  user_sessions
    (snd (build_conversation_response rt user_id raw is_audio w))
    !! user_id = None.
Proof.
  intros Hkey. rewrite build_conversation_response_eq.
  destruct (resolve_session_spec rt user_id raw w)
    as [first [st [w1 [Hres _]]]].
  rewrite Hres.
  destruct (any_in EXIT_WORDS (normalized rt raw)) eqn:Hexit.
  - cbn. apply lookup_delete_eq.
  - destruct Hkey as [Hkey | Hkey]; apply any_in_true_iff in Hkey;
      [congruence|].
    rewrite Hkey. cbn. apply lookup_delete_eq.
Qed.

(** X7. After a message that ended the conversation (exit or emergency
    phrase), the same user's next ordinary text message opens a new one, no
    matter how soon it comes: it is counted as a first message, the language
    is detected again from it, and the history starts empty.  When the model
    turn returns, the reply is the welcome banner, the model's reply and the
    referral block; when the model turn raises, the reply is the bare
    fallback message, without banner. *)
Theorem conversation_restarts_after_keyword (rt : Runtime)
    (user_id raw1 raw2 : string) (is_audio : bool) (w : World) :
  has_exit_phrase (normalized rt raw1) \/
  has_emergency_phrase (normalized rt raw1) ->
  ~ has_exit_phrase (normalized rt raw2) ->
  ~ has_emergency_phrase (normalized rt raw2) ->
  let w0 := snd (build_conversation_response rt user_id raw1 is_audio w) in
  let l := Some (detected rt raw2 (detect_calls w0)) in
  exists st w1 res w' reply,
    resolve_session rt user_id raw2 w0 = (Ret (true, st), w1) /\
    history st = [] /\ msg_count st = 1%Z /\ lang st = l /\
    ask_llm rt user_id raw2 l w1 = (res, w') /\
    build_conversation_response rt user_id raw2 false w0 = (Ret reply, w') /\
    (forall r, res = Ret r ->
       reply = (welcome_banner l +:+ r) +:+ referral_block l) /\
    (forall e, res = Raise e -> reply = fallback_message l).
Proof.
  intros Hkey Hexit Hem w0 l.
  destruct (fresh_turn rt user_id raw2 false w0) as
    [st [w1 [res [w' [turns [H1 [H2 [H3 [H4 [H5 [H6 _]]]]]]]]]]];
    try assumption.
  - left. apply keyword_turn_removes. exact Hkey.
  - exists st, w1, res, w', (assembled (welcome_banner l) l res).
    destruct (assembled_cases (welcome_banner l) l res) as [Hret Hraise].
    repeat split; assumption.
Qed.

Lemma conversation_restarts_after_keyword_witness :
  has_exit_phrase (normalized healthy "thanks") /\
  ~ has_exit_phrase (normalized healthy "I have a mild headache") /\
  ~ has_emergency_phrase (normalized healthy "I have a mild headache") /\
  exists w',
    build_conversation_response healthy "u1" "I have a mild headache" false
      (snd (build_conversation_response healthy "u1" "thanks" false
              (one_session returning_user))) =
      (Ret ((welcome_banner (Some "en") +:+ "Rest and drink water.")
            +:+ referral_block (Some "en")), w').
Proof.
  assert (has_exit_phrase (normalized healthy "thanks")) as Hkey.
  { exists "thanks". split; [simpl; tauto|].
    apply str_in_true_iff. vm_compute. reflexivity. }
  assert (~ has_exit_phrase (normalized healthy "I have a mild headache"))
    as Hexit by (apply lacks_phrases; vm_compute; reflexivity).
  assert (~ has_emergency_phrase (normalized healthy "I have a mild headache"))
    as Hem by (apply lacks_phrases; vm_compute; reflexivity).
  split; [exact Hkey|]. split; [exact Hexit|]. split; [exact Hem|].
  destruct (conversation_restarts_after_keyword healthy "u1" "thanks"
              "I have a mild headache" false (one_session returning_user)
              (or_introl Hkey) Hexit Hem)
    as [st [w1 [res [w' [reply [Hres [_ [_ [_ [Hask [Hreply [Hret _]]]]]]]]]]]].
  assert (res = Ret "Rest and drink water.") as Hmodel.
  { assert (w1 = snd (resolve_session healthy "u1" "I have a mild headache"
                        (snd (build_conversation_response healthy "u1"
                                "thanks" false
                                (one_session returning_user)))))
      as -> by now rewrite Hres.
    assert (fst (ask_llm healthy "u1" "I have a mild headache"
                   (Some (detected healthy "I have a mild headache"
                            (detect_calls
                               (snd (build_conversation_response healthy "u1"
                                       "thanks" false
                                       (one_session returning_user))))))
                   (snd (resolve_session healthy "u1" "I have a mild headache"
                           (snd (build_conversation_response healthy "u1"
                                   "thanks" false
                                   (one_session returning_user))))))
            = Ret "Rest and drink water.") as Hrun
      by (vm_compute; reflexivity).
    now rewrite Hask in Hrun. }
  exists w'. rewrite Hreply, (Hret _ Hmodel). reflexivity.
Defined.

Lemma emergency_message_has_number (lang0 : option string) :
  str_in "108" (dict_get EMERGENCY_MESSAGE lang0 EMERGENCY_MESSAGE_en) = true.
Proof.
  destruct lang0 as [l|]; [|vm_compute; reflexivity].
  unfold EMERGENCY_MESSAGE at 1. cbv [dict_get].
  destruct (String.eqb "hi" l); [vm_compute; reflexivity|].
  destruct (String.eqb "en" l); [vm_compute; reflexivity|].
  destruct (String.eqb "mr" l); [vm_compute; reflexivity|].
  destruct (String.eqb "bn" l); vm_compute; reflexivity.
Qed.

(** X8. Whatever language the session has, supported or not, the reply to a
    message with an emergency phrase and no exit phrase names the ambulance
    number 108. *)
Theorem emergency_reply_names_108 (rt : Runtime) (user_id raw : string)
    (is_audio : bool) (w : World) :
  has_emergency_phrase (normalized rt raw) ->
  ~ has_exit_phrase (normalized rt raw) ->
  exists reply w',
    build_conversation_response rt user_id raw is_audio w = (Ret reply, w') /\
    substring "108" reply.
Proof.
  intros Hem Hexit. apply any_in_true_iff in Hem.
  apply no_exit_phrase in Hexit.
  rewrite build_conversation_response_eq.
  destruct (resolve_session_spec rt user_id raw w)
    as [first [st [w1 [Hres _]]]].
  rewrite Hres, Hexit, Hem. eexists. eexists. split; [reflexivity|].
  apply str_in_true_iff, emergency_message_has_number.
Qed.

Lemma emergency_reply_names_108_witness :
  has_emergency_phrase (normalized healthy "Heavy bleeding from the leg") /\
  ~ has_exit_phrase (normalized healthy "Heavy bleeding from the leg") /\
  exists reply,
    fst (build_conversation_response healthy "u1"
           "Heavy bleeding from the leg" false
           (one_session returning_user)) = Ret reply /\
    substring "108" reply.
Proof.
  assert (has_emergency_phrase
            (normalized healthy "Heavy bleeding from the leg")) as Hem.
  { exists "heavy bleeding". split; [simpl; tauto|].
    apply str_in_true_iff. vm_compute. reflexivity. }
  assert (~ has_exit_phrase
            (normalized healthy "Heavy bleeding from the leg")) as Hexit
    by (apply lacks_phrases; vm_compute; reflexivity).
  split; [exact Hem|]. split; [exact Hexit|].
  destruct (emergency_reply_names_108 healthy "u1"
              "Heavy bleeding from the leg" false
              (one_session returning_user) Hem Hexit)
    as [reply [w' [Heq Hsub]]].
  exists reply. rewrite Heq. split; [reflexivity | exact Hsub].
Defined.

(** Every old turn is still there, in place, when [h'] extends [h]. *)
Definition extends (h h' : list Content) : Prop :=
  exists turns, h' = h ++ turns.

(** X9. A message that passes both keyword checks while the user's session
    is live leaves that session stored with its message count raised by
    exactly one, its last-activity time set to the clock reading taken right
    after the expiry check, its language unchanged once set, and its history
    extended at the end only. *)
Theorem live_turn_bookkeeping (rt : Runtime) (user_id raw : string)
    (is_audio : bool) (s : Session) (w : World) :
  live rt w user_id s ->
  ~ has_exit_phrase (normalized rt raw) ->
  ~ has_emergency_phrase (normalized rt raw) ->
  exists s',
    user_sessions
      (snd (build_conversation_response rt user_id raw is_audio w))
      !! user_id = Some s' /\
    msg_count s' = (msg_count s + 1)%Z /\
    last_seen s' = time_time rt (S (clock_reads w)) /\
    (forall l, lang s = Some l -> lang s' = Some l) /\
    extends (history s) (history s').
Proof.
  intros Hlive Hexit Hem.
  destruct (normal_turn rt user_id raw is_audio w Hexit Hem)
    as [first [st [w1 [l [res [w' [turns
         [_ [Hl [_ [Hreply [Hstore [_ [Hfacts _]]]]]]]]]]]]]].
  destruct (Hfacts s Hlive) as [_ [Hcount [Hhist [Hseen Hlang]]]].
  rewrite Hreply. cbn [snd]. exists (add_history turns st).
  split; [rewrite Hstore; apply lookup_insert_eq|].
  split; [exact Hcount|]. split; [exact Hseen|]. split.
  - intros l0 Hl0. cbn. rewrite Hl, Hlang. unfold frozen_language.
    now rewrite Hl0.
  - exists turns. cbn. now rewrite Hhist.
Qed.

Lemma live_turn_bookkeeping_witness :
  live healthy (one_session returning_user) "u1" returning_user /\
  ~ has_exit_phrase (normalized healthy "It began this morning") /\
  ~ has_emergency_phrase (normalized healthy "It began this morning") /\
  exists s',
    user_sessions
      (snd (build_conversation_response healthy "u1" "It began this morning"
              false (one_session returning_user))) !! "u1" = Some s' /\
    msg_count s' = 3%Z /\ lang s' = Some "hi".
Proof.
  assert (live healthy (one_session returning_user) "u1" returning_user)
    as Hlive by (split; [reflexivity | vm_compute; discriminate]).
  assert (~ has_exit_phrase (normalized healthy "It began this morning"))
    as Hexit by (apply lacks_phrases; vm_compute; reflexivity).
  assert (~ has_emergency_phrase (normalized healthy "It began this morning"))
    as Hem by (apply lacks_phrases; vm_compute; reflexivity).
  split; [exact Hlive|]. split; [exact Hexit|]. split; [exact Hem|].
  destruct (live_turn_bookkeeping healthy "u1" "It began this morning" false
              returning_user (one_session returning_user) Hlive Hexit Hem)
    as [s' [Hs' [Hcount [_ [Hlang _]]]]].
  exists s'. split; [exact Hs'|]. split; [exact Hcount|].
  now apply Hlang.
Defined.

(** ** The webhook *)

Lemma whatsapp_webhook_never_raises_aux (rt : Runtime) (form : Request)
    (w : World) :
  exists reply w', whatsapp_webhook rt form w = (Ret reply, w').
Proof.
  assert (forall body is_audio w0,
            exists reply w',
              process_text rt form body is_audio w0 = (Ret reply, w'))
    as Hprocess.
  { intros body is_audio w0. unfold process_text.
    destruct (negb (truthy (str_strip rt body))).
    - eexists. eexists. reflexivity.
    - apply build_conversation_response_never_raises_aux. }
  destruct (voice_url form) as [url|] eqn:Hvoice.
  - rewrite (whatsapp_webhook_voice rt form w url Hvoice).
    destruct (voice_prefix rt form w url)
      as [st [wg [res [wt [Hget [Htr _]]]]]].
    rewrite Hget, Htr. destruct res as [body|e]; [|eauto].
    destruct (lang st); apply Hprocess.
  - rewrite (whatsapp_webhook_text rt form w Hvoice). apply Hprocess.
Qed.

(** The replies of the webhook once the form fields are read. *)
Lemma whatsapp_webhook_replies (rt : Runtime) (form : Request)
    (w : World) :
  exists reply w',
    whatsapp_webhook rt form w = (Ret reply, w') /\
    (reply = EMPTY_NOTICE \/
     (exists l, reply = fallback_message l) \/
     (exists body is_audio w0,
        build_conversation_response rt (From form) body is_audio w0 =
          (Ret reply, w'))).
Proof.
  assert (forall body is_audio w0,
            exists reply w',
              process_text rt form body is_audio w0 = (Ret reply, w') /\
              (reply = EMPTY_NOTICE \/
               (exists l, reply = fallback_message l) \/
               (exists body is_audio w0,
                  build_conversation_response rt (From form) body is_audio w0
                    = (Ret reply, w'))))
    as Hprocess.
  { intros body is_audio w0. unfold process_text.
    destruct (negb (truthy (str_strip rt body))).
    - eexists. eexists. split; [reflexivity | now left].
    - destruct (build_conversation_response_never_raises_aux rt (From form)
                  body is_audio w0) as [reply [w' Heq]].
      exists reply, w'. split; [exact Heq|]. right. right. eauto. }
  destruct (voice_url form) as [url|] eqn:Hvoice.
  - rewrite (whatsapp_webhook_voice rt form w url Hvoice).
    destruct (voice_prefix rt form w url)
      as [st [wg [res [wt [Hget [Htr _]]]]]].
    rewrite Hget, Htr. destruct res as [body|e].
    + destruct (lang st); apply Hprocess.
    + eexists. eexists. split; [reflexivity|]. right. left. eauto.
  - rewrite (whatsapp_webhook_text rt form w Hvoice). apply Hprocess.
Qed.

(** The fields read off a form whose [NumMedia] is [n]. *)
Definition fields_of (form : gmap string string) (n : Z) : Request :=
  {| From := default "" (form !! "From");
     Body := default "" (form !! "Body");
     MediaUrl0 := form !! "MediaUrl0";
     NumMedia := n |}.

(** [NumMedia] is absent (read as 0) or [int] makes it [n]. *)
Definition num_media_is (rt : Runtime) (form : gmap string string) (n : Z)
    : Prop :=
  match form !! "NumMedia" with
  | Some field => py_int rt field = Some n
  | None => n = 0%Z
  end.

Lemma whatsapp_webhook_post_numeric (rt : Runtime)
    (form : gmap string string) (n : Z) (w : World) :
  num_media_is rt form n ->
  whatsapp_webhook_post rt form w = whatsapp_webhook rt (fields_of form n) w.
Proof.
  unfold num_media_is, whatsapp_webhook_post, read_form, int, bind, ret.
  intros Hn. destruct (form !! "NumMedia") as [field|].
  - rewrite Hn. reflexivity.
  - subst n. reflexivity.
Qed.

Lemma whatsapp_webhook_post_not_numeric (rt : Runtime)
    (form : gmap string string) (field : string) (w : World) :
  form !! "NumMedia" = Some field ->
  py_int rt field = None ->
  whatsapp_webhook_post rt form w = (Raise ValueError, w).
Proof.
  unfold whatsapp_webhook_post, read_form, int, bind, raise.
  intros Hfield Hint. rewrite Hfield, Hint. reflexivity.
Qed.

(** X10. The webhook answers every request whose [NumMedia] field is absent
    or a number: whatever the other form fields, the store and the behaviour
    of the collaborators, it raises nothing and returns a reply text, which
    is the empty-message notice, a fallback message (transcription failed),
    or what the orchestrator returned for the sender.  A request whose
    [NumMedia] is not a number is not answered: [int] raises [ValueError] at
    line 263, outside every [try], before anything is logged or looked up,
    and the exception leaves the function with the state as it was. *)
Theorem whatsapp_webhook_never_raises (rt : Runtime)
    (form : gmap string string) (w : World) :
  (forall n,
     num_media_is rt form n ->
     exists reply w',
       whatsapp_webhook_post rt form w = (Ret reply, w') /\
       (reply = EMPTY_NOTICE \/
        (exists l, reply = fallback_message l) \/
        (exists body is_audio w0,
           build_conversation_response rt (default "" (form !! "From")) body
             is_audio w0 = (Ret reply, w'))))
  /\
  (forall field,
     form !! "NumMedia" = Some field ->
     py_int rt field = None ->
     whatsapp_webhook_post rt form w = (Raise ValueError, w)).
Proof.
  split.
  - intros n Hn. rewrite (whatsapp_webhook_post_numeric rt form n w Hn).
    apply (whatsapp_webhook_replies rt (fields_of form n) w).
  - intros field. apply whatsapp_webhook_post_not_numeric.
Qed.

(** A typed message with [NumMedia] 0 is answered; the same form with
    [NumMedia] set to a word raises [ValueError] and changes nothing. *)
Lemma whatsapp_webhook_never_raises_witness :
  let typed : gmap string string :=
    <["From" := "u1"]>
      (<["Body" := "I have a mild headache"]> (<["NumMedia" := "0"]> ∅)) in
  let broken : gmap string string := <["NumMedia" := "two"]> typed in
  num_media_is healthy typed 0 /\
  (exists reply w',
     whatsapp_webhook_post healthy typed empty_world = (Ret reply, w')) /\
  broken !! "NumMedia" = Some "two" /\
  py_int healthy "two" = None /\
  whatsapp_webhook_post healthy broken empty_world =
    (Raise ValueError, empty_world).
Proof.
  intros typed broken.
  assert (num_media_is healthy typed 0) as Hn by (vm_compute; reflexivity).
  assert (broken !! "NumMedia" = Some "two") as Hfield
    by (vm_compute; reflexivity).
  split; [exact Hn|]. split.
  - destruct (whatsapp_webhook_never_raises healthy typed empty_world)
      as [Hreply _].
    destruct (Hreply 0%Z Hn) as [reply [w' [Heq _]]]. eauto.
  - split; [exact Hfield|]. split; [reflexivity|].
    destruct (whatsapp_webhook_never_raises healthy broken empty_world)
      as [_ Hraise].
    exact (Hraise "two" Hfield eq_refl).
Defined.

(** The n-th transcription cannot produce a text: Gemini is not configured,
    or the download or the request raises, or the response has no text. *)
Definition transcription_fails (rt : Runtime) (n : nat) (url : string)
    : Prop :=
  gemini_client rt = false \/
  forall t, transcribe_content rt n url <> Ret (Some t).

Lemma transcribe_failure (rt : Runtime) (url from_number : string)
    (w : World) :
  transcription_fails rt (transcribe_calls w) url ->
  exists e wt,
    transcribe_audio_gemini rt url from_number w = (Raise e, wt) /\
    user_sessions wt = user_sessions w /\
    clock_reads wt = clock_reads w /\
    detect_calls wt = detect_calls w /\
    gateway_calls wt = gateway_calls w /\
    log wt = log w /\
    (gemini_client rt = false -> wt = w).
Proof.
  intros Hfail. unfold transcribe_audio_gemini.
  destruct (gemini_client rt) eqn:Hconf; cbn [negb].
  - destruct Hfail as [Hfail | Hfail]; [congruence|].
    unfold bind, transcribe_content_call.
    destruct (transcribe_content rt (transcribe_calls w) url)
      as [[t|]|e] eqn:Ht.
    + exfalso. exact (Hfail t eq_refl).
    + eexists. eexists. split; [reflexivity|]. repeat split.
      intros H. rewrite H in Hconf. discriminate.
    + eexists. eexists. split; [reflexivity|]. repeat split.
      intros H. rewrite H in Hconf. discriminate.
  - eexists. eexists. split; [reflexivity|]. repeat split.
Qed.

(** X11. When a voice message cannot be transcribed, the webhook answers
    with [fallback_message] of the language read from the session and the
    orchestrator does not run.  For a sender without live session that
    language is [None], so the reply is the generic default (not the English
    entry) and the store is unchanged; for a live session the reply is
    localized and the only change is the refreshed [last_seen].  The message
    is not counted and the detector and the text gateway are not used. *)
Theorem untranscribable_voice_message (rt : Runtime) (form : Request)
    (url : string) (w : World) :
  voice_url form = Some url ->
  transcription_fails rt (transcribe_calls w) url ->
  exists reply w',
    whatsapp_webhook rt form w = (Ret reply, w') /\
    detect_calls w' = detect_calls w /\
    gateway_calls w' = gateway_calls w /\
    log w' = log w ++ [incoming_record; media_failure_record] /\
    (no_live_session rt w (From form) ->
       reply = "Sorry, please try again later." /\
       user_sessions w' = user_sessions w) /\
    (forall s, live rt w (From form) s ->
       reply = fallback_message (lang s) /\
       user_sessions w' =
         <[From form := refreshed rt w s]> (user_sessions w) /\
       msg_count (refreshed rt w s) = msg_count s /\
       history (refreshed rt w s) = history s).
Proof.
  intros Hvoice Hfail.
  rewrite (whatsapp_webhook_voice rt form w url Hvoice).
  destruct (live_or_not rt w (From form)) as [[s Hlive] | Hno].
  - rewrite (get_user_state_live rt (record_log incoming_record w)
               (From form) s Hlive).
    match goal with
    | |- context [transcribe_audio_gemini rt url (From form) ?w0] =>
        destruct (transcribe_failure rt url (From form) w0 Hfail)
          as [e [wt [Htr [Hstore [_ [Hdet [Hcalls [Hlog _]]]]]]]]
    end.
    rewrite Htr. eexists. eexists. split; [reflexivity|]. cbn.
    rewrite Hdet, Hcalls, Hlog, Hstore. cbn.
    split; [reflexivity|]. split; [reflexivity|].
    split; [now rewrite <- app_assoc|]. split.
    + intros [Hnone | [s' [Hs' Hlt]]]; destruct Hlive as [Hs Hle].
      * congruence.
      * rewrite Hs in Hs'. inversion Hs'; subst s'.
        exfalso. exact (Qlt_not_le _ _ Hlt Hle).
    + intros s' [Hs' _]. destruct Hlive as [Hs _].
      rewrite Hs in Hs'. inversion Hs'; subst s'. repeat split.
  - destruct (get_user_state_fresh rt (record_log incoming_record w)
                (From form) Hno) as [wg [Hget Hwg]].
    rewrite Hget.
    assert (transcribe_calls wg = transcribe_calls w) as Htc
      by (destruct Hwg as [-> | ->]; reflexivity).
    rewrite <- Htc in Hfail.
    destruct (transcribe_failure rt url (From form) wg Hfail)
      as [e [wt [Htr [Hstore [_ [Hdet [Hcalls [Hlog _]]]]]]]].
    rewrite Htr. eexists. eexists. split; [reflexivity|]. cbn.
    rewrite Hdet, Hcalls, Hlog, Hstore.
    split; [destruct Hwg as [-> | ->]; reflexivity|].
    split; [destruct Hwg as [-> | ->]; reflexivity|].
    split; [destruct Hwg as [-> | ->]; cbn; now rewrite <- app_assoc|].
    split.
    + intros _. split; [reflexivity|].
      destruct Hwg as [-> | ->]; reflexivity.
    + intros s [Hs Hle]. exfalso.
      destruct Hno as [Hnone | [s' [Hs' Hlt]]]; [congruence|].
      rewrite Hs in Hs'. inversion Hs'; subst s'.
      exact (Qlt_not_le _ _ Hlt Hle).
Qed.

Lemma untranscribable_voice_message_witness :
  let form := {| From := "u1"; Body := "";
                 MediaUrl0 := Some "https://api.twilio.com/media/ME1";
                 NumMedia := 1 |} in
  voice_url form = Some "https://api.twilio.com/media/ME1" /\
  transcription_fails (without_gemini healthy) 0
    "https://api.twilio.com/media/ME1" /\
  fst (whatsapp_webhook (without_gemini healthy) form empty_world) =
    Ret "Sorry, please try again later." /\
  fst (whatsapp_webhook (without_gemini healthy) form
         (one_session returning_user)) = Ret (fallback_message (Some "hi")).
Proof.
  intros form.
  assert (transcription_fails (without_gemini healthy) 0
            "https://api.twilio.com/media/ME1") as Hfail by now left.
  split; [reflexivity|]. split; [exact Hfail|]. split.
  - destruct (untranscribable_voice_message (without_gemini healthy) form
                "https://api.twilio.com/media/ME1" empty_world eq_refl Hfail)
      as [reply [w' [Heq [_ [_ [_ [Hnew _]]]]]]].
    rewrite Heq. cbn [fst]. f_equal. apply Hnew. now left.
  - destruct (untranscribable_voice_message (without_gemini healthy) form
                "https://api.twilio.com/media/ME1"
                (one_session returning_user) eq_refl Hfail)
      as [reply [w' [Heq [_ [_ [_ [_ Hlive]]]]]]].
    rewrite Heq. cbn [fst]. f_equal.
    apply (Hlive returning_user).
    split; [reflexivity | vm_compute; discriminate].
Defined.

(** X12. A voice message from a sender without live session whose
    transcription strips to nothing (with a [strip] that keeps the empty
    string empty) is answered with the empty-message
    notice, but, unlike an empty text, it leaves a session behind: message
    count 0, empty history, and the language detected from the empty
    transcription.  A text message that follows while this session is live
    and passes both keyword checks is therefore handled as a first message
    in that language, and its own language is not detected: when the model
    turn returns, the reply is the welcome banner in that language, the
    model's reply and the referral block; when the model turn raises, the
    reply is the bare fallback message in that language. *)
Theorem empty_transcription_commits_session (rt : Runtime) (form : Request)
    (url t : string) (w : World) :
  voice_url form = Some url ->
  gemini_client rt = true ->
  transcribe_content rt (transcribe_calls w) url = Ret (Some t) ->
  str_strip rt t = "" ->
  str_strip rt "" = "" ->
  no_live_session rt w (From form) ->
  let l := Some (detected rt "" (detect_calls w)) in
  exists w' stamp,
    whatsapp_webhook rt form w = (Ret EMPTY_NOTICE, w') /\
    user_sessions w' =
      <[From form := set_lang l (fresh_session stamp)]> (user_sessions w) /\
    gateway_calls w' = gateway_calls w /\
    (forall raw,
       live rt w' (From form) (set_lang l (fresh_session stamp)) ->
       ~ has_exit_phrase (normalized rt raw) ->
       ~ has_emergency_phrase (normalized rt raw) ->
       exists st w1 res w'' reply,
         resolve_session rt (From form) raw w' = (Ret (true, st), w1) /\
         lang st = l /\
         detect_calls w'' = detect_calls w' /\
         ask_llm rt (From form) raw l w1 = (res, w'') /\
         build_conversation_response rt (From form) raw false w' =
           (Ret reply, w'') /\
         (forall r, res = Ret r ->
            reply = (welcome_banner l +:+ r) +:+ referral_block l) /\
         (forall e, res = Raise e -> reply = fallback_message l)).
Proof.
  intros Hvoice Hconf Ht Hempty Hstrip Hno l.
  rewrite (whatsapp_webhook_voice rt form w url Hvoice).
  destruct (get_user_state_fresh rt (record_log incoming_record w)
              (From form) Hno) as [wg [Hget Hwg]].
  rewrite Hget.
  assert (transcribe_calls wg = transcribe_calls w) as Htc
    by (destruct Hwg as [-> | ->]; reflexivity).
  rewrite (transcribe_audio_gemini_text rt form url t wg Hconf)
    by (now rewrite Htc).
  cbn [lang fresh_session]. unfold process_text.
  rewrite Hempty, Hstrip. cbn [truthy negb]. unfold ret.
  assert (detect_calls (tick_transcribe wg) = detect_calls w) as Hdc
    by (destruct Hwg as [-> | ->]; reflexivity).
  rewrite Hdc. fold l.
  eexists. exists (time_time rt (Init.Nat.pred (clock_reads wg))).
  split; [reflexivity|]. cbn.
  split; [destruct Hwg as [-> | ->]; reflexivity|].
  split; [destruct Hwg as [-> | ->]; reflexivity|].
  intros raw Hlive Hexit Hem.
  match goal with
  | |- context [build_conversation_response rt (From form) raw false ?w0] =>
      destruct (normal_turn rt (From form) raw false w0 Hexit Hem)
        as [first [st [w1 [l0 [res [w'' [turns
             [Hres [Hl [Hask [Hreply [_ [_ [Hfacts _]]]]]]]]]]]]]];
      destruct (Hfacts _ Hlive) as [Hfirst [_ [_ [_ Hl0]]]];
      destruct (build_conversation_response_language rt (From form) raw
                  false w0) as [Hkept _];
      pose proof (Hkept _ _ Hlive eq_refl) as Hdet
  end.
  cbn in Hfirst. subst first. unfold frozen_language in Hl0.
  cbn in Hl0. subst l0. fold l in Hl, Hask, Hreply.
  rewrite Hreply in Hdet. cbn [snd] in Hdet.
  exists st, w1, res, w'', (assembled (welcome_banner l) l res).
  destruct (assembled_cases (welcome_banner l) l res) as [Hret Hraise].
  split; [exact Hres|]. split; [exact Hl|]. split; [exact Hdet|].
  split; [exact Hask|]. split; [exact Hreply|]. split; assumption.
Qed.

Lemma empty_transcription_commits_session_witness :
  let rt := {| gemini_client := true;
               time_time := time_time healthy;
               detect := detect healthy;
               generate_content := generate_content healthy;
               transcribe_content := fun _ _ => Ret (Some "  ");
               str_lower := str_lower healthy;
               str_upper := str_upper healthy;
               str_strip := str_strip healthy;
               part_from_text_positional := true;
               py_int := py_int healthy |} in
  let form := {| From := "u1"; Body := "";
                 MediaUrl0 := Some "https://api.twilio.com/media/ME1";
                 NumMedia := 1 |} in
  voice_url form = Some "https://api.twilio.com/media/ME1" /\
  str_strip rt "  " = "" /\
  no_live_session rt empty_world "u1" /\
  exists w' s',
    whatsapp_webhook rt form empty_world = (Ret EMPTY_NOTICE, w') /\
    user_sessions w' !! "u1" = Some s' /\
    msg_count s' = 0%Z /\ lang s' = Some "en".
Proof.
  intros rt form.
  assert (no_live_session rt empty_world "u1") as Hno by now left.
  split; [reflexivity|]. split; [reflexivity|]. split; [exact Hno|].
  destruct (empty_transcription_commits_session rt form
              "https://api.twilio.com/media/ME1" "  " empty_world
              eq_refl eq_refl eq_refl eq_refl eq_refl Hno)
    as [w' [stamp [Heq [Hstore _]]]].
  exists w'. eexists. split; [exact Heq|]. rewrite Hstore.
  split; [apply lookup_insert_eq|]. split; reflexivity.
Defined.

(** X13. A webhook call touches no session but the sender's: every other
    user's entry is the same before and after, whatever the request and
    whatever the collaborators do. *)
Theorem webhook_isolates_users (rt : Runtime) (form : Request) (w : World)
    (other : string) :
  other <> From form ->
  user_sessions (snd (whatsapp_webhook rt form w)) !! other =
    user_sessions w !! other.
Proof. apply whatsapp_webhook_frame. Qed.

Lemma webhook_isolates_users_witness :
  let form := {| From := "u2"; Body := "thanks"; MediaUrl0 := None;
                 NumMedia := 0 |} in
  "u1" <> From form /\
  user_sessions
    (snd (whatsapp_webhook healthy form (one_session returning_user)))
    !! "u1" = Some returning_user.
Proof.
  intros form.
  assert ("u1" <> From form) as Hne by discriminate.
  split; [exact Hne|].
  rewrite (webhook_isolates_users healthy form (one_session returning_user)
             "u1" Hne).
  reflexivity.
Defined.

(** The same request with its media fields cleared. *)
Definition without_media (form : Request) : Request :=
  {| From := From form; Body := Body form; MediaUrl0 := None;
     NumMedia := 0 |}.

(** X14. Media fields count only together: when [NumMedia] is zero or
    negative, or [MediaUrl0] is missing or empty, the request is handled
    exactly as the same request without media fields, as a text message,
    and no transcription is attempted. *)
Theorem media_fields_ignored (rt : Runtime) (form : Request) (w : World) :
  (NumMedia form <= 0)%Z \/ MediaUrl0 form = None \/ MediaUrl0 form = Some "" ->
  whatsapp_webhook rt form w = whatsapp_webhook rt (without_media form) w /\
  transcribe_calls (snd (whatsapp_webhook rt form w)) = transcribe_calls w.
Proof.
  intros Hcase.
  assert (voice_url form = None) as Hvoice.
  { unfold voice_url. destruct (MediaUrl0 form) as [url|]; [|reflexivity].
    destruct Hcase as [Hle | [Hnone | Hempty]].
    - destruct (Z.ltb_spec 0 (NumMedia form)); [lia | reflexivity].
    - discriminate.
    - inversion Hempty; subst url. now rewrite andb_false_r. }
  rewrite (whatsapp_webhook_text rt form w Hvoice).
  rewrite (whatsapp_webhook_text rt (without_media form) w eq_refl).
  split; [reflexivity|].
  unfold process_text.
  destruct (negb (truthy (str_strip rt (Body form)))); [reflexivity|].
  rewrite build_conversation_response_eq.
  destruct (resolve_session_spec rt (From form) (Body form)
              (record_log incoming_record w))
    as [first [st [w1 [Hres [Hstore [Htr [_ [Hlive Hfresh]]]]]]]].
  rewrite Hres. destruct Htr as [_ [_ [Htc _]]].
  destruct (any_in EXIT_WORDS _); [exact Htc|].
  destruct (any_in EMERGENCY_WORDS _); [exact Htc|].
  assert (exists l, lang st = Some l) as [l Hl].
  { destruct (live_or_not rt (record_log incoming_record w) (From form))
      as [[s Hs] | Hno].
    - destruct (Hlive s Hs) as [_ [_ [_ [_ H]]]]. eauto.
    - destruct (Hfresh Hno) as [_ [_ [_ H]]]. eauto. }
  assert (user_sessions w1 !! From form = Some st) as Hst
    by (rewrite Hstore; apply lookup_insert_eq).
  destruct (ask_llm_effect rt (From form) (Body form) l st w1 Hst)
    as [res [w' [turns [Hask [_ [_ [_ Htc']]]]]]].
  rewrite Hl, Hask. destruct res; cbn [snd]; now rewrite Htc'.
Qed.

Lemma media_fields_ignored_witness :
  let form := {| From := "u1"; Body := "I have a mild headache";
                 MediaUrl0 := Some "https://api.twilio.com/media/ME1";
                 NumMedia := 0 |} in
  (NumMedia form <= 0)%Z /\
  whatsapp_webhook healthy form empty_world =
    whatsapp_webhook healthy (without_media form) empty_world.
Proof.
  intros form.
  assert (NumMedia form <= 0)%Z as Hle by (cbn; lia).
  split; [exact Hle|].
  apply (media_fields_ignored healthy form empty_world). now left.
Defined.

(** ** The session store over several accesses *)

(** X15. Expiry slides: after an access that found the session live, the
    session expires [SESSION_TIMEOUT] after that access, not after the one
    recorded before.  A later access (no write to the store in between)
    returns the session again exactly when its clock reading is at most 300
    seconds after the reading stored by the first access, however old the
    session is; otherwise it returns a fresh one. *)
Theorem session_expiry_slides (rt : Runtime) (user_id : string) (s : Session)
    (w w2 : World) :
  live rt w user_id s ->
  user_sessions w2 = user_sessions (snd (get_user_state rt user_id w)) ->
  ((time_time rt (clock_reads w2) - time_time rt (S (clock_reads w))
      <= SESSION_TIMEOUT)%Q ->
   fst (get_user_state rt user_id w2) =
     Ret (set_last_seen (time_time rt (S (clock_reads w2))) s))
  /\
  ((SESSION_TIMEOUT <
      time_time rt (clock_reads w2) - time_time rt (S (clock_reads w)))%Q ->
   fst (get_user_state rt user_id w2) =
     Ret (fresh_session (time_time rt (S (clock_reads w2))))).
Proof.
  intros Hlive Hstore.
  rewrite (get_user_state_live rt w user_id s Hlive) in Hstore.
  cbn in Hstore.
  assert (user_sessions w2 !! user_id = Some (refreshed rt w s)) as Hs2
    by (rewrite Hstore; apply lookup_insert_eq).
  split; intros Hgap.
  - rewrite (get_user_state_live rt w2 user_id (refreshed rt w s)).
    + reflexivity.
    + split; [exact Hs2 | exact Hgap].
  - rewrite (get_user_state_expired rt w2 user_id (refreshed rt w s) Hs2 Hgap).
    reflexivity.
Qed.

Lemma session_expiry_slides_witness :
  let at_reading n :=
    {| user_sessions := <["u1" := returning_user]> ∅; clock_reads := n;
       detect_calls := 0; gateway_calls := []; transcribe_calls := 0;
       backoff_waits := []; log := [] |} in
  let w2 :=
    {| user_sessions :=
         user_sessions (snd (get_user_state healthy "u1" (at_reading 250%nat)));
       clock_reads := 500; detect_calls := 0; gateway_calls := [];
       transcribe_calls := 0; backoff_waits := []; log := [] |} in
  live healthy (at_reading 250%nat) "u1" returning_user /\
  (SESSION_TIMEOUT < time_time healthy 500 - last_seen returning_user)%Q /\
  fst (get_user_state healthy "u1" w2) =
    Ret (set_last_seen (time_time healthy 501) returning_user).
Proof.
  intros at_reading w2.
  assert (live healthy (at_reading 250%nat) "u1" returning_user) as Hlive
    by (split; [reflexivity | vm_compute; discriminate]).
  split; [exact Hlive|]. split; [vm_compute; reflexivity|].
  destruct (session_expiry_slides healthy "u1" returning_user
              (at_reading 250%nat) w2 Hlive eq_refl) as [Hstill _].
  apply Hstill. vm_compute. discriminate.
Defined.

(** X16. [get_user_state] never raises and never adds or removes an entry:
    the store has the same user ids afterwards, other users' sessions are
    untouched, and an expired session stays stored as it was (nothing is
    evicted on read). *)
Theorem get_user_state_keeps_entries (rt : Runtime) (user_id : string)
    (w : World) :
  exists state w',
    get_user_state rt user_id w = (Ret state, w') /\
    dom (user_sessions w') = dom (user_sessions w) /\
    (forall other, other <> user_id ->
       user_sessions w' !! other = user_sessions w !! other) /\
    (no_live_session rt w user_id -> user_sessions w' = user_sessions w) /\
    same_traces w w' /\ detect_calls w' = detect_calls w.
Proof.
  destruct (live_or_not rt w user_id) as [[s Hlive] | Hno].
  - rewrite (get_user_state_live rt w user_id s Hlive).
    eexists. eexists. split; [reflexivity|]. cbn.
    split; [|split; [|split; [|split]]].
    + rewrite dom_insert_L. destruct Hlive as [Hs _].
      apply subseteq_union_1_L, singleton_subseteq_l, elem_of_dom. eauto.
    + intros other Hne. now apply lookup_insert_ne.
    + intros [Hnone | [s' [Hs' Hlt]]]; destruct Hlive as [Hs Hle].
      * congruence.
      * rewrite Hs in Hs'. inversion Hs'; subst s'.
        exfalso. exact (Qlt_not_le _ _ Hlt Hle).
    + repeat split.
    + reflexivity.
  - destruct (get_user_state_fresh rt w user_id Hno) as [w' [Hget Hw']].
    rewrite Hget. eexists. eexists. split; [reflexivity|].
    destruct Hw' as [-> | ->]; cbn; repeat split.
Qed.

(** ** What every stored session looks like *)

(** Every model turn comes right after a user turn; [after_user] tells
    whether the turn before the list was a user turn. *)
Fixpoint answers_follow_questions (after_user : bool) (h : list Content)
    : bool :=
  match h with
  | [] => true
  | c :: h' =>
      match role c with
      | user => answers_follow_questions true h'
      | model => after_user && answers_follow_questions false h'
      end
  end.

(** What a session may lack before its language is frozen. *)
Definition session_shape (s : Session) : Prop :=
  (0 <= msg_count s)%Z /\ answers_follow_questions false (history s) = true.

Definition session_ok (s : Session) : Prop :=
  (exists l, lang s = Some l /\ In l SUPPORTED_LANGS) /\ session_shape s.

Definition sessions_ok (w : World) : Prop :=
  forall user_id s, user_sessions w !! user_id = Some s -> session_ok s.

Lemma answers_after_question (b : bool) (h : list Content) (c : Content)
    (turns : list Content) :
  role c = user ->
  answers_follow_questions b (h ++ c :: turns) =
    answers_follow_questions b h && answers_follow_questions true turns.
Proof.
  intros Hc. revert b. induction h as [|d h IH]; intros b; cbn.
  - now rewrite Hc.
  - destruct (role d); [apply IH|]. rewrite IH. now destruct b.
Qed.

Lemma questions_only (q : string) (k : nat) (tail : list Content) :
  answers_follow_questions true (repeat (user_turn q) k ++ tail) =
    answers_follow_questions true tail.
Proof. induction k as [|k IH]; [reflexivity | exact IH]. Qed.

Lemma detected_supported (rt : Runtime) (raw : string) (n : nat) :
  In (detected rt raw n) SUPPORTED_LANGS.
Proof.
  unfold detected. destruct (detect rt n raw) as [code|e]; [|now left].
  destruct (list_in code SUPPORTED_LANGS) eqn:Hin; [|now left].
  unfold list_in in Hin. apply existsb_exists in Hin.
  destruct Hin as [x [Hx Heq]]. apply String.eqb_eq in Heq. now subst.
Qed.

(** The turns one call of [ask_llm] adds to the stored history. *)
Definition turns_of_a_call (question : string) (turns : list Content)
    : Prop :=
  turns = [] \/
  exists j,
    turns = repeat (user_turn question) (S j) \/
    exists r, turns = repeat (user_turn question) (S j) ++ [model_turn r].

Lemma ask_llm_turns (rt : Runtime) (user_id question l : string)
    (s : Session) (w : World) :
  user_sessions w !! user_id = Some s ->
  exists res w' turns,
    ask_llm rt user_id question (Some l) w = (res, w') /\
    user_sessions w' = <[user_id := add_history turns s]> (user_sessions w) /\
    turns_of_a_call question turns.
Proof.
  intros Hs. destruct (gemini_client rt) eqn:Hconf;
    [destruct (part_from_text_positional rt) eqn:Hpart|].
  - unfold ask_llm, on_exception. change (3 - 1)%nat with 2%nat.
    destruct (retry_outcome rt Hconf Hpart user_id question l 2 0 w s Hs)
      as [j [res [w' [_ [Hrun Hout]]]]].
    exists res, w'.
    destruct Hout as [[t [_ [_ [_ [Hstore _]]]]] | [_ [_ [Hstore _]]]];
      eexists; (split; [exact Hrun|]); (split; [exact Hstore|]);
      right; exists j.
    + right. eexists. reflexivity.
    + left. now rewrite app_nil_r.
  - exists (Raise TypeError), w, [].
    split; [now apply (ask_llm_construction_fails rt user_id question
                         (Some l) s w)|].
    split; [|now left]. now rewrite add_history_nil, insert_id.
  - exists (Ret (fallback_message (Some l))), w, [].
    split; [now apply ask_llm_unconfigured|]. split; [|now left].
    now rewrite add_history_nil, insert_id.
Qed.

Lemma turns_keep_shape (question : string) (turns : list Content)
    (s : Session) :
  turns_of_a_call question turns ->
  session_shape s -> session_shape (add_history turns s).
Proof.
  intros Hturns [Hcount Hhist]. split; [exact Hcount|]. cbn.
  destruct Hturns as [-> | [j [-> | [r ->]]]].
  - now rewrite app_nil_r.
  - cbn [repeat]. rewrite answers_after_question by reflexivity.
    rewrite Hhist. cbn. rewrite <- (app_nil_r (repeat _ j)).
    now rewrite questions_only.
  - cbn [repeat app]. rewrite answers_after_question by reflexivity.
    rewrite Hhist. cbn. now rewrite questions_only.
Qed.

Lemma sessions_ok_insert (w w' : World) (user_id : string) (s : Session) :
  sessions_ok w -> session_ok s ->
  user_sessions w' = <[user_id := s]> (user_sessions w) ->
  sessions_ok w'.
Proof.
  intros Hok Hs Hstore other s' Hs'. rewrite Hstore in Hs'.
  destruct (decide (user_id = other)) as [->|Hne].
  - rewrite lookup_insert_eq in Hs'. now inversion Hs'; subst.
  - rewrite lookup_insert_ne in Hs' by exact Hne. eauto.
Qed.

Lemma sessions_ok_delete (w w' : World) (user_id : string) :
  sessions_ok w ->
  user_sessions w' = delete user_id (user_sessions w) ->
  sessions_ok w'.
Proof.
  intros Hok Hstore other s' Hs'. rewrite Hstore in Hs'.
  destruct (decide (user_id = other)) as [->|Hne].
  - rewrite lookup_delete_eq in Hs'. discriminate.
  - rewrite lookup_delete_ne in Hs' by exact Hne. eauto.
Qed.

Lemma build_conversation_response_keeps_ok (rt : Runtime)
    (user_id raw : string) (is_audio : bool) (w : World) :
  sessions_ok w ->
  sessions_ok (snd (build_conversation_response rt user_id raw is_audio w)).
Proof.
  intros Hok. rewrite build_conversation_response_eq.
  destruct (resolve_session_spec rt user_id raw w)
    as [first [st [w1 [Hres [Hstore [_ [_ [Hlive Hfresh]]]]]]]].
  rewrite Hres.
  assert (session_ok st) as Hst.
  { destruct (live_or_not rt w user_id) as [[s Hs] | Hno].
    - destruct (Hlive s Hs) as [_ [Hcount [Hhist [_ Hlang]]]].
      destruct Hs as [Hs _].
      destruct (Hok user_id s Hs) as [[l [Hl Hin]] [Hpos Hpaired]].
      split; [|split].
      + exists l. split; [|exact Hin]. rewrite Hlang.
        unfold frozen_language. now rewrite Hl.
      + lia.
      + now rewrite Hhist.
    - destruct (Hfresh Hno) as [_ [Hcount [Hhist Hlang]]].
      split; [|split].
      + eexists. split; [exact Hlang | apply detected_supported].
      + lia.
      + now rewrite Hhist. }
  assert (sessions_ok w1) as Hok1
    by exact (sessions_ok_insert w w1 user_id st Hok Hst Hstore).
  destruct (any_in EXIT_WORDS _);
    [cbn [snd]; eapply sessions_ok_delete; [exact Hok1 | reflexivity]|].
  destruct (any_in EMERGENCY_WORDS _);
    [cbn [snd]; eapply sessions_ok_delete; [exact Hok1 | reflexivity]|].
  destruct Hst as [[l [Hl Hin]] Hshape].
  assert (user_sessions w1 !! user_id = Some st) as Hlook
    by (rewrite Hstore; apply lookup_insert_eq).
  destruct (ask_llm_turns rt user_id raw l st w1 Hlook)
    as [res [w' [turns [Hask [Hstore' Hturns]]]]].
  rewrite Hl, Hask.
  assert (sessions_ok w') as Hok'.
  { apply (sessions_ok_insert w1 w' user_id (add_history turns st));
      [exact Hok1 | | exact Hstore'].
    split; [exists l; now split|].
    exact (turns_keep_shape raw turns st Hturns Hshape). }
  now destruct res.
Qed.

Lemma whatsapp_webhook_keeps_ok (rt : Runtime) (form : Request) (w : World) :
  sessions_ok w -> sessions_ok (snd (whatsapp_webhook rt form w)).
Proof.
  intros Hok.
  assert (forall body is_audio w0,
            sessions_ok w0 ->
            sessions_ok (snd (process_text rt form body is_audio w0)))
    as Hprocess.
  { intros body is_audio w0 Hok0. unfold process_text.
    destruct (negb (truthy (str_strip rt body))); [exact Hok0|].
    now apply build_conversation_response_keeps_ok. }
  destruct (voice_url form) as [url|] eqn:Hvoice.
  - rewrite (whatsapp_webhook_voice rt form w url Hvoice).
    destruct (voice_prefix rt form w url)
      as [st [wg [res [wt [Hget [Htr [Hstore [_ [_ Hcase]]]]]]]]].
    rewrite Hget, Htr.
    assert (sessions_ok wt /\ session_shape st) as [Hokt Hshape].
    { destruct Hcase as [[s [[Hs _] [-> [Hwg _]]]] | [_ [-> [Hwg _]]]].
      - destruct (Hok (From form) s Hs) as [Hlang Hsh].
        split; [|exact Hsh].
        apply (sessions_ok_insert w wt (From form) (refreshed rt w s));
          [exact Hok | now split | now rewrite Hstore].
      - split; [|split; [cbn; lia | reflexivity]].
        intros other s' Hs'. rewrite Hstore, Hwg in Hs'. eauto. }
    destruct res as [body|e]; [|exact Hokt].
    destruct (lang st) as [l0|] eqn:Hl0.
    + apply Hprocess. exact Hokt.
    + apply Hprocess.
      match goal with
      | |- sessions_ok
             (set_sessions (<[_ := ?s0]> _) (tick_detect ?w0)) =>
          apply (sessions_ok_insert wt _ (From form) s0);
            [exact Hokt | | reflexivity]
      end.
      split; [|exact Hshape].
      eexists. split; [reflexivity | apply detected_supported].
  - rewrite (whatsapp_webhook_text rt form w Hvoice).
    apply Hprocess. exact Hok.
Qed.

(** ** Runs of the webhook *)

(** The requests of a run handled one after the other, each to completion:
    the replies (or the exception handed to the framework) and the final
    world. *)
Fixpoint serve (rt : Runtime) (forms : list Request) (w : World)
    : list (result string) * World :=
  match forms with
  | [] => ([], w)
  | form :: rest =>
      let (r, w1) := whatsapp_webhook rt form w in
      let (rs, w2) := serve rt rest w1 in
      (r :: rs, w2)
  end.

(** X17. Over any run of requests handled one after the other, starting from
    a store whose sessions are well formed (the empty store in particular),
    every stored session stays well formed: its language is one of the four
    supported codes, its message count is not negative, and in its history
    every model turn comes right after a user turn. *)
Theorem stored_sessions_stay_well_formed (rt : Runtime)
    (forms : list Request) (w : World) :
  sessions_ok w -> sessions_ok (snd (serve rt forms w)).
Proof.
  revert w. induction forms as [|form rest IH]; intros w Hok; [exact Hok|].
  cbn [serve].
  pose proof (whatsapp_webhook_keeps_ok rt form w Hok) as Hstep.
  destruct (whatsapp_webhook rt form w) as [r w1]. cbn [snd] in Hstep.
  specialize (IH w1 Hstep). destruct (serve rt rest w1) as [rs w2].
  exact IH.
Qed.

Lemma stored_sessions_stay_well_formed_witness :
  let forms :=
    [{| From := "u1"; Body := "I have a mild headache"; MediaUrl0 := None;
        NumMedia := 0 |};
     {| From := "u2"; Body := "";
        MediaUrl0 := Some "https://api.twilio.com/media/ME1";
        NumMedia := 1 |};
     {| From := "u1"; Body := "It began this morning"; MediaUrl0 := None;
        NumMedia := 0 |}] in
  sessions_ok empty_world /\
  sessions_ok (snd (serve flaky forms empty_world)) /\
  exists s,
    user_sessions (snd (serve flaky forms empty_world)) !! "u1" = Some s /\
    msg_count s = 2%Z.
Proof.
  intros forms.
  assert (sessions_ok empty_world) as Hok.
  { intros user_id s Hs. cbn in Hs. rewrite lookup_empty in Hs.
    discriminate. }
  split; [exact Hok|]. split.
  - exact (stored_sessions_stay_well_formed flaky forms empty_world Hok).
  - eexists. split; [vm_compute; reflexivity | reflexivity].
Defined.

(** The posted forms of a run handled one after the other, each to
    completion: the replies (or the exception handed to the framework) and
    the final world. *)
Fixpoint serve_posts (rt : Runtime) (forms : list (gmap string string))
    (w : World) : list (result string) * World :=
  match forms with
  | [] => ([], w)
  | form :: rest =>
      let (r, w1) := whatsapp_webhook_post rt form w in
      let (rs, w2) := serve_posts rt rest w1 in
      (r :: rs, w2)
  end.

(** [NumMedia] is absent or [int] accepts it. *)
Definition numeric (rt : Runtime) (form : gmap string string) : bool :=
  match form !! "NumMedia" with
  | Some field =>
      match py_int rt field with
      | Some _ => true
      | None => false
      end
  | None => true
  end.

(** X18. Over any run of posted forms handled one after the other, every
    request whose [NumMedia] field is absent or a number gets a reply, and
    every other request ends in the [ValueError] of line 263 instead of a
    reply; there are as many outcomes as requests, so a run of requests with
    numeric [NumMedia] is answered throughout. *)
Theorem every_request_is_answered (rt : Runtime)
    (forms : list (gmap string string)) (w : World) :
  Forall2
    (fun form r =>
       if numeric rt form then exists reply, r = Ret reply
       else r = Raise ValueError)
    forms (fst (serve_posts rt forms w)) /\
  length (fst (serve_posts rt forms w)) = length forms /\
  (Forall (fun form => numeric rt form = true) forms ->
   Forall (fun r => exists reply, r = Ret reply)
     (fst (serve_posts rt forms w))).
Proof.
  assert (forall forms w,
            Forall2
              (fun form r =>
                 if numeric rt form then exists reply, r = Ret reply
                 else r = Raise ValueError)
              forms (fst (serve_posts rt forms w))) as Hall.
  { clear forms w. induction forms as [|form rest IH]; intros w.
    - constructor.
    - cbn [serve_posts].
      assert (if numeric rt form
              then exists reply w1,
                     whatsapp_webhook_post rt form w = (Ret reply, w1)
              else whatsapp_webhook_post rt form w = (Raise ValueError, w))
        as Hstep.
      { unfold numeric.
        destruct (form !! "NumMedia") as [field|] eqn:Hfield.
        - destruct (py_int rt field) as [n|] eqn:Hint.
          + rewrite (whatsapp_webhook_post_numeric rt form n w)
              by (unfold num_media_is; now rewrite Hfield).
            apply whatsapp_webhook_never_raises_aux.
          + now apply (whatsapp_webhook_post_not_numeric rt form field).
        - rewrite (whatsapp_webhook_post_numeric rt form 0 w)
            by (unfold num_media_is; now rewrite Hfield).
          apply whatsapp_webhook_never_raises_aux. }
      destruct (numeric rt form) eqn:Hnum.
      + destruct Hstep as [reply [w1 Heq]]. rewrite Heq.
        specialize (IH w1). destruct (serve_posts rt rest w1) as [rs w2].
        cbn [fst] in *. constructor; [rewrite Hnum; eauto | exact IH].
      + rewrite Hstep. specialize (IH w).
        destruct (serve_posts rt rest w) as [rs w2].
        cbn [fst] in *. constructor; [now rewrite Hnum | exact IH]. }
  split; [apply Hall|]. split.
  - symmetry. exact (Forall2_length _ _ _ (Hall forms w)).
  - intros Hnum. specialize (Hall forms w).
    induction Hall as [|form r rest rs Hr _ IH]; constructor.
    + inversion Hnum; subst. match goal with H : numeric _ _ = true |- _ =>
        rewrite H in Hr end. exact Hr.
    + apply IH. now inversion Hnum.
Qed.

(** A run of three posts, the second with a [NumMedia] that is no number:
    the first is answered, the second ends in [ValueError]. *)
Lemma every_request_is_answered_witness :
  let typed : gmap string string :=
    <["From" := "u1"]>
      (<["Body" := "I have a mild headache"]> (<["NumMedia" := "0"]> ∅)) in
  let broken : gmap string string := <["NumMedia" := "two"]> typed in
  let outcomes := fst (serve_posts healthy [typed; broken; typed] empty_world) in
  numeric healthy typed = true /\
  numeric healthy broken = false /\
  (exists reply, outcomes !! 0%nat = Some (Ret reply)) /\
  outcomes !! 1%nat = Some (Raise ValueError) /\
  length outcomes = 3%nat.
Proof.
  intros typed broken outcomes.
  assert (numeric healthy typed = true) as Hyes by (vm_compute; reflexivity).
  assert (numeric healthy broken = false) as Hno by (vm_compute; reflexivity).
  split; [exact Hyes|]. split; [exact Hno|].
  destruct (every_request_is_answered healthy [typed; broken; typed]
              empty_world) as [Hall [Hlen _]].
  fold outcomes in Hall, Hlen.
  destruct (Forall2_lookup_l _ _ _ 0%nat typed Hall eq_refl)
    as [r0 [Hr0 P0]].
  destruct (Forall2_lookup_l _ _ _ 1%nat broken Hall eq_refl)
    as [r1 [Hr1 P1]].
  cbv beta in P0, P1. rewrite Hyes in P0. rewrite Hno in P1.
  destruct P0 as [reply ->]. subst r1.
  split; [exists reply; exact Hr0|]. split; [exact Hr1 | exact Hlen].
Defined.

(** ** The media download *)

(** [new.join(...)] around every character: what [s.replace("", new)]
    returns. *)
Fixpoint intersperse (new s : string) : string :=
  match s with
  | EmptyString => new
  | String c s' => new +:+ String c (intersperse new s')
  end.

(** The scan of [s.replace(old, new)] for a non-empty [old]: [skip]
    characters of a match just replaced are still to be passed over. *)
Fixpoint replace_from (skip : nat) (old new s : string) : string :=
  match s with
  | EmptyString => EmptyString
  | String c s' =>
      match skip with
      | S k => replace_from k old new s'
      | O =>
          if String.prefix old s
          then new +:+ replace_from (String.length old - 1) old new s'
          else String c (replace_from 0 old new s')
      end
  end.

(** [s.replace(old, new)]: all non-overlapping occurrences, left to right. *)
Definition str_replace_all (old new s : string) : string :=
  match old with
  | EmptyString => intersperse new s
  | String _ _ => replace_from 0 old new s
  end.

Section Download.
(** [twilio_client is not None] *)
Variable twilio_client : bool.
(** [requests.get(url, auth=...)] followed by [raise_for_status()]: the
    response content, or the exception raised by either. *)
Variable requests_get : string -> result string.

Definition download_media_as_bytes (media_url : string) : result string :=
  if negb twilio_client then
    Raise (Exception "Twilio client is not configured for media download.")
  else
    let download_url := str_replace_all ".json" "" media_url in
    requests_get download_url.

End Download.

Lemma replace_absent (old new s : string) :
  old <> "" -> ~ substring old s -> str_replace_all old new s = s.
Proof.
  intros Hold Hnot. unfold str_replace_all.
  destruct old as [|o old']; [congruence|]. clear Hold.
  induction s as [|c s IH]; [reflexivity|].
  cbn [replace_from].
  destruct (String.prefix (String o old') (String c s)) eqn:Hpre.
  - exfalso. apply Hnot. apply prefix_true_iff in Hpre.
    destruct Hpre as [post Hpost]. exists "", post. exact Hpost.
  - f_equal. apply IH. intros [pre [post Heq]]. apply Hnot.
    exists (String c pre), post. cbn. now rewrite Heq.
Qed.

Lemma json_suffix_not_earlier (c : ascii) (u : string) :
  ~ substring ".json" (String c u) ->
  String.prefix ".json" (String c (u +:+ ".json")) = false.
Proof.
  intros Hnot.
  destruct (String.prefix ".json" (String c (u +:+ ".json"))) eqn:Hpre;
    [|reflexivity].
  exfalso. apply prefix_true_iff in Hpre. destruct Hpre as [post Hpost].
  cbn in Hpost. inversion Hpost as [[Hc Hrest]]. clear Hpost.
  destruct u as [|c1 u]; cbn in Hrest; [discriminate|].
  inversion Hrest as [[Hc1 Hrest1]]. clear Hrest.
  destruct u as [|c2 u]; cbn in Hrest1; [discriminate|].
  inversion Hrest1 as [[Hc2 Hrest2]]. clear Hrest1.
  destruct u as [|c3 u]; cbn in Hrest2; [discriminate|].
  inversion Hrest2 as [[Hc3 Hrest3]]. clear Hrest2.
  destruct u as [|c4 u]; cbn in Hrest3; [discriminate|].
  inversion Hrest3 as [[Hc4 Hrest4]]. clear Hrest3.
  apply Hnot. exists "", u. cbn. now subst.
Qed.

Lemma replace_json_suffix (u : string) :
  ~ substring ".json" u ->
  str_replace_all ".json" "" (u +:+ ".json") = u.
Proof.
  intros Hnot. unfold str_replace_all.
  induction u as [|c u IH]; [reflexivity|].
  change (String c u +:+ ".json") with (String c (u +:+ ".json")).
  cbn [replace_from]. rewrite (json_suffix_not_earlier c u Hnot).
  f_equal. apply IH. intros [pre [post Heq]]. apply Hnot.
  exists (String c pre), post. cbn. now rewrite Heq.
Qed.

(** X19. [download_media_as_bytes] refuses to work without Twilio
    credentials, raising before any HTTP request.  With them it fetches the
    media URL with every [.json] removed: a URL without [.json] is fetched
    as it is, and a URL ending in [.json] (and holding none before) is
    fetched without that ending; whatever the fetch returns or raises is the
    result. *)
Theorem download_strips_json (requests_get : string -> result string)
    (media_url : string) :
  ~ substring ".json" media_url ->
  download_media_as_bytes true requests_get media_url =
    requests_get media_url /\
  download_media_as_bytes true requests_get (media_url +:+ ".json") =
    requests_get media_url /\
  (forall url,
     download_media_as_bytes false requests_get url =
       Raise (Exception "Twilio client is not configured for media download.")).
Proof.
  intros Hnot. unfold download_media_as_bytes. cbn [negb].
  rewrite (replace_absent ".json" "" media_url) by (discriminate || exact Hnot).
  rewrite (replace_json_suffix media_url Hnot).
  repeat split.
Qed.

Lemma download_strips_json_witness :
  let fetch := fun url : string => Ret ("content of " +:+ url) in
  ~ substring ".json" "https://api.twilio.com/Media/ME1" /\
  download_media_as_bytes true fetch "https://api.twilio.com/Media/ME1.json" =
    Ret "content of https://api.twilio.com/Media/ME1".
Proof.
  intros fetch.
  assert (~ substring ".json" "https://api.twilio.com/Media/ME1") as Hnot.
  { intros H. apply str_in_true_iff in H. vm_compute in H. discriminate. }
  split; [exact Hnot|].
  destruct (download_strips_json fetch "https://api.twilio.com/Media/ME1" Hnot)
    as [_ [Hsuffix _]].
  exact Hsuffix.
Defined.

(** ** A conversation opened by a voice message *)

(** X20. A transcribed voice message from a sender without live session that
    passes both keyword checks is answered without the welcome banner,
    although it is the first message of its session: the model is asked in
    the language detected from the transcription, and the reply is exactly
    the model's reply followed by the referral block, with nothing put in
    front of it, when the model turn returns, and the bare fallback message
    when it raises.  The session is left with message count 1 and that
    language. *)
Theorem voice_first_message_gets_no_banner (rt : Runtime) (form : Request)
    (url t : string) (w : World) :
  voice_url form = Some url ->
  gemini_client rt = true ->
  transcribe_content rt (transcribe_calls w) url = Ret (Some t) ->
  truthy (str_strip rt (str_strip rt t)) = true ->
  ~ has_exit_phrase (normalized rt (str_strip rt t)) ->
  ~ has_emergency_phrase (normalized rt (str_strip rt t)) ->
  no_live_session rt w (From form) ->
  steady_clock rt w ->
  let l := Some (detected rt (str_strip rt t) (detect_calls w)) in
  exists w1 res w' reply s',
    ask_llm rt (From form) (str_strip rt t) l w1 = (res, w') /\
    whatsapp_webhook rt form w = (Ret reply, w') /\
    (forall r, res = Ret r -> reply = r +:+ referral_block l) /\
    (forall e, res = Raise e -> reply = fallback_message l) /\
    user_sessions w' !! From form = Some s' /\
    msg_count s' = 1%Z /\ lang s' = l.
Proof.
  intros Hvoice Hconf Ht Hbody Hexit Hem Hno Hsteady l.
  rewrite (whatsapp_webhook_voice rt form w url Hvoice).
  destruct (get_user_state_fresh rt (record_log incoming_record w)
              (From form) Hno) as [wg [Hget Hwg]].
  rewrite Hget.
  assert (transcribe_calls wg = transcribe_calls w) as Htc
    by (destruct Hwg as [-> | ->]; reflexivity).
  rewrite (transcribe_audio_gemini_text rt form url t wg Hconf)
    by (now rewrite Htc).
  cbn [lang fresh_session]. unfold process_text.
  rewrite Hbody. cbn [negb].
  assert (detect_calls (tick_transcribe wg) = detect_calls w) as Hdc
    by (destruct Hwg as [-> | ->]; reflexivity).
  rewrite Hdc. fold l.
  match goal with
  | |- context [build_conversation_response rt (From form) ?body true ?w0] =>
      destruct (normal_turn rt (From form) body true w0 Hexit Hem)
        as [first [st [w1 [l0 [res [w' [turns
             [_ [Hl [Hask [Hreply [Hstore [_ [Hfacts _]]]]]]]]]]]]]];
      destruct (Hfacts (set_lang l
                          (fresh_session
                             (time_time rt (Init.Nat.pred (clock_reads wg))))))
        as [Hfirst [Hcount [_ [_ Hl0]]]]
  end.
  { split; [cbn; apply lookup_insert_eq|]. cbn.
    destruct Hwg as [-> | ->]; cbn; apply Hsteady; lia. }
  rewrite Hreply. rewrite andb_false_r.
  unfold frozen_language in Hl0. cbn in Hl0. subst l0. fold l in Hask |- *.
  exists w1, res, w', (assembled "" l res), (add_history turns st).
  destruct (assembled_cases "" l res) as [Hret Hraise].
  split; [exact Hask|]. split; [reflexivity|].
  split; [exact Hret|]. split; [exact Hraise|].
  split; [rewrite Hstore; apply lookup_insert_eq|].
  split; [exact Hcount | exact Hl].
Qed.

Lemma voice_first_message_gets_no_banner_witness :
  let form := {| From := "u1"; Body := "";
                 MediaUrl0 := Some "https://api.twilio.com/media/ME1";
                 NumMedia := 1 |} in
  voice_url form = Some "https://api.twilio.com/media/ME1" /\
  ~ has_exit_phrase (normalized healthy "I have a mild headache") /\
  ~ has_emergency_phrase (normalized healthy "I have a mild headache") /\
  no_live_session healthy empty_world "u1" /\
  steady_clock healthy empty_world /\
  exists w' s',
    whatsapp_webhook healthy form empty_world =
      (Ret ("Rest and drink water." +:+ referral_block (Some "en")), w') /\
    user_sessions w' !! "u1" = Some s' /\
    msg_count s' = 1%Z.
Proof.
  intros form.
  assert (~ has_exit_phrase (normalized healthy "I have a mild headache"))
    as Hexit by (apply lacks_phrases; vm_compute; reflexivity).
  assert (~ has_emergency_phrase (normalized healthy "I have a mild headache"))
    as Hem by (apply lacks_phrases; vm_compute; reflexivity).
  assert (no_live_session healthy empty_world "u1") as Hno by now left.
  pose proof (demo_steady_clock 0 (Some " Rest and drink water. ") empty_world)
    as Hsteady.
  split; [reflexivity|]. split; [exact Hexit|]. split; [exact Hem|].
  split; [exact Hno|]. split; [exact Hsteady|].
  destruct (voice_first_message_gets_no_banner healthy form
              "https://api.twilio.com/media/ME1" "I have a mild headache"
              empty_world eq_refl eq_refl eq_refl eq_refl Hexit Hem Hno
              Hsteady)
    as [w1 [res [w' [reply [s' [Hask [Heq [Hret [_ [Hs' [Hcount _]]]]]]]]]]].
  assert (fst (whatsapp_webhook healthy form empty_world) =
          Ret ("Rest and drink water." +:+ referral_block (Some "en")))
    as Hrun by (vm_compute; reflexivity).
  rewrite Heq in Hrun. cbn [fst] in Hrun. inversion Hrun; subst reply.
  exists w', s'. split; [exact Heq|]. split; [exact Hs' | exact Hcount].
Defined.

(** An expired session read at reading 400 is still stored afterwards. *)
Lemma get_user_state_keeps_entries_witness :
  let w := {| user_sessions := <["u1" := returning_user]> ∅;
              clock_reads := 400; detect_calls := 0; gateway_calls := [];
              transcribe_calls := 0; backoff_waits := []; log := [] |} in
  no_live_session healthy w "u1" /\
  user_sessions (snd (get_user_state healthy "u1" w)) = user_sessions w.
Proof.
  intros w.
  assert (no_live_session healthy w "u1") as Hno.
  { right. exists returning_user. split; [reflexivity|].
    vm_compute. reflexivity. }
  split; [exact Hno|].
  destruct (get_user_state_keeps_entries healthy "u1" w)
    as [state [w' [Heq [_ [_ [Hkeep _]]]]]].
  rewrite Heq. exact (Hkeep Hno).
Defined.
